(** * nova.volume: drivers and manager for network-attached block volumes

    A shallow embedding of [nova/volume/driver.py] and
    [nova/volume/manager.py].  Python methods become functions in a small
    state-and-exception monad over a [world] made of the persistent store and
    the ordered trace of everything the code asked of its collaborators (the
    injected [execute] capability and the store).  *)

From Stdlib Require Import String Ascii ZArith List Bool Lia DecimalString.
From Stdlib Require Import Permutation FinFun.
Import ListNotations.
Local Open Scope string_scope.
Local Open Scope Z_scope.

(** ** Python strings *)

Module Py.

(** [str(n)] / ["%s" % n] for an integer. *)
Definition str (n : Z) : string := NilZero.string_of_int (Z.to_int n).

(** [needle in hay] for two strings. *)
Fixpoint contains (needle hay : string) : bool :=
  String.prefix needle hay ||
  match hay with
  | EmptyString => false
  | String _ rest => contains needle rest
  end.

Definition ascii_lf : ascii := Ascii.ascii_of_nat 10.
Definition ascii_cr : ascii := Ascii.ascii_of_nat 13.

(** [s.splitlines()] of a byte string: breaks at LF, CR and CR LF, keeps
    no line ends and yields no empty last line.  [cur] is the line being
    read. *)
Fixpoint splitlines_from (cur : string) (s : string) : list string :=
  match s with
  | EmptyString =>
      match cur with
      | EmptyString => []
      | _ => [cur]
      end
  | String c rest =>
      if Ascii.eqb c ascii_lf then cur :: splitlines_from EmptyString rest
      else if Ascii.eqb c ascii_cr then
        match rest with
        | String c' rest' =>
            if Ascii.eqb c' ascii_lf
            then cur :: splitlines_from EmptyString rest'
            else cur :: splitlines_from EmptyString rest
        | EmptyString => [cur]
        end
      else splitlines_from (cur ++ String c EmptyString) rest
  end.

Definition splitlines (s : string) : list string :=
  splitlines_from EmptyString s.

(** [s.partition(sep)] for a one-character separator: the text before the
    first separator, the separator, the text after it; [(s, "", "")] when
    there is none. *)
Fixpoint partition (sep : ascii) (s : string) : string * string * string :=
  match s with
  | EmptyString => (EmptyString, EmptyString, EmptyString)
  | String c rest =>
      if Ascii.eqb c sep then (EmptyString, String sep EmptyString, rest)
      else
        match partition sep rest with
        | (before, found, after) => (String c before, found, after)
        end
  end.

(** [s.split(sep)[0]] for a one-character separator. *)
Definition split_first (sep : ascii) (s : string) : string :=
  fst (fst (partition sep s)).

End Py.

(** ** Exceptions and results *)

Inductive exn : Type :=
| ProcessExecutionError (description : string)
| Error (message : string)
| NotImplementedError
| UnboundLocalError (variable : string)
| AttributeError (message : string)
| NotFound (message : string)
| StoreError (message : string).

Inductive result (A : Type) : Type :=
| Ret (a : A)
| Raise (e : exn)
| OutOfFuel.

Arguments Ret {A} a.
Arguments Raise {A} e.
Arguments OutOfFuel {A}.

(** ** Flags *)

Record flags : Type := {
  volume_group : string;
  aoe_eth_dev : string;
  num_shell_tries : Z;
  num_shelves : Z;
  blades_per_shelf : Z;
  iscsi_target_ids : Z;
  iscsi_target_prefix : string;
  iscsi_ip_prefix : string;
  use_local_volumes : bool
}.

(** The defaults of the [flags.DEFINE_*] declarations.  [num_shell_tries]
    is declared with [DEFINE_string] and the integer default 3; it is
    compared with the integer [tries], and is an integer here. *)
Definition default_flags : flags := {|
  volume_group := "nova-volumes";
  aoe_eth_dev := "eth0";
  num_shell_tries := 3;
  num_shelves := 100;
  blades_per_shelf := 16;
  iscsi_target_ids := 100;
  iscsi_target_prefix := "iqn.2010-10.org.openstack:";
  iscsi_ip_prefix := "127.0";
  use_local_volumes := true
|}.

(** The value the flag parser leaves in [FLAGS.num_shell_tries].  The flag is
    declared with [flags.DEFINE_string]: untouched it is the integer default
    3, set on the command line or in a flag file it is the text given. *)
Inductive flag_value : Type :=
| FlagInt (n : Z)
| FlagStr (s : string).

(** [tries >= limit] in Python 2 for an integer [tries]: two integers are
    compared as numbers, and a number sorts before every string, so the
    test is false against any string. *)
Definition tries_ge (tries : Z) (limit : flag_value) : bool :=
  match limit with
  | FlagInt n => tries >=? n
  | FlagStr _ => false
  end.

(** ** The persistent store *)

Record volume : Type := {
  v_id : Z;
  v_name : string;
  v_size : Z;
  v_host : string;
  v_status : string;
  v_attach_status : string;
  v_launched_at : option Z
}.

Record export_device : Type := {
  shelf_id : Z;
  blade_id : Z;
  ed_volume_id : option Z
}.

Record iscsi_target : Type := {
  t_host : string;
  target_id : Z;
  t_volume_id : option Z
}.

Record store : Type := {
  volumes : list volume;
  export_devices : list export_device;
  iscsi_targets : list iscsi_target
}.

(** The [values] dictionary of [volume_update]. *)
Inductive value : Type :=
| Host (h : string)
| Status (s : string)
| LaunchedAt (t : Z).

(** ** Events and the world *)

Inductive db_call : Type :=
| VolumeGet (volume_id : Z)
| VolumeUpdate (volume_id : Z) (values : list value)
| VolumeDestroy (volume_id : Z)
| ExportDeviceCount
| ExportDeviceCreateSafe (shelf blade : Z)
| VolumeAllocateShelfAndBlade (volume_id : Z)
| VolumeGetShelfAndBlade (volume_id : Z)
| TargetIdCountByHost (host : string)
| TargetIdCreateSafe (host : string) (tid : Z)
| VolumeAllocateTargetId (volume_id : Z) (host : string)
| VolumeGetTargetId (volume_id : Z).

Inductive event : Type :=
| Exec (cmd : string)
| Db (call : db_call).

Record world : Type := {
  db : store;
  utcnow : Z;
  trace : list event
}.

Definition record_event (e : event) (w : world) : world :=
  {| db := db w; utcnow := utcnow w; trace := trace w ++ [e] |}.

Definition with_db (s : store) (w : world) : world :=
  {| db := s; utcnow := utcnow w; trace := trace w |}.

(** ** The monad of methods *)

Definition M (A : Type) : Type := world -> result A * world.

Definition ret {A} (a : A) : M A := fun w => (Ret a, w).

Definition raise {A} (e : exn) : M A := fun w => (Raise e, w).

Definition bind {A B} (m : M A) (k : A -> M B) : M B :=
  fun w =>
    match m w with
    | (Ret a, w') => k a w'
    | (Raise e, w') => (Raise e, w')
    | (OutOfFuel, w') => (OutOfFuel, w')
    end.

Declare Scope py_scope.
Delimit Scope py_scope with py.
Notation "x <- m ;; k" := (bind m (fun x => k))
  (at level 61, m at next level, right associativity) : py_scope.
Notation "m ;; k" := (bind m (fun _ => k))
  (at level 61, right associativity) : py_scope.
Local Open Scope py_scope.

(** [try: body / except exception.ProcessExecutionError: handler]. *)
Definition try_except_ProcessExecutionError {A}
    (body : M A) (handler : string -> M A) : M A :=
  fun w =>
    match body w with
    | (Raise (ProcessExecutionError d), w') => handler d w'
    | other => other
    end.

(** [for x in l: body x]. *)
Fixpoint for_in {A} (l : list A) (body : A -> M unit) : M unit :=
  match l with
  | [] => ret tt
  | x :: rest => body x ;; for_in rest body
  end.

(** [xrange(lo, hi)]. *)
Definition xrange (lo hi : Z) : list Z :=
  map (fun i => lo + Z.of_nat i) (seq 0 (Z.to_nat (hi - lo))).

(** ** The store's operations

    The store is a collaborator of these two files ([self.db]); its
    operations are the ones the drivers and the manager call. *)

Module Store.

Definition call {A} (c : db_call) (f : store -> result A * store) : M A :=
  fun w =>
    let w' := record_event (Db c) w in
    match f (db w') with
    | (r, s) => (r, with_db s w')
    end.

Definition set_value (x : value) (v : volume) : volume :=
  match x with
  | Host h =>
      {| v_id := v_id v; v_name := v_name v; v_size := v_size v;
         v_host := h; v_status := v_status v;
         v_attach_status := v_attach_status v;
         v_launched_at := v_launched_at v |}
  | Status s =>
      {| v_id := v_id v; v_name := v_name v; v_size := v_size v;
         v_host := v_host v; v_status := s;
         v_attach_status := v_attach_status v;
         v_launched_at := v_launched_at v |}
  | LaunchedAt t =>
      {| v_id := v_id v; v_name := v_name v; v_size := v_size v;
         v_host := v_host v; v_status := v_status v;
         v_attach_status := v_attach_status v;
         v_launched_at := Some t |}
  end.

Definition set_values (values : list value) (v : volume) : volume :=
  fold_left (fun acc x => set_value x acc) values v.

Definition has_id (volume_id : Z) (v : volume) : bool := v_id v =? volume_id.

Definition lookup_volume (volume_id : Z) (s : store) : option volume :=
  find (has_id volume_id) (volumes s).

(** Modelled from the spec: the store's "get a volume by ID", whose code is
    not in these files; an unknown ID is a failure of the store. *)
Definition volume_get (volume_id : Z) : M volume :=
  call (VolumeGet volume_id) (fun s =>
    match lookup_volume volume_id s with
    | Some v => (Ret v, s)
    | None => (Raise (StoreError "volume not found"), s)
    end).

Definition update_volume (volume_id : Z) (values : list value) (s : store)
    : store :=
  {| volumes := map (fun v => if has_id volume_id v
                              then set_values values v else v)
                    (volumes s);
     export_devices := export_devices s;
     iscsi_targets := iscsi_targets s |}.

(** Modelled from the spec: the store's "update a volume by ID", whose code
    is not in these files; it writes the given columns of the record. *)
Definition volume_update (volume_id : Z) (values : list value) : M unit :=
  call (VolumeUpdate volume_id values) (fun s =>
    match lookup_volume volume_id s with
    | Some _ => (Ret tt, update_volume volume_id values s)
    | None => (Raise (StoreError "volume not found"), s)
    end).

(** Modelled from the spec: the store's "destroy a volume by ID", whose
    code is not in these files; the record leaves the store. *)
Definition volume_destroy (volume_id : Z) : M unit :=
  call (VolumeDestroy volume_id) (fun s =>
    (Ret tt,
     {| volumes := filter (fun v => negb (has_id volume_id v)) (volumes s);
        export_devices := export_devices s;
        iscsi_targets := iscsi_targets s |})).

(** The first row that [free] accepts, marked by [mark]. *)
Fixpoint allocate_first {A} (free : A -> bool) (mark : A -> A) (l : list A)
    : option (A * list A) :=
  match l with
  | [] => None
  | x :: rest =>
      if free x then Some (x, mark x :: rest)
      else
        match allocate_first free mark rest with
        | Some (y, rest') => Some (y, x :: rest')
        | None => None
        end
  end.

(** Create-if-absent: [row] joins [rows] unless a row that [same] accepts
    is already there. *)
Definition create_safe {R} (same : R -> bool) (row : R) (rows : list R)
    : list R :=
  if existsb same rows then rows else rows ++ [row].

(** *** Shelf and blade pairs *)

Definition same_blade (shelf blade : Z) (d : export_device) : bool :=
  (shelf_id d =? shelf) && (blade_id d =? blade).

Definition blade_free (d : export_device) : bool :=
  match ed_volume_id d with
  | None => true
  | Some _ => false
  end.

Definition blade_of (volume_id : Z) (d : export_device) : bool :=
  match ed_volume_id d with
  | Some i => i =? volume_id
  | None => false
  end.

(** Modelled from the spec: the store's count of export-device rows, whose
    code is not in these files. *)
Definition export_device_count : M Z :=
  call ExportDeviceCount (fun s =>
    (Ret (Z.of_nat (length (export_devices s))), s)).

(** Modelled from the spec: the store's create-if-absent insert of an
    export-device row, whose code is not in these files; a row whose
    identifier is already there is left alone and nothing is raised. *)
Definition export_device_create_safe (shelf blade : Z) : M unit :=
  call (ExportDeviceCreateSafe shelf blade) (fun s =>
    (Ret tt,
     {| volumes := volumes s;
        export_devices :=
          create_safe (same_blade shelf blade)
            {| shelf_id := shelf; blade_id := blade; ed_volume_id := None |}
            (export_devices s);
        iscsi_targets := iscsi_targets s |})).

(** The row, owned by the volume. *)
Definition own_blade (volume_id : Z) (d : export_device) : export_device :=
  {| shelf_id := shelf_id d; blade_id := blade_id d;
     ed_volume_id := Some volume_id |}.

(** Modelled from the spec: the store's allocation of one unassigned pair
    to a volume, whose code is not in these files. *)
Definition volume_allocate_shelf_and_blade (volume_id : Z) : M (Z * Z) :=
  call (VolumeAllocateShelfAndBlade volume_id) (fun s =>
    match allocate_first blade_free (own_blade volume_id)
            (export_devices s) with
    | Some (d, rows) =>
        (Ret (shelf_id d, blade_id d),
         {| volumes := volumes s; export_devices := rows;
            iscsi_targets := iscsi_targets s |})
    | None => (Raise (StoreError "no more blades"), s)
    end).

(** Modelled from the spec: the store's lookup of the pair allocated to a
    volume, whose code is not in these files. *)
Definition volume_get_shelf_and_blade (volume_id : Z) : M (Z * Z) :=
  call (VolumeGetShelfAndBlade volume_id) (fun s =>
    match find (blade_of volume_id) (export_devices s) with
    | Some d => (Ret (shelf_id d, blade_id d), s)
    | None => (Raise (StoreError "no export device for volume"), s)
    end).

(** *** Target IDs *)

Definition on_host (host : string) (t : iscsi_target) : bool :=
  String.eqb (t_host t) host.

Definition same_target (host : string) (tid : Z) (t : iscsi_target) : bool :=
  on_host host t && (target_id t =? tid).

Definition target_free (host : string) (t : iscsi_target) : bool :=
  on_host host t &&
  match t_volume_id t with
  | None => true
  | Some _ => false
  end.

Definition target_of (volume_id : Z) (t : iscsi_target) : bool :=
  match t_volume_id t with
  | Some i => i =? volume_id
  | None => false
  end.

(** Modelled from the spec: the store's count of a host's target-id rows,
    whose code is not in these files. *)
Definition target_id_count_by_host (host : string) : M Z :=
  call (TargetIdCountByHost host) (fun s =>
    (Ret (Z.of_nat (length (filter (on_host host) (iscsi_targets s)))), s)).

(** Modelled from the spec: the store's create-if-absent insert of a
    target-id row, whose code is not in these files. *)
Definition target_id_create_safe (host : string) (tid : Z) : M unit :=
  call (TargetIdCreateSafe host tid) (fun s =>
    (Ret tt,
     {| volumes := volumes s;
        export_devices := export_devices s;
        iscsi_targets :=
          create_safe (same_target host tid)
            {| t_host := host; target_id := tid; t_volume_id := None |}
            (iscsi_targets s) |})).

(** The row, owned by the volume. *)
Definition own_target (volume_id : Z) (t : iscsi_target) : iscsi_target :=
  {| t_host := t_host t; target_id := target_id t;
     t_volume_id := Some volume_id |}.

(** Modelled from the spec: the store's allocation of one unassigned
    target ID of a host to a volume, whose code is not in these files. *)
Definition volume_allocate_target_id (volume_id : Z) (host : string) : M Z :=
  call (VolumeAllocateTargetId volume_id host) (fun s =>
    match allocate_first (target_free host) (own_target volume_id)
            (iscsi_targets s) with
    | Some (t, rows) =>
        (Ret (target_id t),
         {| volumes := volumes s; export_devices := export_devices s;
            iscsi_targets := rows |})
    | None => (Raise (StoreError "no more targets"), s)
    end).

(** Modelled from the spec: the store's lookup of the target ID allocated
    to a volume, whose code is not in these files. *)
Definition volume_get_target_id (volume_id : Z) : M Z :=
  call (VolumeGetTargetId volume_id) (fun s =>
    match find (target_of volume_id) (iscsi_targets s) with
    | Some t => (Ret (target_id t), s)
    | None => (Raise (StoreError "no target id for volume"), s)
    end).

(** Modelled from the spec: the store's "list volumes by host", whose code
    is not in these files.  It only reads; it is the one store operation
    that leaves no event in the trace. *)
Definition volume_get_all_by_host (host : string) : M (list volume) :=
  fun w =>
    (Ret (filter (fun v => String.eqb (v_host v) host) (volumes (db w))), w).

End Store.

(** ** nova/volume/driver.py *)

(** The [execute] capability handed to a driver's constructor: what running
    [cmd] with the given [check_exit_code] yields, after the events that
    happened before it. *)
Definition capability : Type :=
  list event -> string -> bool -> result (option string * option string).

(** Modelled from the spec: [process.simple_execute], whose code is not in
    these files: it runs a shell command and returns its output, and fails
    when the exit code is checked and is not zero.  [shell] gives the exit
    code, stdout and stderr of a command after a history. *)
Definition simple_execute (shell : list event -> string -> Z * string * string)
    : capability :=
  fun history cmd check_exit_code =>
    match shell history cmd with
    | (code, out, err) =>
        if check_exit_code && negb (code =? 0)
        then Raise (ProcessExecutionError err)
        else Ret (Some out, Some err)
    end.

Inductive driver_class : Type :=
| VolumeDriverClass
| AOEDriverClass
| ISCSIDriverClass.

Record volume_driver : Type := {
  class : driver_class;
  execute : capability;
  sync_exec : capability
}.

Definition VolumeDriver (execute sync_exec : capability) : volume_driver :=
  {| class := VolumeDriverClass; execute := execute; sync_exec := sync_exec |}.

Definition AOEDriver (execute sync_exec : capability) : volume_driver :=
  {| class := AOEDriverClass; execute := execute; sync_exec := sync_exec |}.

Definition ISCSIDriver (execute sync_exec : capability) : volume_driver :=
  {| class := ISCSIDriverClass; execute := execute; sync_exec := sync_exec |}.

(** [fake_execute] of both test variants: logs the command (the trace has
    it) and returns [(None, None)]. *)
Definition fake_execute : capability :=
  fun _ _ _ => Ret (None, None).

Definition FakeAOEDriver : volume_driver := AOEDriver fake_execute fake_execute.

Definition FakeISCSIDriver : volume_driver :=
  ISCSIDriver fake_execute fake_execute.

Module Driver.

Section Flags.

Variable FLAGS : flags.

(** [self._execute(cmd, check_exit_code=...)]. *)
Definition _execute (self : volume_driver) (cmd : string)
    (check_exit_code : bool) : M (option string * option string) :=
  fun w => (execute self (trace w) cmd check_exit_code,
            record_event (Exec cmd) w).

(** The [while True] loop of [_try_execute], entered with the current value
    of [tries]; [fuel] bounds the number of times the body runs. *)
Fixpoint _try_execute_loop (fuel : nat) (self : volume_driver)
    (command : string) (tries : Z) : M bool :=
  match fuel with
  | O => fun w => (OutOfFuel, w)
  | S fuel' =>
      try_except_ProcessExecutionError
        (_execute self command true ;; ret true)
        (fun e =>
           let tries := tries + 1 in
           if tries >=? num_shell_tries FLAGS
           then raise (ProcessExecutionError e)
           else
             _execute self ("sleep " ++ Py.str (tries ^ 2)) true ;;
             _try_execute_loop fuel' self command tries)
  end.

(** The body runs once per value 0, 1, ... of [tries] below
    [num_shell_tries], and once at least. *)
Definition tries_bound : nat := Z.to_nat (Z.max 1 (num_shell_tries FLAGS)).

Definition _try_execute (self : volume_driver) (command : string) : M bool :=
  _try_execute_loop tries_bound self command 0.

(** The same loop with the limit as the flag parser left it, an integer or
    a string. *)
Fixpoint _try_execute_loop_at (limit : flag_value) (fuel : nat)
    (self : volume_driver) (command : string) (tries : Z) : M bool :=
  match fuel with
  | O => fun w => (OutOfFuel, w)
  | S fuel' =>
      try_except_ProcessExecutionError
        (_execute self command true ;; ret true)
        (fun e =>
           let tries := tries + 1 in
           if tries_ge tries limit
           then raise (ProcessExecutionError e)
           else
             _execute self ("sleep " ++ Py.str (tries ^ 2)) true ;;
             _try_execute_loop_at limit fuel' self command tries)
  end.

Definition sizestr (volume : volume) : string :=
  if v_size volume =? 0 then "100M" else Py.str (v_size volume) ++ "G".

Definition create_volume (self : volume_driver) (volume : volume) : M unit :=
  _try_execute self
    ("sudo lvcreate -L " ++ sizestr volume ++ " -n " ++ v_name volume ++
     " " ++ volume_group FLAGS) ;;
  ret tt.

Definition delete_volume (self : volume_driver) (volume : volume) : M unit :=
  _try_execute self
    ("sudo lvremove -f " ++ volume_group FLAGS ++ "/" ++ v_name volume) ;;
  ret tt.

Definition local_path (self : volume_driver) (volume : volume) : M string :=
  ret ("/dev/" ++ volume_group FLAGS ++ "/" ++ v_name volume).

(** *** AOEDriver *)

Definition _ensure_blades : M unit :=
  let total_blades := num_shelves FLAGS * blades_per_shelf FLAGS in
  count <- Store.export_device_count ;;
  if count >=? total_blades then ret tt
  else
    for_in (xrange 0 (num_shelves FLAGS)) (fun shelf_id =>
      for_in (xrange 0 (blades_per_shelf FLAGS)) (fun blade_id =>
        Store.export_device_create_safe shelf_id blade_id)).

Definition aoe_create_export (self : volume_driver) (volume : volume)
    : M unit :=
  _ensure_blades ;;
  pair <- Store.volume_allocate_shelf_and_blade (v_id volume) ;;
  _try_execute self
    ("sudo vblade-persist setup " ++ Py.str (fst pair) ++ " " ++
     Py.str (snd pair) ++ " " ++ aoe_eth_dev FLAGS ++ " /dev/" ++
     volume_group FLAGS ++ "/" ++ v_name volume) ;;
  _execute self "sleep 2" true ;;
  _execute self "sudo vblade-persist auto all" false ;;
  _execute self "sudo vblade-persist start all" false ;;
  ret tt.

Definition aoe_remove_export (self : volume_driver) (volume : volume)
    : M unit :=
  pair <- Store.volume_get_shelf_and_blade (v_id volume) ;;
  _try_execute self
    ("sudo vblade-persist stop " ++ Py.str (fst pair) ++ " " ++
     Py.str (snd pair)) ;;
  _try_execute self
    ("sudo vblade-persist destroy " ++ Py.str (fst pair) ++ " " ++
     Py.str (snd pair)) ;;
  ret tt.

Definition aoe_discover_volume (self : volume_driver) (_volume : volume)
    : M (option string) :=
  _execute self "sudo aoe-discover" true ;;
  _execute self "sudo aoe-stat" false ;;
  ret None.

Definition aoe_undiscover_volume (self : volume_driver) (_volume : volume)
    : M unit :=
  ret tt.

(** *** ISCSIDriver *)

Definition _ensure_target_ids (host : string) : M unit :=
  host_target_ids <- Store.target_id_count_by_host host ;;
  if host_target_ids >=? iscsi_target_ids FLAGS then ret tt
  else
    for_in (xrange 1 (iscsi_target_ids FLAGS + 1)) (fun target_id =>
      Store.target_id_create_safe host target_id).

Definition iscsi_create_export (self : volume_driver) (volume : volume)
    : M unit :=
  _ensure_target_ids (v_host volume) ;;
  target_id <- Store.volume_allocate_target_id (v_id volume) (v_host volume) ;;
  let iscsi_name := iscsi_target_prefix FLAGS ++ v_name volume in
  let volume_path := "/dev/" ++ volume_group FLAGS ++ "/" ++ v_name volume in
  _execute self
    ("sudo ietadm --op new --tid=" ++ Py.str target_id ++
     " --params Name=" ++ iscsi_name) true ;;
  _execute self
    ("sudo ietadm --op new --tid=" ++ Py.str target_id ++
     " --lun=0 --params Path=" ++ volume_path ++ ",Type=fileio") true ;;
  ret tt.

Definition iscsi_remove_export (self : volume_driver) (volume : volume)
    : M unit :=
  target_id <- Store.volume_get_target_id (v_id volume) ;;
  _execute self
    ("sudo ietadm --op delete --tid=" ++ Py.str target_id ++ " --lun=0")
    true ;;
  _execute self ("sudo ietadm --op delete --tid=" ++ Py.str target_id) true ;;
  ret tt.

(** The [for target in out.splitlines()] loop of [_get_name_and_portal]:
    the locals [(location, iscsi_name)] bound at the [break], or [None] when
    the loop ends without binding them. *)
Fixpoint scan_targets (volume_name : string) (lines : list string)
    : option (string * string) :=
  match lines with
  | [] => None
  | target :: rest =>
      if Py.contains (iscsi_ip_prefix FLAGS) target &&
         Py.contains volume_name target
      then
        match Py.partition " " target with
        | (location, _sep, iscsi_name) => Some (location, iscsi_name)
        end
      else scan_targets volume_name rest
  end.

Definition _get_name_and_portal (self : volume_driver)
    (volume_name host : string) : M (string * string) :=
  res <- _execute self
           ("sudo iscsiadm -m discovery -t sendtargets -p " ++ host) true ;;
  match fst res with
  | None =>
      raise (AttributeError
               "'NoneType' object has no attribute 'splitlines'")
  | Some out =>
      match scan_targets volume_name (Py.splitlines out) with
      | None => raise (UnboundLocalError "location")
      | Some (location, iscsi_name) =>
          let iscsi_portal := Py.split_first "," location in
          ret (iscsi_name, iscsi_portal)
      end
  end.

Definition iscsi_discover_volume (self : volume_driver) (volume : volume)
    : M (option string) :=
  np <- _get_name_and_portal self (v_name volume) (v_host volume) ;;
  let iscsi_name := fst np in
  let iscsi_portal := snd np in
  _execute self
    ("sudo iscsiadm -m node -T " ++ iscsi_name ++ " -p " ++ iscsi_portal ++
     " --login") true ;;
  _execute self
    ("sudo iscsiadm -m node -T " ++ iscsi_name ++ " -p " ++ iscsi_portal ++
     " --op update -n node.startup -v automatic") true ;;
  ret (Some ("/dev/iscsi/" ++ v_name volume)).

Definition iscsi_undiscover_volume (self : volume_driver) (volume : volume)
    : M unit :=
  np <- _get_name_and_portal self (v_name volume) (v_host volume) ;;
  let iscsi_name := fst np in
  let iscsi_portal := snd np in
  _execute self
    ("sudo iscsiadm -m node -T " ++ iscsi_name ++ " -p " ++ iscsi_portal ++
     " --op update -n node.startup -v manual") true ;;
  _execute self
    ("sudo iscsiadm -m node -T " ++ iscsi_name ++ " -p " ++ iscsi_portal ++
     " --logout ") true ;;
  _execute self
    ("sudo iscsiadm -m node --op delete --targetname " ++ iscsi_name) true ;;
  ret tt.

(** [self._sync_exec(cmd, check_exit_code=...)]. *)
Definition _sync_exec (self : volume_driver) (cmd : string)
    (check_exit_code : bool) : M (option string * option string) :=
  fun w => (sync_exec self (trace w) cmd check_exit_code,
            record_event (Exec cmd) w).

(** [check_for_setup_error]; [isdir] is [os.path.isdir] on the host. *)
Definition check_for_setup_error (isdir : string -> bool) : M unit :=
  if negb (isdir ("/dev/" ++ volume_group FLAGS))
  then raise (Error ("volume group " ++ volume_group FLAGS ++
                     " doesn't exist"))
  else ret tt.

Definition iscsi_ensure_export (self : volume_driver) (volume : volume)
    : M unit :=
  target_id <- Store.volume_get_target_id (v_id volume) ;;
  let iscsi_name := iscsi_target_prefix FLAGS ++ v_name volume in
  let volume_path := "/dev/" ++ volume_group FLAGS ++ "/" ++ v_name volume in
  _sync_exec self
    ("sudo ietadm --op new --tid=" ++ Py.str target_id ++
     " --params Name=" ++ iscsi_name) false ;;
  _sync_exec self
    ("sudo ietadm --op new --tid=" ++ Py.str target_id ++
     " --lun=0 --params Path=" ++ volume_path ++ ",Type=fileio") false ;;
  ret tt.

(** *** Method resolution *)

Definition ensure_export (self : volume_driver) (volume : volume) : M unit :=
  match class self with
  | VolumeDriverClass => raise NotImplementedError
  | AOEDriverClass => ret tt
  | ISCSIDriverClass => iscsi_ensure_export self volume
  end.

Definition create_export (self : volume_driver) (volume : volume) : M unit :=
  match class self with
  | VolumeDriverClass => raise NotImplementedError
  | AOEDriverClass => aoe_create_export self volume
  | ISCSIDriverClass => iscsi_create_export self volume
  end.

Definition remove_export (self : volume_driver) (volume : volume) : M unit :=
  match class self with
  | VolumeDriverClass => raise NotImplementedError
  | AOEDriverClass => aoe_remove_export self volume
  | ISCSIDriverClass => iscsi_remove_export self volume
  end.

Definition discover_volume (self : volume_driver) (volume : volume)
    : M (option string) :=
  match class self with
  | VolumeDriverClass => raise NotImplementedError
  | AOEDriverClass => aoe_discover_volume self volume
  | ISCSIDriverClass => iscsi_discover_volume self volume
  end.

Definition undiscover_volume (self : volume_driver) (volume : volume)
    : M unit :=
  match class self with
  | VolumeDriverClass => raise NotImplementedError
  | AOEDriverClass => aoe_undiscover_volume self volume
  | ISCSIDriverClass => iscsi_undiscover_volume self volume
  end.

End Flags.

End Driver.

(** ** nova/volume/manager.py *)

Record volume_manager : Type := {
  host : string;
  driver : volume_driver
}.

Module Manager.

Section Flags.

Variable FLAGS : flags.

(** [datetime.datetime.utcnow()]. *)
Definition now : M Z := fun w => (Ret (utcnow w), w).

Definition create_volume (self : volume_manager) (volume_id : Z) : M Z :=
  volume_ref <- Store.volume_get volume_id ;;
  Store.volume_update volume_id [Host (host self)] ;;
  let volume_ref := Store.set_value (Host (host self)) volume_ref in
  Driver.create_volume FLAGS (driver self) volume_ref ;;
  Driver.create_export FLAGS (driver self) volume_ref ;;
  t <- now ;;
  Store.volume_update (v_id volume_ref) [Status "available"; LaunchedAt t] ;;
  ret volume_id.

Definition delete_volume (self : volume_manager) (volume_id : Z) : M bool :=
  volume_ref <- Store.volume_get volume_id ;;
  if String.eqb (v_attach_status volume_ref) "attached"
  then raise (Error "Volume is still attached")
  else if negb (String.eqb (v_host volume_ref) (host self))
  then raise (Error "Volume is not local to this node")
  else
    Driver.remove_export FLAGS (driver self) volume_ref ;;
    Driver.delete_volume FLAGS (driver self) volume_ref ;;
    Store.volume_destroy volume_id ;;
    ret true.

Definition setup_compute_volume (self : volume_manager) (volume_id : Z)
    : M (option string) :=
  volume_ref <- Store.volume_get volume_id ;;
  if String.eqb (v_host volume_ref) (host self) && use_local_volumes FLAGS
  then
    path <- Driver.local_path FLAGS (driver self) volume_ref ;;
    ret (Some path)
  else Driver.discover_volume FLAGS (driver self) volume_ref.

Definition remove_compute_volume (self : volume_manager) (volume_id : Z)
    : M (option bool) :=
  volume_ref <- Store.volume_get volume_id ;;
  if String.eqb (v_host volume_ref) (host self) && use_local_volumes FLAGS
  then ret (Some true)
  else
    Driver.undiscover_volume FLAGS (driver self) volume_ref ;;
    ret None.

Definition init_host (isdir : string -> bool) (self : volume_manager)
    : M unit :=
  Driver.check_for_setup_error FLAGS isdir ;;
  volumes <- Store.volume_get_all_by_host (host self) ;;
  for_in volumes (fun volume =>
    Driver.ensure_export FLAGS (driver self) volume).

End Flags.

End Manager.

(** ** Vocabulary of the statements *)

(** The world after the events [l] happened and the store stayed as it was. *)
Definition add_trace (l : list event) (w : world) : world :=
  {| db := db w; utcnow := utcnow w; trace := trace w ++ l |}.

(** The sleep that follows failed attempt number [n]. *)
Definition sleep_after (n : nat) : string :=
  "sleep " ++ Py.str (Z.of_nat n ^ 2).

(** The events of [k] failed attempts at [command], each followed by its
    sleep. *)
Fixpoint backoff (command : string) (k : nat) : list event :=
  match k with
  | O => []
  | S k' => backoff command k' ++ [Exec command; Exec (sleep_after (S k'))]
  end.

(** The same events when the attempts that failed are those numbered
    [t + 1 .. t + k], read from the first on. *)
Fixpoint backoff_from (command : string) (t k : nat) : list event :=
  match k with
  | O => []
  | S k' =>
      Exec command :: Exec (sleep_after (S t)) ::
      backoff_from command (S t) k'
  end.

(** The events a method adds to the trace. *)
Definition events_of {A} (m : M A) (w : world) : list event :=
  skipn (length (trace w)) (trace (snd (m w))).

(** The commands among some events, in order. *)
Fixpoint commands (l : list event) : list string :=
  match l with
  | [] => []
  | Exec c :: rest => c :: commands rest
  | Db _ :: rest => commands rest
  end.

(** A method respects the frame [P] when it only appends to the trace,
    leaves the clock alone and takes the store to one related to it by
    [P]. *)
Definition respects (P : store -> store -> Prop) {A} (m : M A) : Prop :=
  forall w, exists l,
    trace (snd (m w)) = (trace w ++ l)%list /\
    utcnow (snd (m w)) = utcnow w /\
    P (db w) (db (snd (m w))).

(** Two stores with the same volume records. *)
Definition same_volumes (s1 s2 : store) : Prop := volumes s1 = volumes s2.

(** The identifiers of the export-device rows, and the grid of all of them. *)
Definition blade_key (d : export_device) : Z * Z := (shelf_id d, blade_id d).

Definition blade_grid (FLAGS : flags) : list (Z * Z) :=
  list_prod (xrange 0 (num_shelves FLAGS)) (xrange 0 (blades_per_shelf FLAGS)).

(** The target IDs of a host's rows, and the range of all of them. *)
Definition host_targets (host : string) (s : store) : list iscsi_target :=
  filter (Store.on_host host) (iscsi_targets s).

Definition target_range (FLAGS : flags) : list Z :=
  xrange 1 (iscsi_target_ids FLAGS + 1).

(** Population of a pool: create-if-absent of the row [fresh k] for each
    identifier [k] of [ks], in order. *)
Definition populate_with {R K} (same : K -> R -> bool) (fresh : K -> R)
    (ks : list K) (rows : list R) : list R :=
  fold_left (fun rows k => Store.create_safe (same k) (fresh k) rows) ks rows.

Definition blade_same (p : Z * Z) : export_device -> bool :=
  Store.same_blade (fst p) (snd p).

Definition blade_fresh (p : Z * Z) : export_device :=
  {| shelf_id := fst p; blade_id := snd p; ed_volume_id := None |}.

Definition target_fresh (host : string) (tid : Z) : iscsi_target :=
  {| t_host := host; target_id := tid; t_volume_id := None |}.

Definition with_export_devices (rows : list export_device) (s : store)
    : store :=
  {| volumes := volumes s; export_devices := rows;
     iscsi_targets := iscsi_targets s |}.

Definition with_iscsi_targets (rows : list iscsi_target) (s : store) : store :=
  {| volumes := volumes s; export_devices := export_devices s;
     iscsi_targets := rows |}.

(** The world a method leaves. *)
Definition after {A} (m : M A) (w : world) : world := snd (m w).

(** The host's pool once [_ensure_target_ids] ran on [rows], and the events
    of that run. *)
Definition ensured_targets (FLAGS : flags) (host : string)
    (rows : list iscsi_target) : list iscsi_target :=
  if Z.of_nat (length (filter (Store.on_host host) rows)) >=?
     iscsi_target_ids FLAGS
  then rows
  else populate_with (Store.same_target host) (target_fresh host)
         (target_range FLAGS) rows.

Definition ensure_events (FLAGS : flags) (host : string)
    (rows : list iscsi_target) : list event :=
  Db (TargetIdCountByHost host) ::
  (if Z.of_nat (length (filter (Store.on_host host) rows)) >=?
      iscsi_target_ids FLAGS
   then []
   else map (fun tid => Db (TargetIdCreateSafe host tid))
          (target_range FLAGS)).

(** The command that creates the backing store of a volume. *)
Definition lvcreate_command (FLAGS : flags) (volume : volume) : string :=
  "sudo lvcreate -L " ++
  (if v_size volume =? 0 then "100M" else Py.str (v_size volume) ++ "G") ++
  " -n " ++ v_name volume ++ " " ++ volume_group FLAGS.

(** The two commands that create an iSCSI target and its LUN. *)
Definition ietadm_new_target (FLAGS : flags) (tid : Z) (volume : volume)
    : string :=
  "sudo ietadm --op new --tid=" ++ Py.str tid ++ " --params Name=" ++
  iscsi_target_prefix FLAGS ++ v_name volume.

Definition ietadm_new_lun (FLAGS : flags) (tid : Z) (volume : volume)
    : string :=
  "sudo ietadm --op new --tid=" ++ Py.str tid ++ " --lun=0 --params Path=" ++
  ("/dev/" ++ volume_group FLAGS ++ "/" ++ v_name volume) ++ ",Type=fileio".

(** The other commands of the drivers. *)
Definition lvremove_command (FLAGS : flags) (volume : volume) : string :=
  "sudo lvremove -f " ++ volume_group FLAGS ++ "/" ++ v_name volume.

Definition ietadm_delete_lun (tid : Z) : string :=
  "sudo ietadm --op delete --tid=" ++ Py.str tid ++ " --lun=0".

Definition ietadm_delete_target (tid : Z) : string :=
  "sudo ietadm --op delete --tid=" ++ Py.str tid.

Definition vblade_setup (FLAGS : flags) (shelf blade : Z) (volume : volume)
    : string :=
  "sudo vblade-persist setup " ++ Py.str shelf ++ " " ++ Py.str blade ++
  " " ++ aoe_eth_dev FLAGS ++ " /dev/" ++ volume_group FLAGS ++ "/" ++
  v_name volume.

Definition vblade_stop (shelf blade : Z) : string :=
  "sudo vblade-persist stop " ++ Py.str shelf ++ " " ++ Py.str blade.

Definition vblade_destroy (shelf blade : Z) : string :=
  "sudo vblade-persist destroy " ++ Py.str shelf ++ " " ++ Py.str blade.

Definition iscsiadm_discovery (host : string) : string :=
  "sudo iscsiadm -m discovery -t sendtargets -p " ++ host.

Definition iscsiadm_login (iscsi_name iscsi_portal : string) : string :=
  "sudo iscsiadm -m node -T " ++ iscsi_name ++ " -p " ++ iscsi_portal ++
  " --login".

Definition iscsiadm_startup (iscsi_name iscsi_portal mode : string) : string :=
  "sudo iscsiadm -m node -T " ++ iscsi_name ++ " -p " ++ iscsi_portal ++
  " --op update -n node.startup -v " ++ mode.

Definition iscsiadm_logout (iscsi_name iscsi_portal : string) : string :=
  "sudo iscsiadm -m node -T " ++ iscsi_name ++ " -p " ++ iscsi_portal ++
  " --logout ".

Definition iscsiadm_delete (iscsi_name : string) : string :=
  "sudo iscsiadm -m node --op delete --targetname " ++ iscsi_name.

(** The shelf/blade pool once [_ensure_blades] ran on [rows], and the events
    of that run. *)
Definition ensured_blades (FLAGS : flags) (rows : list export_device)
    : list export_device :=
  if Z.of_nat (length rows) >=? num_shelves FLAGS * blades_per_shelf FLAGS
  then rows
  else populate_with blade_same blade_fresh (blade_grid FLAGS) rows.

Definition blade_ensure_events (FLAGS : flags) (rows : list export_device)
    : list event :=
  Db ExportDeviceCount ::
  (if Z.of_nat (length rows) >=? num_shelves FLAGS * blades_per_shelf FLAGS
   then []
   else map (fun p => Db (ExportDeviceCreateSafe (fst p) (snd p)))
          (blade_grid FLAGS)).

(** The events of [ensure_export] for one volume with target [tid]. *)
Definition ensure_export_events (FLAGS : flags) (tid : Z) (volume : volume)
    : list event :=
  [Db (VolumeGetTargetId (v_id volume));
   Exec (ietadm_new_target FLAGS tid volume);
   Exec (ietadm_new_lun FLAGS tid volume)].

(** The volumes of a host, and what [init_host] asks of the iSCSI driver
    for them: per volume, the lookup of its target ID and the two [ietadm]
    commands. *)
Definition host_volumes (host : string) (s : store) : list volume :=
  filter (fun v => String.eqb (v_host v) host) (volumes s).

Definition reexport_events (FLAGS : flags) (s : store) (vols : list volume)
    : list event :=
  flat_map
    (fun v =>
       match find (Store.target_of (v_id v)) (iscsi_targets s) with
       | Some t => ensure_export_events FLAGS (target_id t) v
       | None => []
       end) vols.

(** Rows no volume owns. *)
Definition unowned_blade (d : export_device) : Prop := ed_volume_id d = None.

Definition unowned_target (t : iscsi_target) : Prop := t_volume_id t = None.

(** ** Sample inputs *)

Definition empty_store : store :=
  {| volumes := []; export_devices := []; iscsi_targets := [] |}.

Definition empty_world : world :=
  {| db := empty_store; utcnow := 0; trace := [] |}.

(** A capability under which sleeps return and every other command fails
    while fewer than [2 * k] events have happened. *)
Definition fails_first (k : nat) : capability :=
  fun history cmd _ =>
    if String.prefix "sleep " cmd then Ret (Some "", Some "")
    else if (length history <? 2 * k)%nat
    then Raise (ProcessExecutionError
                  ("exit status 1 after " ++
                   Py.str (Z.of_nat (length history)) ++ " events"))
    else Ret (Some "", Some "").

(** A capability under which every command fails, sleeps too. *)
Definition always_fails : capability :=
  fun history cmd _ =>
    Raise (ProcessExecutionError ("cannot run " ++ cmd)).

Definition attached_volume : volume :=
  {| v_id := 3; v_name := "vol-3"; v_size := 1; v_host := "h1";
     v_status := "in-use"; v_attach_status := "attached";
     v_launched_at := Some 10 |}.

Definition local_volume : volume :=
  {| v_id := 4; v_name := "vol-4"; v_size := 1; v_host := "h1";
     v_status := "available"; v_attach_status := "detached";
     v_launched_at := Some 10 |}.

(** A volume exported over iSCSI from host [h1] with target 1. *)
Definition exported_volume : volume :=
  {| v_id := 7; v_name := "vol-7"; v_size := 2; v_host := "h1";
     v_status := "available"; v_attach_status := "detached";
     v_launched_at := Some 10 |}.

Definition exported_world : world :=
  {| db := {| volumes := [exported_volume]; export_devices := [];
              iscsi_targets :=
                [{| t_host := "h1"; target_id := 1;
                    t_volume_id := Some 7 |}] |};
     utcnow := 20; trace := [] |}.

(** A capability under which [lvremove] fails and all else returns. *)
Definition lvremove_fails : capability :=
  fun history cmd _ =>
    if String.prefix "sudo lvremove" cmd
    then Raise (ProcessExecutionError "Can't remove open logical volume")
    else Ret (Some "", Some "").

(** One line of discovery output, for a volume on another portal. *)
Definition other_portal_output : string :=
  "10.0.0.5:3260,1 iqn.2010-10.org.openstack:vol-7".

(** A capability under which every command returns this output. *)
Definition answers (out : string) : capability :=
  fun _ _ _ => Ret (Some out, Some "").

(** What [_try_execute] may add to the trace after its first attempt: the
    command again, or a sleep. *)
Definition attempt_or_sleep (command : string) (e : event) : Prop :=
  e = Exec command \/ exists n, e = Exec (sleep_after n).

(** The volume of the end-to-end example, as its creator left it, in a
    store whose pools are still empty. *)
Definition requested_volume : volume :=
  {| v_id := 7; v_name := "vol-7"; v_size := 2; v_host := "";
     v_status := "creating"; v_attach_status := "detached";
     v_launched_at := None |}.

Definition requested_world : world :=
  {| db := {| volumes := [requested_volume]; export_devices := [];
              iscsi_targets := [] |};
     utcnow := 1000; trace := [] |}.

(** Discovery output of three portals: another volume whose name starts
    with [vol-7] on the local prefix, then the volume itself twice. *)
Definition three_portals_output : string :=
  "127.0.0.1:3260,1 iqn.2010-10.org.openstack:vol-70" ++
  String Py.ascii_lf
    ("127.0.0.1:3260,1 iqn.2010-10.org.openstack:vol-7" ++
     String Py.ascii_lf "127.0.0.2:3260,1 iqn.2010-10.org.openstack:vol-7").

(** A capability under which commands that start with [bad] raise [e] and
    all else returns [out]. *)
Definition raises_on (bad : string) (e : exn) (out : string) : capability :=
  fun _ cmd _ =>
    if String.prefix bad cmd then Raise e else Ret (Some out, Some "").

(** The shell of a host on which every command exits with status 1. *)
Definition broken_shell : list event -> string -> Z * string * string :=
  fun _ _ => (1, "", "failed").

(** The shell of a host on which the commands on all exports ([... all])
    exit with status 1 and every other command with status 0. *)
Definition contended_shell : list event -> string -> Z * string * string :=
  fun _ cmd =>
    if Py.contains " all" cmd then (1, "", "busy") else (0, "", "").

(** A volume exported over AoE from host [h1] on shelf 0, blade 3. *)
Definition aoe_world : world :=
  {| db := {| volumes := [exported_volume];
              export_devices :=
                [{| shelf_id := 0; blade_id := 3; ed_volume_id := Some 7 |}];
              iscsi_targets := [] |};
     utcnow := 20; trace := [] |}.

(** Flags of a host with one shelf of two blades and two target IDs. *)
Definition small_flags : flags :=
  {| volume_group := "nova-volumes"; aoe_eth_dev := "eth0";
     num_shell_tries := 3; num_shelves := 1; blades_per_shelf := 2;
     iscsi_target_ids := 2;
     iscsi_target_prefix := "iqn.2010-10.org.openstack:";
     iscsi_ip_prefix := "127.0"; use_local_volumes := true |}.

(** ** The world and the monad *)

Local Open Scope list_scope.

Lemma record_event_add_trace (e : event) (w : world) :
  record_event e w = add_trace [e] w.
Proof. reflexivity. Qed.

Lemma add_trace_nil (w : world) : add_trace [] w = w.
Proof.
  destruct w as [s t tr]. unfold add_trace. simpl. now rewrite app_nil_r.
Qed.

Lemma add_trace_app (l1 l2 : list event) (w : world) :
  add_trace l2 (add_trace l1 w) = add_trace (l1 ++ l2) w.
Proof.
  unfold add_trace. simpl. now rewrite app_assoc.
Qed.

Lemma commands_app (l1 l2 : list event) :
  commands (l1 ++ l2) = commands l1 ++ commands l2.
Proof.
  induction l1 as [|[c|c] l1 IH]; simpl; [reflexivity | now rewrite IH | exact IH].
Qed.

Lemma bind_ret {A B} (m : M A) (k : A -> M B) w a w' :
  m w = (Ret a, w') -> bind m k w = k a w'.
Proof. intros H. unfold bind. now rewrite H. Qed.

Lemma bind_raise {A B} (m : M A) (k : A -> M B) w e w' :
  m w = (Raise e, w') -> bind m k w = (Raise e, w').
Proof. intros H. unfold bind. now rewrite H. Qed.

Lemma bind_out_of_fuel {A B} (m : M A) (k : A -> M B) w w' :
  m w = (OutOfFuel, w') -> bind m k w = (OutOfFuel, w').
Proof. intros H. unfold bind. now rewrite H. Qed.

(** *** Frames *)

Section Frame.

Variable P : store -> store -> Prop.
Hypothesis P_refl : forall s, P s s.
Hypothesis P_trans : forall s1 s2 s3, P s1 s2 -> P s2 s3 -> P s1 s3.

Lemma respects_ret {A} (a : A) : respects P (ret a).
Proof.
  intros w. exists []. simpl. rewrite app_nil_r. auto.
Qed.

Lemma respects_raise {A} (e : exn) : respects P (@raise A e).
Proof.
  intros w. exists []. simpl. rewrite app_nil_r. auto.
Qed.

Lemma respects_bind {A B} (m : M A) (k : A -> M B) :
  respects P m -> (forall a, respects P (k a)) -> respects P (bind m k).
Proof.
  intros Hm Hk w. unfold bind.
  destruct (Hm w) as (l & Ht & Hc & Hp).
  destruct (m w) as [[a|e|] w1]; simpl in *.
  - destruct (Hk a w1) as (l' & Ht' & Hc' & Hp').
    exists (l ++ l'). rewrite Ht', Ht, Hc', Hc, app_assoc. eauto.
  - exists l. auto.
  - exists l. auto.
Qed.

Lemma respects_try_except {A} (body : M A) (handler : string -> M A) :
  respects P body -> (forall d, respects P (handler d)) ->
  respects P (try_except_ProcessExecutionError body handler).
Proof.
  intros Hb Hh w. unfold try_except_ProcessExecutionError.
  destruct (Hb w) as (l & Ht & Hc & Hp).
  destruct (body w) as [[a|e|] w1]; simpl in *;
    try (exists l; now auto).
  destruct e; try (exists l; now auto).
  destruct (Hh description w1) as (l' & Ht' & Hc' & Hp').
  exists (l ++ l'). rewrite Ht', Ht, Hc', Hc, app_assoc. eauto.
Qed.

Lemma respects_for_in {A} (l : list A) (body : A -> M unit) :
  (forall x, respects P (body x)) -> respects P (for_in l body).
Proof.
  intros Hb. induction l as [|x l IH]; simpl.
  - apply respects_ret.
  - apply respects_bind; [apply Hb | intros _; exact IH].
Qed.

Lemma respects_execute self cmd check :
  respects P (Driver._execute self cmd check).
Proof.
  intros w. exists [Exec cmd]. simpl. auto.
Qed.

Lemma respects_loop FLAGS self command :
  forall fuel tries,
    respects P (Driver._try_execute_loop FLAGS fuel self command tries).
Proof.
  induction fuel as [|fuel IH]; intros tries.
  - intros w. exists []. simpl. rewrite app_nil_r. auto.
  - simpl. apply respects_try_except.
    + apply respects_bind; [apply respects_execute |].
      intros _. apply respects_ret.
    + intros d. destruct (_ >=? _).
      * apply respects_raise.
      * apply respects_bind; [apply respects_execute | intros _; apply IH].
Qed.

Lemma respects_try_execute FLAGS self command :
  respects P (Driver._try_execute FLAGS self command).
Proof. apply respects_loop. Qed.

(** A call of the store respects the frame when its effect on the store
    does. *)
Lemma respects_call {A} (c : db_call) (f : store -> result A * store) :
  (forall s, P s (snd (f s))) -> respects P (Store.call c f).
Proof.
  intros Hf w. exists [Db c]. unfold Store.call. simpl.
  specialize (Hf (db w)). destruct (f (db w)) as [r s]. simpl in *. auto.
Qed.

Lemma respects_volume_get volume_id : respects P (Store.volume_get volume_id).
Proof.
  apply respects_call. intros s.
  destruct (Store.lookup_volume volume_id s); simpl; auto.
Qed.

Lemma respects_volume_get_shelf_and_blade volume_id :
  respects P (Store.volume_get_shelf_and_blade volume_id).
Proof.
  apply respects_call. intros s. destruct (find _ _); simpl; auto.
Qed.

Lemma respects_volume_get_target_id volume_id :
  respects P (Store.volume_get_target_id volume_id).
Proof.
  apply respects_call. intros s. destruct (find _ _); simpl; auto.
Qed.

Lemma respects_export_device_count : respects P Store.export_device_count.
Proof. apply respects_call. intros s. simpl. auto. Qed.

Lemma respects_target_id_count_by_host host :
  respects P (Store.target_id_count_by_host host).
Proof. apply respects_call. intros s. simpl. auto. Qed.

Lemma respects_create_volume FLAGS self volume :
  respects P (Driver.create_volume FLAGS self volume).
Proof.
  apply respects_bind; [apply respects_try_execute |].
  intros _. apply respects_ret.
Qed.

Lemma respects_delete_volume FLAGS self volume :
  respects P (Driver.delete_volume FLAGS self volume).
Proof.
  apply respects_bind; [apply respects_try_execute |].
  intros _. apply respects_ret.
Qed.

Lemma respects_remove_export FLAGS self volume :
  respects P (Driver.remove_export FLAGS self volume).
Proof.
  unfold Driver.remove_export. destruct (class self).
  - apply respects_raise.
  - apply respects_bind; [apply respects_volume_get_shelf_and_blade |].
    intros pair.
    repeat (apply respects_bind; [apply respects_try_execute | intros _]).
    apply respects_ret.
  - apply respects_bind; [apply respects_volume_get_target_id |].
    intros tid.
    repeat (apply respects_bind; [apply respects_execute | intros _]).
    apply respects_ret.
Qed.

End Frame.

Lemma same_volumes_refl s : same_volumes s s.
Proof. reflexivity. Qed.

Lemma same_volumes_trans s1 s2 s3 :
  same_volumes s1 s2 -> same_volumes s2 s3 -> same_volumes s1 s3.
Proof. unfold same_volumes. congruence. Qed.

Lemma eq_store_trans (s1 s2 s3 : store) : s1 = s2 -> s2 = s3 -> s1 = s3.
Proof. congruence. Qed.

(** ** The retrying executor *)

Section TryExecute.

Variable FLAGS : flags.
Variable self : volume_driver.
Variable command : string.

#[local] Abbreviation loop := (Driver._try_execute_loop FLAGS).

Lemma loop_unfold fuel tries :
  loop (S fuel) self command tries =
    try_except_ProcessExecutionError
      (bind (Driver._execute self command true) (fun _ => ret true))
      (fun e =>
         if tries + 1 >=? num_shell_tries FLAGS
         then raise (ProcessExecutionError e)
         else
           bind (Driver._execute self
                   ("sleep " ++ Py.str ((tries + 1) ^ 2))%string true)
                (fun _ => loop fuel self command (tries + 1))).
Proof. reflexivity. Qed.

#[local] Ltac run_attempt :=
  rewrite loop_unfold;
  unfold try_except_ProcessExecutionError, bind, Driver._execute, ret, raise;
  cbv beta iota; cbn [trace record_event].

(** An attempt that succeeds ends the loop. *)
Lemma loop_success fuel tries w o :
  execute self (trace w) command true = Ret o ->
  loop (S fuel) self command tries w = (Ret true, add_trace [Exec command] w).
Proof.
  intros H. run_attempt. now rewrite H.
Qed.

(** A failed attempt that reaches the limit re-raises the failure. *)
Lemma loop_exhausted fuel tries w d :
  execute self (trace w) command true = Raise (ProcessExecutionError d) ->
  num_shell_tries FLAGS <= tries + 1 ->
  loop (S fuel) self command tries w =
    (Raise (ProcessExecutionError d), add_trace [Exec command] w).
Proof.
  intros H Hn. run_attempt. rewrite H.
  destruct (Z.geb_spec (tries + 1) (num_shell_tries FLAGS)); [reflexivity | lia].
Qed.

(** A failed attempt below the limit sleeps and goes round again. *)
Lemma loop_retry fuel tries w d o :
  execute self (trace w) command true = Raise (ProcessExecutionError d) ->
  tries + 1 < num_shell_tries FLAGS ->
  execute self (trace w ++ [Exec command])
    ("sleep " ++ Py.str ((tries + 1) ^ 2))%string true = Ret o ->
  loop (S fuel) self command tries w =
    loop fuel self command (tries + 1)
      (add_trace [Exec command; Exec ("sleep " ++ Py.str ((tries + 1) ^ 2))%string] w).
Proof.
  intros H Hn Hs. run_attempt. rewrite H.
  destruct (Z.geb_spec (tries + 1) (num_shell_tries FLAGS)); [lia |].
  cbn [trace record_event]. rewrite Hs.
  rewrite !record_event_add_trace, add_trace_app. reflexivity.
Qed.

(** A sleep that does not return a value ends the loop with what it
    yielded. *)
Lemma loop_sleep_raises fuel tries w d e :
  execute self (trace w) command true = Raise (ProcessExecutionError d) ->
  tries + 1 < num_shell_tries FLAGS ->
  execute self (trace w ++ [Exec command])
    ("sleep " ++ Py.str ((tries + 1) ^ 2))%string true = Raise e ->
  loop (S fuel) self command tries w =
    (Raise e,
     add_trace [Exec command; Exec ("sleep " ++ Py.str ((tries + 1) ^ 2))%string] w).
Proof.
  intros H Hn Hs. run_attempt. rewrite H.
  destruct (Z.geb_spec (tries + 1) (num_shell_tries FLAGS)); [lia |].
  cbn [trace record_event]. rewrite Hs.
  rewrite !record_event_add_trace, add_trace_app. reflexivity.
Qed.

(** Any exception of the attempt other than [ProcessExecutionError] leaves
    the loop at once. *)
Lemma loop_other_exception fuel tries w e :
  execute self (trace w) command true = Raise e ->
  (forall d, e <> ProcessExecutionError d) ->
  loop (S fuel) self command tries w = (Raise e, add_trace [Exec command] w).
Proof.
  intros H He. run_attempt. rewrite H.
  destruct e; try reflexivity. now elim (He description).
Qed.

(** The first [k] attempts fail and their sleeps return: the loop reaches
    [tries = k] having added [backoff command k] to the trace. *)
Lemma loop_backoff (d : nat -> string) (w : world) :
  forall k fuel,
    Z.of_nat k < num_shell_tries FLAGS ->
    (forall j, (j < k)%nat ->
       execute self (trace w ++ backoff command j) command true =
         Raise (ProcessExecutionError (d j))) ->
    (forall j, (j < k)%nat ->
       exists o,
         execute self (trace w ++ backoff command j ++ [Exec command])
           (sleep_after (S j)) true = Ret o) ->
    loop (k + fuel) self command 0 w =
      loop fuel self command (Z.of_nat k) (add_trace (backoff command k) w).
Proof.
  induction k as [|k IH]; intros fuel Hk Hfail Hsleep.
  - simpl. now rewrite add_trace_nil.
  - replace (S k + fuel)%nat with (k + S fuel)%nat by lia.
    rewrite IH; [| lia | intros; apply Hfail; lia | intros; apply Hsleep; lia].
    destruct (Hsleep k ltac:(lia)) as [o Ho].
    assert (Hz : Z.of_nat (S k) = Z.of_nat k + 1) by lia.
    unfold sleep_after in Ho. rewrite Hz in Ho.
    rewrite (loop_retry fuel (Z.of_nat k) _ (d k) o).
    + rewrite add_trace_app. simpl backoff. unfold sleep_after.
      now rewrite Hz.
    + simpl. apply Hfail. lia.
    + lia.
    + simpl. rewrite <- app_assoc. exact Ho.
Qed.

(** Fuel beyond the number of values [tries] can still take changes
    nothing. *)
Lemma loop_fuel_irrelevant :
  forall fuel fuel' tries w,
    Z.max 1 (num_shell_tries FLAGS - tries) <= Z.of_nat fuel ->
    Z.max 1 (num_shell_tries FLAGS - tries) <= Z.of_nat fuel' ->
    loop fuel self command tries w = loop fuel' self command tries w.
Proof.
  induction fuel as [|fuel IH]; intros fuel' tries w Hf Hf'; [lia |].
  destruct fuel' as [|fuel']; [lia |].
  rewrite (loop_unfold fuel'). run_attempt.
  destruct (execute self (trace w) command true) as [o|[]|]; try reflexivity.
  destruct (Z.geb_spec (tries + 1) (num_shell_tries FLAGS)); [reflexivity |].
  cbn [trace record_event].
  destruct (execute self _ _ true) as [o|e|]; try reflexivity.
  apply IH; lia.
Qed.

(** [_try_execute] gives the loop enough fuel: more changes nothing. *)
Lemma try_execute_fuel_enough fuel w :
  (Driver.tries_bound FLAGS <= fuel)%nat ->
  loop fuel self command 0 w = Driver._try_execute FLAGS self command w.
Proof.
  intros H. unfold Driver._try_execute, Driver.tries_bound in *.
  apply loop_fuel_irrelevant; lia.
Qed.

(** After [k] failed attempts below the limit, the loop stands at
    [tries = k] with fuel left for the next attempt. *)
Lemma try_execute_after_backoff (d : nat -> string) (w : world) (k : nat) :
  Z.of_nat k < num_shell_tries FLAGS ->
  (forall j, (j < k)%nat ->
     execute self (trace w ++ backoff command j) command true =
       Raise (ProcessExecutionError (d j))) ->
  (forall j, (j < k)%nat ->
     exists o,
       execute self (trace w ++ backoff command j ++ [Exec command])
         (sleep_after (S j)) true = Ret o) ->
  exists fuel,
    Driver._try_execute FLAGS self command w =
      loop (S fuel) self command (Z.of_nat k)
        (add_trace (backoff command k) w).
Proof.
  intros Hk Hfail Hsleep.
  exists (Driver.tries_bound FLAGS - k - 1)%nat.
  unfold Driver._try_execute.
  replace (Driver.tries_bound FLAGS)
    with (k + S (Driver.tries_bound FLAGS - k - 1))%nat at 1
    by (unfold Driver.tries_bound; lia).
  now apply (loop_backoff d).
Qed.

(** With a limit of one attempt or less, a failing command is run once and
    its failure raised. *)
Lemma try_execute_single_attempt w d :
  num_shell_tries FLAGS <= 1 ->
  execute self (trace w) command true = Raise (ProcessExecutionError d) ->
  Driver._try_execute FLAGS self command w =
    (Raise (ProcessExecutionError d), add_trace [Exec command] w).
Proof.
  intros Hn H. unfold Driver._try_execute, Driver.tries_bound.
  replace (Z.to_nat (Z.max 1 (num_shell_tries FLAGS))) with 1%nat by lia.
  apply loop_exhausted; [exact H | lia].
Qed.

(** A command that succeeds at once is run once. *)
Lemma try_execute_first_success w o :
  execute self (trace w) command true = Ret o ->
  Driver._try_execute FLAGS self command w =
    (Ret true, add_trace [Exec command] w).
Proof.
  intros H. unfold Driver._try_execute, Driver.tries_bound.
  destruct (Z.to_nat (Z.max 1 (num_shell_tries FLAGS))) eqn:E; [lia |].
  now apply loop_success with (o := o).
Qed.

End TryExecute.

(** C4: with [num_shell_tries = 3], a command whose first two executions
    fail and whose third succeeds makes [_try_execute] return [True]; the
    trace gains the three attempts and exactly two sleeps, ["sleep 1"] after
    the first failed attempt and ["sleep 4"] after the second, which are the
    sleeps [backoff] gives for attempts 1 and 2 (attempt [n] is followed by
    a sleep of [n ^ 2]). *)
Theorem try_execute_two_failures_then_success
    (FLAGS : flags) (self : volume_driver) (command : string) (w : world)
    (d1 d2 : string) (s1 s2 o : option string * option string) :
  num_shell_tries FLAGS = 3 ->
  execute self (trace w) command true = Raise (ProcessExecutionError d1) ->
  execute self (trace w ++ [Exec command]) "sleep 1" true = Ret s1 ->
  execute self (trace w ++ [Exec command; Exec "sleep 1"]) command true =
    Raise (ProcessExecutionError d2) ->
  execute self (trace w ++ [Exec command; Exec "sleep 1"; Exec command])
    "sleep 4" true = Ret s2 ->
  execute self
    (trace w ++ [Exec command; Exec "sleep 1"; Exec command; Exec "sleep 4"])
    command true = Ret o ->
  Driver._try_execute FLAGS self command w =
    (Ret true,
     add_trace
       [Exec command; Exec "sleep 1"; Exec command; Exec "sleep 4";
        Exec command] w) /\
  backoff command 2 =
    [Exec command; Exec "sleep 1"; Exec command; Exec "sleep 4"].
Proof.
  intros Hn H1 Hs1 H2 Hs2 H3. split; [| reflexivity].
  unfold Driver._try_execute, Driver.tries_bound. rewrite Hn.
  change (Z.to_nat (Z.max 1 3)) with 3%nat.
  rewrite (loop_retry FLAGS self command 2 0 w d1 s1);
    [| exact H1 | lia | exact Hs1].
  change (Py.str ((0 + 1) ^ 2)) with "1"%string. change (0 + 1) with 1.
  rewrite (loop_retry FLAGS self command 1 1 _ d2 s2);
    [| cbn [trace add_trace]; exact H2 | lia
     | cbn [trace add_trace]; rewrite <- app_assoc; exact Hs2].
  change (Py.str ((1 + 1) ^ 2)) with "4"%string. change (1 + 1) with 2.
  rewrite add_trace_app.
  rewrite (loop_success FLAGS self command 0 2 _ o);
    [| cbn [trace add_trace]; exact H3].
  now rewrite add_trace_app.
Qed.

Lemma try_execute_two_failures_then_success_witness :
  Driver._try_execute default_flags
    (VolumeDriver (fails_first 2) (fails_first 2)) "lvs" empty_world =
    (Ret true,
     add_trace
       [Exec "lvs"; Exec "sleep 1"; Exec "lvs"; Exec "sleep 4"; Exec "lvs"]
       empty_world).
Proof.
  apply (try_execute_two_failures_then_success default_flags
           (VolumeDriver (fails_first 2) (fails_first 2)) "lvs" empty_world
           "exit status 1 after 0 events" "exit status 1 after 2 events"
           (Some "", Some "") (Some "", Some "") (Some "", Some ""));
    reflexivity.
Defined.

Lemma backoff_from_snoc command k :
  forall t,
    backoff_from command t (S k) =
    backoff_from command t k ++
    [Exec command; Exec (sleep_after (t + S k))].
Proof.
  induction k as [|k IH]; intros t.
  - cbn [backoff_from app]. now rewrite Nat.add_1_r.
  - change (backoff_from command t (S (S k)))
      with (Exec command :: Exec (sleep_after (S t)) ::
            backoff_from command (S t) (S k)).
    rewrite IH. replace (t + S (S k))%nat with (S t + S k)%nat by lia.
    reflexivity.
Qed.

Lemma backoff_from_zero command k :
  backoff_from command 0 k = backoff command k.
Proof.
  induction k as [|k IH]; [reflexivity |].
  rewrite backoff_from_snoc, IH. reflexivity.
Qed.

(** Every run of the loop with enough fuel, whatever [execute] answers:
    some [k] attempts fail and are slept on, and the run ends in attempt
    [k + 1] or in the sleep after it; the attempts stay within the limit. *)
Lemma loop_shape FLAGS self command :
  forall fuel t w,
    Z.max 1 (num_shell_tries FLAGS - Z.of_nat t) <= Z.of_nat fuel ->
    exists k,
      Z.of_nat (S k) <= Z.max 1 (num_shell_tries FLAGS - Z.of_nat t) /\
      (snd (Driver._try_execute_loop FLAGS fuel self command (Z.of_nat t) w) =
         add_trace (backoff_from command t k ++ [Exec command]) w \/
       snd (Driver._try_execute_loop FLAGS fuel self command (Z.of_nat t) w) =
         add_trace (backoff_from command t (S k)) w /\
       Z.of_nat (t + S k) < num_shell_tries FLAGS).
Proof.
  induction fuel as [|fuel IH]; intros t w Hfuel; [lia |].
  rewrite loop_unfold.
  unfold try_except_ProcessExecutionError, bind, Driver._execute, ret, raise.
  cbv beta iota. cbn [trace record_event].
  destruct (execute self (trace w) command true) as [o|e|];
    try (exists 0%nat; split; [lia | left; reflexivity]).
  destruct e; try (exists 0%nat; split; [lia | left; reflexivity]).
  destruct (Z.geb_spec (Z.of_nat t + 1) (num_shell_tries FLAGS)) as [Hge|Hlt];
    [exists 0%nat; split; [lia | left; reflexivity] |].
  replace (Z.of_nat t + 1) with (Z.of_nat (S t)) in * by lia.
  fold (sleep_after (S t)).
  destruct (execute self _ _ true) as [o|e|].
  - destruct (IH (S t)
                (record_event (Exec (sleep_after (S t)))
                   (record_event (Exec command) w)) ltac:(lia))
      as (k & Hk & Hshape).
    exists (S k). split; [lia |].
    destruct Hshape as [H|[H Hlim]].
    + left. rewrite H, !record_event_add_trace, !add_trace_app.
      reflexivity.
    + right. split; [| lia].
      rewrite H, !record_event_add_trace, !add_trace_app. reflexivity.
  - exists 0%nat. split; [lia |]. right. split; [| lia].
    cbn [snd]. now rewrite !record_event_add_trace, add_trace_app.
  - exists 0%nat. split; [lia |]. right. split; [| lia].
    cbn [snd]. now rewrite !record_event_add_trace, add_trace_app.
Qed.

Lemma try_execute_shape FLAGS self command w :
  exists k,
    Z.of_nat (S k) <= Z.max 1 (num_shell_tries FLAGS) /\
    (snd (Driver._try_execute FLAGS self command w) =
       add_trace (backoff command k ++ [Exec command]) w \/
     snd (Driver._try_execute FLAGS self command w) =
       add_trace (backoff command (S k)) w).
Proof.
  destruct (loop_shape FLAGS self command (Driver.tries_bound FLAGS) 0%nat w)
    as (k & Hk & Hshape); [unfold Driver.tries_bound; lia |].
  exists k. rewrite !backoff_from_zero in Hshape.
  split; [lia |]. destruct Hshape as [H|[H _]]; [left | right]; exact H.
Qed.

(** With an integer limit of [n >= 1] attempts (3 by default).  (1) Whatever
    [execute] answers, a run of [_try_execute] is some [k] failed attempts
    with their sleeps, ending in attempt [k + 1] or in the sleep after it,
    with [k + 1 <= n]: the command is run [n] times at most.  (2) When it
    fails at every attempt, the sleeps in between returning, it is run
    exactly [n] times, [2 * n - 1] commands with the sleeps, and
    [_try_execute] then raises the [ProcessExecutionError] of the last
    attempt. *)
Theorem try_execute_exhausts_retries
    (FLAGS : flags) (self : volume_driver) (command : string) (w : world)
    (d : nat -> string) (n : nat) :
  (1 <= n)%nat ->
  num_shell_tries FLAGS = Z.of_nat n ->
  (exists k,
     (S k <= n)%nat /\
     (snd (Driver._try_execute FLAGS self command w) =
        add_trace (backoff command k ++ [Exec command]) w \/
      snd (Driver._try_execute FLAGS self command w) =
        add_trace (backoff command (S k)) w)) /\
  ((forall j, (j < n)%nat ->
      execute self (trace w ++ backoff command j) command true =
        Raise (ProcessExecutionError (d j))) ->
   (forall j, (S j < n)%nat ->
      exists o,
        execute self (trace w ++ backoff command j ++ [Exec command])
          (sleep_after (S j)) true = Ret o) ->
   Driver._try_execute FLAGS self command w =
     (Raise (ProcessExecutionError (d (n - 1)%nat)),
      add_trace (backoff command (n - 1) ++ [Exec command]) w) /\
   length (backoff command (n - 1) ++ [Exec command]) = (2 * n - 1)%nat).
Proof.
  intros Hpos Hn. split.
  - destruct (try_execute_shape FLAGS self command w) as (k & Hk & Hshape).
    exists k. split; [lia | exact Hshape].
  - intros Hfail Hsleep. split.
    + destruct (try_execute_after_backoff FLAGS self command d w (n - 1))
        as [fuel ->];
        [lia | intros; apply Hfail; lia | intros; apply Hsleep; lia |].
      rewrite (loop_exhausted FLAGS self command fuel _ _ (d (n - 1)%nat));
        [now rewrite add_trace_app | apply Hfail; lia | lia].
    + rewrite length_app. simpl.
      assert (H : forall k, length (backoff command k) = (2 * k)%nat).
      { induction k as [|k IH]; [reflexivity |].
        simpl backoff. rewrite length_app, IH. simpl. lia. }
      rewrite H. lia.
Qed.

Lemma try_execute_exhausts_retries_witness :
  Driver._try_execute default_flags
    (VolumeDriver (fails_first 3) (fails_first 3)) "lvs" empty_world =
    (Raise (ProcessExecutionError "exit status 1 after 4 events"),
     add_trace
       [Exec "lvs"; Exec "sleep 1"; Exec "lvs"; Exec "sleep 4"; Exec "lvs"]
       empty_world).
Proof.
  apply (proj2 (try_execute_exhausts_retries default_flags
                  (VolumeDriver (fails_first 3) (fails_first 3)) "lvs"
                  empty_world
                  (fun j => ("exit status 1 after " ++
                             Py.str (Z.of_nat (2 * j)) ++ " events")%string)
                  3 ltac:(lia) eq_refl)).
  - intros j Hj.
    destruct j as [|[|[|j]]]; [reflexivity | reflexivity | reflexivity | lia].
  - intros j Hj. exists (Some ""%string, Some ""%string).
    destruct j as [|[|j]]; [reflexivity | reflexivity | lia].
Defined.

(** With an integer limit the loop is the one of [_try_execute]. *)
Lemma loop_at_integer_limit FLAGS self command :
  forall fuel tries w,
    Driver._try_execute_loop_at (FlagInt (num_shell_tries FLAGS)) fuel self
      command tries w =
    Driver._try_execute_loop FLAGS fuel self command tries w.
Proof.
  induction fuel as [|fuel IH]; intros tries w; [reflexivity |].
  rewrite loop_unfold. cbn [Driver._try_execute_loop_at tries_ge].
  unfold try_except_ProcessExecutionError, bind, Driver._execute, ret, raise.
  cbv beta iota zeta. cbn [trace record_event].
  destruct (execute self (trace w) command true) as [o|[]|]; try reflexivity.
  destruct (tries + 1 >=? num_shell_tries FLAGS); [reflexivity |].
  cbn [trace record_event].
  destruct (execute self _ _ true) as [o|e|]; try reflexivity.
  apply IH.
Qed.

(** With a string limit, a command that fails at every attempt is tried
    again for as long as there is fuel. *)
Lemma loop_at_string_limit self command s d :
  (forall history,
     execute self history command true = Raise (ProcessExecutionError d)) ->
  (forall history k, exists o,
     execute self history (sleep_after k) true = Ret o) ->
  forall fuel t w,
    Driver._try_execute_loop_at (FlagStr s) fuel self command (Z.of_nat t) w =
      (OutOfFuel, add_trace (backoff_from command t fuel) w).
Proof.
  intros Hfail Hsleep. induction fuel as [|fuel IH]; intros t w.
  - cbn [Driver._try_execute_loop_at backoff_from]. now rewrite add_trace_nil.
  - cbn [Driver._try_execute_loop_at tries_ge backoff_from].
    unfold try_except_ProcessExecutionError, bind, Driver._execute, ret, raise.
    cbv beta iota zeta. cbn [trace record_event].
    rewrite Hfail.
    replace (Z.of_nat t + 1) with (Z.of_nat (S t)) by lia.
    fold (sleep_after (S t)).
    cbn [trace record_event].
    destruct (Hsleep (trace w ++ [Exec command]) (S t)) as [o Ho].
    rewrite Ho, IH, !record_event_add_trace, !add_trace_app. reflexivity.
Qed.

(** C5: what the code does with a configured limit.  A limit set on the
    command line or in a flag file is a string, and [tries >= limit] is
    then never true: a command that fails at every attempt, the sleeps
    returning, is run again and again.  For every number [k], after [k]
    failed attempts and their sleeps the loop is still going, so the
    attempts exceed every maximum, and no [ProcessExecutionError], nor any
    other exception, is ever raised to the caller.  With the integer the
    flag holds by default the loop is the bounded one; and an integer
    limit of 0 or less still lets the command run once before the failure
    is raised. *)
Theorem try_execute_string_limit_never_gives_up
    (FLAGS : flags) (self : volume_driver) (command : string) (w : world)
    (s d : string) :
  (forall history,
     execute self history command true = Raise (ProcessExecutionError d)) ->
  (forall history k, exists o,
     execute self history (sleep_after k) true = Ret o) ->
  (forall k,
     Driver._try_execute_loop_at (FlagStr s) k self command 0 w =
       (OutOfFuel, add_trace (backoff command k) w)) /\
  (forall k e,
     fst (Driver._try_execute_loop_at (FlagStr s) k self command 0 w) <>
       Raise e) /\
  (forall k,
     Driver._try_execute_loop_at (FlagInt (num_shell_tries FLAGS)) k self
       command 0 w =
     Driver._try_execute_loop FLAGS k self command 0 w) /\
  (forall n k,
     n <= 0 ->
     Driver._try_execute_loop_at (FlagInt n) (S k) self command 0 w =
       (Raise (ProcessExecutionError d), add_trace [Exec command] w)).
Proof.
  intros Hfail Hsleep.
  assert (H : forall k,
            Driver._try_execute_loop_at (FlagStr s) k self command 0 w =
              (OutOfFuel, add_trace (backoff command k) w)).
  { intros k. rewrite <- backoff_from_zero.
    exact (loop_at_string_limit self command s d Hfail Hsleep k 0%nat w). }
  split; [exact H |]. split; [| split].
  - intros k e. rewrite H. discriminate.
  - intros k. apply loop_at_integer_limit.
  - intros n k Hn. cbn [Driver._try_execute_loop_at tries_ge].
    unfold try_except_ProcessExecutionError, bind, Driver._execute, ret, raise.
    cbv beta iota zeta. cbn [trace record_event].
    rewrite Hfail.
    replace (0 + 1 >=? n) with true by (symmetry; apply Z.geb_le; lia).
    reflexivity.
Qed.

Lemma try_execute_string_limit_never_gives_up_witness :
  Driver._try_execute_loop_at (FlagStr "2") 4
    (VolumeDriver (raises_on "lvs" (ProcessExecutionError "exit status 5") "")
       fake_execute) "lvs" 0 empty_world =
    (OutOfFuel,
     add_trace
       [Exec "lvs"; Exec "sleep 1"; Exec "lvs"; Exec "sleep 4";
        Exec "lvs"; Exec "sleep 9"; Exec "lvs"; Exec "sleep 16"]
       empty_world).
Proof.
  apply (proj1 (try_execute_string_limit_never_gives_up default_flags
                  (VolumeDriver
                     (raises_on "lvs" (ProcessExecutionError "exit status 5")
                        "")
                     fake_execute)
                  "lvs" empty_world "2" "exit status 5"
                  (fun _ => eq_refl)
                  (fun _ _ => ex_intro _ (Some ""%string, Some ""%string)
                                eq_refl))).
Defined.

(** C10: the backoff is a command run through the driver's own [execute]
    capability.  (1) When the first [k] attempts fail and attempt [k + 1]
    succeeds, the trace is the attempts with one ["sleep n^2"] command
    between consecutive ones, each answered by [execute self].  (2) Under
    [fake_execute], which both test variants install, the command is logged
    once and nothing else happens: the world changes by that one event.
    (3) When the sleep after a failed attempt raises, whatever it raises
    leaves [_try_execute] and the command is not run again. *)
Theorem backoff_sleep_goes_through_execute
    (FLAGS : flags) (command : string) (w : world) :
  (forall (self : volume_driver) (d : nat -> string) (k : nat) o,
     Z.of_nat k < num_shell_tries FLAGS ->
     (forall j, (j < k)%nat ->
        execute self (trace w ++ backoff command j) command true =
          Raise (ProcessExecutionError (d j))) ->
     (forall j, (j < k)%nat ->
        exists s,
          execute self (trace w ++ backoff command j ++ [Exec command])
            (sleep_after (S j)) true = Ret s) ->
     execute self (trace w ++ backoff command k) command true = Ret o ->
     Driver._try_execute FLAGS self command w =
       (Ret true, add_trace (backoff command k ++ [Exec command]) w)) /\
  (Driver._try_execute FLAGS FakeAOEDriver command w =
     (Ret true, add_trace [Exec command] w) /\
   Driver._try_execute FLAGS FakeISCSIDriver command w =
     (Ret true, add_trace [Exec command] w)) /\
  (forall (self : volume_driver) (d : nat -> string) (k : nat) e,
     Z.of_nat (S k) < num_shell_tries FLAGS ->
     (forall j, (j <= k)%nat ->
        execute self (trace w ++ backoff command j) command true =
          Raise (ProcessExecutionError (d j))) ->
     (forall j, (j < k)%nat ->
        exists s,
          execute self (trace w ++ backoff command j ++ [Exec command])
            (sleep_after (S j)) true = Ret s) ->
     execute self (trace w ++ backoff command k ++ [Exec command])
       (sleep_after (S k)) true = Raise e ->
     Driver._try_execute FLAGS self command w =
       (Raise e, add_trace (backoff command (S k)) w)).
Proof.
  split; [| split; [split |]].
  - intros self d k o Hk Hfail Hsleep Hok.
    destruct (try_execute_after_backoff FLAGS self command d w k)
      as [fuel ->]; [exact Hk | exact Hfail | exact Hsleep |].
    rewrite (loop_success FLAGS self command fuel _ _ o); [| exact Hok].
    now rewrite add_trace_app.
  - now apply try_execute_first_success with (o := (None, None)).
  - now apply try_execute_first_success with (o := (None, None)).
  - intros self d k e Hk Hfail Hsleep Hraise.
    destruct (try_execute_after_backoff FLAGS self command d w k)
      as [fuel ->]; [lia | intros; apply Hfail; lia | exact Hsleep |].
    assert (Hz : Z.of_nat (S k) = Z.of_nat k + 1) by lia.
    unfold sleep_after in Hraise. rewrite Hz in Hraise.
    rewrite (loop_sleep_raises FLAGS self command fuel _ _ (d k) e).
    + rewrite add_trace_app. simpl backoff. unfold sleep_after.
      now rewrite Hz.
    + cbn [trace add_trace]. apply Hfail. lia.
    + lia.
    + cbn [trace add_trace]. rewrite <- app_assoc. exact Hraise.
Qed.

Lemma backoff_sleep_goes_through_execute_witness :
  Driver._try_execute default_flags
    (VolumeDriver (fails_first 1) (fails_first 1)) "lvs" empty_world =
    (Ret true, add_trace [Exec "lvs"; Exec "sleep 1"; Exec "lvs"] empty_world)
  /\
  Driver._try_execute default_flags
    (VolumeDriver always_fails always_fails) "lvs" empty_world =
    (Raise (ProcessExecutionError "cannot run sleep 1"),
     add_trace [Exec "lvs"; Exec "sleep 1"] empty_world).
Proof.
  split.
  - apply (proj1 (backoff_sleep_goes_through_execute
                    default_flags "lvs" empty_world)
             (VolumeDriver (fails_first 1) (fails_first 1))
             (fun _ => "exit status 1 after 0 events"%string) 1%nat
             (Some ""%string, Some ""%string)).
    + reflexivity.
    + intros j Hj. destruct j as [|j]; [reflexivity | lia].
    + intros j Hj. exists (Some ""%string, Some ""%string).
      destruct j as [|j]; [reflexivity | lia].
    + reflexivity.
  - apply (proj2 (proj2 (backoff_sleep_goes_through_execute
                           default_flags "lvs" empty_world))
             (VolumeDriver always_fails always_fails)
             (fun _ => "cannot run lvs"%string) 0%nat
             (ProcessExecutionError "cannot run sleep 1")).
    + reflexivity.
    + intros j Hj. destruct j as [|j]; [reflexivity | lia].
    + intros j Hj. lia.
    + reflexivity.
Defined.

(** ** The store *)

Lemma volume_get_found volume_id w v :
  Store.lookup_volume volume_id (db w) = Some v ->
  Store.volume_get volume_id w =
    (Ret v, add_trace [Db (VolumeGet volume_id)] w).
Proof.
  intros H. unfold Store.volume_get, Store.call. simpl. now rewrite H.
Qed.

Lemma volume_get_missing volume_id w :
  Store.lookup_volume volume_id (db w) = None ->
  Store.volume_get volume_id w =
    (Raise (StoreError "volume not found"),
     add_trace [Db (VolumeGet volume_id)] w).
Proof.
  intros H. unfold Store.volume_get, Store.call. simpl. now rewrite H.
Qed.

Lemma lookup_volume_id volume_id s v :
  Store.lookup_volume volume_id s = Some v -> v_id v = volume_id.
Proof.
  intros H. apply find_some in H. destruct H as [_ H].
  now apply Z.eqb_eq in H.
Qed.

Lemma respects_eq_db {A} (m : M A) w r w' :
  respects eq m -> m w = (r, w') -> db w' = db w.
Proof.
  intros Hm E. destruct (Hm w) as (l & _ & _ & H).
  rewrite E in H. simpl in H. now symmetry.
Qed.

(** ** The manager: rejections and the local shortcut *)

(** C2: when the record of [volume_id] has [attach_status = "attached"], or
    a host other than the manager's, [delete_volume] raises
    [exception.Error] right after reading the record: the only event is
    that read, so no command is run (no export removal, no [lvremove]) and
    the store is the one it started from. *)
Theorem delete_volume_rejects_before_any_effect
    (FLAGS : flags) (self : volume_manager) (volume_id : Z) (w : world)
    (volume_ref : volume) :
  Store.lookup_volume volume_id (db w) = Some volume_ref ->
  v_attach_status volume_ref = "attached"%string \/
  v_host volume_ref <> host self ->
  Manager.delete_volume FLAGS self volume_id w =
    (Raise (Error (if String.eqb (v_attach_status volume_ref) "attached"
                   then "Volume is still attached"
                   else "Volume is not local to this node")),
     add_trace [Db (VolumeGet volume_id)] w) /\
  db (snd (Manager.delete_volume FLAGS self volume_id w)) = db w /\
  commands (events_of (Manager.delete_volume FLAGS self volume_id) w) = [].
Proof.
  intros Hget Hbad.
  assert (E : Manager.delete_volume FLAGS self volume_id w =
    (Raise (Error (if String.eqb (v_attach_status volume_ref) "attached"
                   then "Volume is still attached"
                   else "Volume is not local to this node")),
     add_trace [Db (VolumeGet volume_id)] w)).
  { unfold Manager.delete_volume.
    rewrite (bind_ret _ _ _ _ _ (volume_get_found _ _ _ Hget)).
    destruct (String.eqb_spec (v_attach_status volume_ref) "attached")
      as [Ha|Ha]; [reflexivity |].
    destruct Hbad as [Hb|Hb]; [contradiction |].
    destruct (String.eqb_spec (v_host volume_ref) (host self)) as [Hh|Hh];
      [contradiction | reflexivity]. }
  split; [exact E |]. unfold events_of. rewrite E. split; [reflexivity |].
  simpl. rewrite skipn_app, skipn_all, Nat.sub_diag. reflexivity.
Qed.

Lemma delete_volume_rejects_before_any_effect_witness :
  let w := {| db := {| volumes := [attached_volume]; export_devices := [];
                       iscsi_targets := [] |};
              utcnow := 20; trace := [] |} in
  Manager.delete_volume default_flags
    {| host := "h1"; driver := FakeISCSIDriver |} 3 w =
    (Raise (Error "Volume is still attached"), add_trace [Db (VolumeGet 3)] w).
Proof.
  intros w.
  apply (delete_volume_rejects_before_any_effect default_flags
           {| host := "h1"; driver := FakeISCSIDriver |} 3 w attached_volume).
  - reflexivity.
  - left. reflexivity.
Defined.

(** C9: when the record's host is the manager's host and
    [use_local_volumes] is on, [setup_compute_volume] returns
    [/dev/{volume_group}/{name}]; the only event is the read of the record,
    so no command is run, whatever the driver. *)
Theorem setup_compute_volume_local_shortcut
    (FLAGS : flags) (self : volume_manager) (volume_id : Z) (w : world)
    (volume_ref : volume) :
  Store.lookup_volume volume_id (db w) = Some volume_ref ->
  v_host volume_ref = host self ->
  use_local_volumes FLAGS = true ->
  Manager.setup_compute_volume FLAGS self volume_id w =
    (Ret (Some ("/dev/" ++ volume_group FLAGS ++ "/" ++
                v_name volume_ref)%string),
     add_trace [Db (VolumeGet volume_id)] w) /\
  commands (events_of (Manager.setup_compute_volume FLAGS self volume_id) w)
    = [].
Proof.
  intros Hget Hhost Hlocal.
  assert (E : Manager.setup_compute_volume FLAGS self volume_id w =
    (Ret (Some ("/dev/" ++ volume_group FLAGS ++ "/" ++
                v_name volume_ref)%string),
     add_trace [Db (VolumeGet volume_id)] w)).
  { unfold Manager.setup_compute_volume.
    rewrite (bind_ret _ _ _ _ _ (volume_get_found _ _ _ Hget)).
    rewrite Hhost, String.eqb_refl, Hlocal. reflexivity. }
  split; [exact E |]. unfold events_of. rewrite E. simpl.
  rewrite skipn_app, skipn_all, Nat.sub_diag. reflexivity.
Qed.

Lemma setup_compute_volume_local_shortcut_witness :
  let w := {| db := {| volumes := [local_volume]; export_devices := [];
                       iscsi_targets := [] |};
              utcnow := 20; trace := [] |} in
  Manager.setup_compute_volume default_flags
    {| host := "h1"; driver := ISCSIDriver always_fails always_fails |} 4 w =
    (Ret (Some "/dev/nova-volumes/vol-4"%string),
     add_trace [Db (VolumeGet 4)] w).
Proof.
  intros w.
  apply (setup_compute_volume_local_shortcut default_flags
           {| host := "h1"; driver := ISCSIDriver always_fails always_fails |}
           4 w local_volume); reflexivity.
Defined.

(** ** The manager: deleting a volume *)

Lemma lookup_after_destroy volume_id (l : list volume) :
  find (Store.has_id volume_id)
    (filter (fun v => negb (Store.has_id volume_id v)) l) = None.
Proof.
  induction l as [|v l IH]; [reflexivity |]. simpl.
  destruct (Store.has_id volume_id v) eqn:E; simpl; [exact IH |].
  now rewrite E.
Qed.

Lemma volume_destroy_run volume_id w :
  Store.volume_destroy volume_id w =
    (Ret tt,
     {| db := {| volumes :=
                   filter (fun v => negb (Store.has_id volume_id v))
                     (volumes (db w));
                 export_devices := export_devices (db w);
                 iscsi_targets := iscsi_targets (db w) |};
        utcnow := utcnow w;
        trace := trace w ++ [Db (VolumeDestroy volume_id)] |}).
Proof. reflexivity. Qed.

(** C8: [delete_volume] destroys the record only as its last step.  When it
    returns [True], the driver's [remove_export] and then its
    [delete_volume] both returned, the [volume_destroy] call is the last
    event and the record is gone.  In every other outcome (an exception of
    either driver step, or of an earlier one) the store is exactly the one
    before the call, so the record is still there. *)
Theorem delete_volume_destroys_record_last
    (FLAGS : flags) (self : volume_manager) (volume_id : Z) (w : world)
    (r : result bool) (w' : world) :
  Manager.delete_volume FLAGS self volume_id w = (r, w') ->
  (r <> Ret true -> db w' = db w) /\
  (r = Ret true ->
   exists volume_ref w1 w2,
     Store.lookup_volume volume_id (db w) = Some volume_ref /\
     Driver.remove_export FLAGS (driver self) volume_ref
       (add_trace [Db (VolumeGet volume_id)] w) = (Ret tt, w1) /\
     Driver.delete_volume FLAGS (driver self) volume_ref w1 = (Ret tt, w2) /\
     trace w' = trace w2 ++ [Db (VolumeDestroy volume_id)] /\
     volumes (db w') =
       filter (fun v => negb (Store.has_id volume_id v)) (volumes (db w)) /\
     Store.lookup_volume volume_id (db w') = None).
Proof.
  unfold Manager.delete_volume. intros Hrun.
  destruct (Store.lookup_volume volume_id (db w)) as [volume_ref|] eqn:Hget.
  2:{ rewrite (bind_raise _ _ _ _ _ (volume_get_missing _ _ Hget)) in Hrun.
      inversion Hrun; subst. split; [reflexivity | discriminate]. }
  rewrite (bind_ret _ _ _ _ _ (volume_get_found _ _ _ Hget)) in Hrun.
  destruct (String.eqb (v_attach_status volume_ref) "attached").
  { inversion Hrun; subst. split; [reflexivity | discriminate]. }
  destruct (negb (String.eqb (v_host volume_ref) (host self))).
  { inversion Hrun; subst. split; [reflexivity | discriminate]. }
  set (w0 := add_trace [Db (VolumeGet volume_id)] w) in *.
  destruct (Driver.remove_export FLAGS (driver self) volume_ref w0)
    as [r1 w1] eqn:E1.
  assert (D1 : db w1 = db w).
  { apply (respects_eq_db _ _ _ _
             (respects_remove_export eq (@eq_refl store) eq_store_trans
                FLAGS (driver self) volume_ref) E1). }
  destruct r1 as [[]|e|].
  2:{ rewrite (bind_raise _ _ _ _ _ E1) in Hrun. inversion Hrun; subst.
      split; [intros _; exact D1 | discriminate]. }
  2:{ unfold bind in Hrun. rewrite E1 in Hrun. inversion Hrun; subst.
      split; [intros _; exact D1 | discriminate]. }
  rewrite (bind_ret _ _ _ _ _ E1) in Hrun.
  destruct (Driver.delete_volume FLAGS (driver self) volume_ref w1)
    as [r2 w2] eqn:E2.
  assert (D2 : db w2 = db w).
  { rewrite <- D1.
    apply (respects_eq_db _ _ _ _
             (respects_delete_volume eq (@eq_refl store) eq_store_trans
                FLAGS (driver self) volume_ref) E2). }
  destruct r2 as [[]|e|].
  2:{ rewrite (bind_raise _ _ _ _ _ E2) in Hrun. inversion Hrun; subst.
      split; [intros _; exact D2 | discriminate]. }
  2:{ unfold bind in Hrun. rewrite E2 in Hrun. inversion Hrun; subst.
      split; [intros _; exact D2 | discriminate]. }
  rewrite (bind_ret _ _ _ _ _ E2) in Hrun.
  rewrite (bind_ret _ _ _ _ _ (volume_destroy_run volume_id w2)) in Hrun.
  inversion Hrun; subst. split; [congruence |]. intros _.
  exists volume_ref, w1, w2. simpl. rewrite D2.
  split; [reflexivity |]. split; [exact E1 |]. split; [exact E2 |].
  split; [reflexivity |]. split; [reflexivity |].
  apply lookup_after_destroy.
Qed.

Lemma delete_volume_destroys_record_last_witness :
  (Store.lookup_volume 7
     (db (snd (Manager.delete_volume default_flags
                 {| host := "h1";
                    driver := ISCSIDriver lvremove_fails lvremove_fails |}
                 7 exported_world))) = Some exported_volume) /\
  (Store.lookup_volume 7
     (db (snd (Manager.delete_volume default_flags
                 {| host := "h1"; driver := FakeISCSIDriver |}
                 7 exported_world))) = None).
Proof.
  split.
  - destruct (delete_volume_destroys_record_last default_flags
                {| host := "h1";
                   driver := ISCSIDriver lvremove_fails lvremove_fails |}
                7 exported_world
                (Raise (ProcessExecutionError
                          "Can't remove open logical volume"))
                (snd (Manager.delete_volume default_flags
                        {| host := "h1";
                           driver :=
                             ISCSIDriver lvremove_fails lvremove_fails |}
                        7 exported_world))
                eq_refl) as [H _].
    rewrite H; [reflexivity | discriminate].
  - destruct (delete_volume_destroys_record_last default_flags
                {| host := "h1"; driver := FakeISCSIDriver |}
                7 exported_world (Ret true)
                (snd (Manager.delete_volume default_flags
                        {| host := "h1"; driver := FakeISCSIDriver |}
                        7 exported_world))
                eq_refl) as [_ H].
    destruct (H eq_refl) as (v & w1 & w2 & _ & _ & _ & _ & _ & Hgone).
    exact Hgone.
Defined.

(** ** The drivers *)

Lemma loop_events FLAGS self command :
  forall fuel tries w,
    0 <= tries ->
    exists l,
      snd (Driver._try_execute_loop FLAGS fuel self command tries w) =
        add_trace l w /\
      Forall (attempt_or_sleep command) l /\
      (fuel <> 0%nat -> exists rest, l = Exec command :: rest).
Proof.
  induction fuel as [|fuel IH]; intros tries w Ht.
  - exists []. simpl. rewrite add_trace_nil. repeat split; [constructor | easy].
  - rewrite loop_unfold.
    unfold try_except_ProcessExecutionError, bind, Driver._execute, ret, raise.
    cbv beta iota. cbn [trace record_event].
    assert (Hone : Forall (attempt_or_sleep command) [Exec command])
      by (repeat constructor).
    destruct (execute self (trace w) command true) as [o|e|];
      try (exists [Exec command]; repeat split; eauto; fail).
    destruct e;
      try (exists [Exec command]; repeat split; eauto; fail).
    destruct (_ >=? _);
      try (exists [Exec command]; repeat split; eauto; fail).
    assert (Hsleep : attempt_or_sleep command
                       (Exec ("sleep " ++ Py.str ((tries + 1) ^ 2))%string)).
    { right. exists (Z.to_nat (tries + 1)). unfold sleep_after.
      now rewrite Z2Nat.id by lia. }
    assert (Htwo : Forall (attempt_or_sleep command)
                     [Exec command;
                      Exec ("sleep " ++ Py.str ((tries + 1) ^ 2))%string]).
    { constructor; [now left | constructor; [exact Hsleep | constructor]]. }
    destruct (execute self _ _ true) as [o|e|].
    + destruct (IH (tries + 1)
                  (record_event
                     (Exec ("sleep " ++ Py.str ((tries + 1) ^ 2))%string)
                     (record_event (Exec command) w)) ltac:(lia))
        as (l & Hl & Hall & _).
      exists ([Exec command;
               Exec ("sleep " ++ Py.str ((tries + 1) ^ 2))%string] ++ l).
      rewrite Hl, !record_event_add_trace, !add_trace_app.
      split; [reflexivity |]. split; [now apply Forall_app |].
      intros _. simpl. eauto.
    + eexists. cbn [snd]. rewrite !record_event_add_trace, add_trace_app.
      split; [reflexivity |]. split; [exact Htwo |]. intros _. simpl. eauto.
    + eexists. cbn [snd]. rewrite !record_event_add_trace, add_trace_app.
      split; [reflexivity |]. split; [exact Htwo |]. intros _. simpl. eauto.
Qed.

Lemma try_execute_events FLAGS self command w :
  exists rest,
    snd (Driver._try_execute FLAGS self command w) =
      add_trace (Exec command :: rest) w /\
    Forall (attempt_or_sleep command) rest.
Proof.
  destruct (loop_events FLAGS self command (Driver.tries_bound FLAGS) 0 w)
    as (l & Hl & Hall & Hfirst); [lia |].
  destruct Hfirst as [rest ->]; [unfold Driver.tries_bound; lia |].
  exists rest. split; [exact Hl |]. now inversion Hall.
Qed.

(** C7: the driver's [create_volume] runs [lvcreate] with [-L 100M] when the
    volume's size is 0 and with [-L {size}G] otherwise ([5G] for size 5).
    Whatever [execute] answers, that command is the first event, and all
    that may follow it are its retries and their sleeps; when it succeeds
    at once it is the only event. *)
Theorem create_volume_sizes_backing_store
    (FLAGS : flags) (self : volume_driver) (volume : volume) (w : world) :
  let lvcreate :=
    ("sudo lvcreate -L " ++
     (if (v_size volume =? 0)%Z then "100M"
      else Py.str (v_size volume) ++ "G") ++
     " -n " ++ v_name volume ++ " " ++ volume_group FLAGS)%string in
  (exists rest,
     snd (Driver.create_volume FLAGS self volume w) =
       add_trace (Exec lvcreate :: rest) w /\
     Forall (attempt_or_sleep lvcreate) rest) /\
  (forall o,
     execute self (trace w) lvcreate true = Ret o ->
     Driver.create_volume FLAGS self volume w =
       (Ret tt, add_trace [Exec lvcreate] w)) /\
  (v_size volume = 0 -> Driver.sizestr volume = "100M"%string) /\
  (v_size volume = 5 -> Driver.sizestr volume = "5G"%string).
Proof.
  intros lvcreate. split; [| split; [| split]].
  - destruct (try_execute_events FLAGS self lvcreate w) as (rest & Hw & Hall).
    exists rest. split; [| exact Hall].
    unfold Driver.create_volume, bind. fold lvcreate.
    change (Driver.sizestr volume) with
      (if (v_size volume =? 0)%Z then "100M"%string
       else (Py.str (v_size volume) ++ "G")%string).
    fold lvcreate.
    destruct (Driver._try_execute FLAGS self lvcreate w) as [[b|e|] w1];
      exact Hw.
  - intros o Ho. unfold Driver.create_volume.
    change (Driver.sizestr volume) with
      (if (v_size volume =? 0)%Z then "100M"%string
       else (Py.str (v_size volume) ++ "G")%string).
    fold lvcreate.
    now rewrite (bind_ret _ _ _ _ _
                   (try_execute_first_success FLAGS self lvcreate w o Ho)).
  - intros H. unfold Driver.sizestr. now rewrite H.
  - intros H. unfold Driver.sizestr. now rewrite H.
Qed.

Lemma create_volume_sizes_backing_store_witness :
  Driver.create_volume default_flags FakeISCSIDriver
    {| v_id := 1; v_name := "vol-1"; v_size := 0; v_host := "h1";
       v_status := "creating"; v_attach_status := "detached";
       v_launched_at := None |} empty_world =
    (Ret tt,
     add_trace [Exec "sudo lvcreate -L 100M -n vol-1 nova-volumes"]
       empty_world) /\
  Driver.create_volume default_flags FakeISCSIDriver
    {| v_id := 5; v_name := "vol-5"; v_size := 5; v_host := "h1";
       v_status := "creating"; v_attach_status := "detached";
       v_launched_at := None |} empty_world =
    (Ret tt,
     add_trace [Exec "sudo lvcreate -L 5G -n vol-5 nova-volumes"]
       empty_world).
Proof.
  split.
  - apply (proj1 (proj2 (create_volume_sizes_backing_store default_flags
                           FakeISCSIDriver
                           {| v_id := 1; v_name := "vol-1"; v_size := 0;
                              v_host := "h1"; v_status := "creating";
                              v_attach_status := "detached";
                              v_launched_at := None |} empty_world))
             (None, None)).
    reflexivity.
  - apply (proj1 (proj2 (create_volume_sizes_backing_store default_flags
                           FakeISCSIDriver
                           {| v_id := 5; v_name := "vol-5"; v_size := 5;
                              v_host := "h1"; v_status := "creating";
                              v_attach_status := "detached";
                              v_launched_at := None |} empty_world))
             (None, None)).
    reflexivity.
Defined.

Lemma scan_targets_no_match FLAGS volume_name lines :
  (forall target, In target lines ->
     Py.contains (iscsi_ip_prefix FLAGS) target &&
     Py.contains volume_name target = false) ->
  Driver.scan_targets FLAGS volume_name lines = None.
Proof.
  induction lines as [|target rest IH]; intros H; [reflexivity |].
  simpl. rewrite (H target (or_introl eq_refl)).
  apply IH. intros t Ht. apply H. now right.
Qed.

Lemma get_name_and_portal_no_match FLAGS self volume_name host w out err :
  execute self (trace w)
    ("sudo iscsiadm -m discovery -t sendtargets -p " ++ host)%string true =
    Ret (Some out, err) ->
  (forall target, In target (Py.splitlines out) ->
     Py.contains (iscsi_ip_prefix FLAGS) target &&
     Py.contains volume_name target = false) ->
  Driver._get_name_and_portal FLAGS self volume_name host w =
    (Raise (UnboundLocalError "location"),
     add_trace
       [Exec ("sudo iscsiadm -m discovery -t sendtargets -p " ++ host)%string]
       w).
Proof.
  intros Hexec Hnone. unfold Driver._get_name_and_portal.
  unfold bind at 1. unfold Driver._execute. rewrite Hexec. cbn [fst].
  now rewrite (scan_targets_no_match FLAGS volume_name _ Hnone).
Qed.

(** C3: what the code does when no line of the discovery output has both
    the IP prefix and the volume's name.  The loop of
    [_get_name_and_portal] ends without binding [location], and the use of
    [location] after it raises [UnboundLocalError]: [discover_volume] and
    [undiscover_volume] both end with that fault, after the discovery
    command alone, and neither raises [NotFound]. *)
Theorem discover_volume_no_match_is_unbound_local
    (FLAGS : flags) (self : volume_driver) (volume : volume) (w : world)
    (out : string) (err : option string) :
  class self = ISCSIDriverClass ->
  execute self (trace w)
    ("sudo iscsiadm -m discovery -t sendtargets -p " ++ v_host volume)%string
    true = Ret (Some out, err) ->
  (forall target, In target (Py.splitlines out) ->
     Py.contains (iscsi_ip_prefix FLAGS) target &&
     Py.contains (v_name volume) target = false) ->
  Driver.discover_volume FLAGS self volume w =
    (Raise (UnboundLocalError "location"),
     add_trace
       [Exec ("sudo iscsiadm -m discovery -t sendtargets -p " ++
              v_host volume)%string] w) /\
  Driver.undiscover_volume FLAGS self volume w =
    (Raise (UnboundLocalError "location"),
     add_trace
       [Exec ("sudo iscsiadm -m discovery -t sendtargets -p " ++
              v_host volume)%string] w) /\
  (forall message,
     fst (Driver.discover_volume FLAGS self volume w) <>
       Raise (NotFound message) /\
     fst (Driver.undiscover_volume FLAGS self volume w) <>
       Raise (NotFound message)).
Proof.
  intros Hclass Hexec Hnone.
  pose proof (get_name_and_portal_no_match FLAGS self (v_name volume)
                (v_host volume) w out err Hexec Hnone) as Hget.
  assert (Hd : Driver.discover_volume FLAGS self volume w =
    (Raise (UnboundLocalError "location"),
     add_trace
       [Exec ("sudo iscsiadm -m discovery -t sendtargets -p " ++
              v_host volume)%string] w)).
  { unfold Driver.discover_volume, Driver.iscsi_discover_volume.
    rewrite Hclass. now rewrite (bind_raise _ _ _ _ _ Hget). }
  assert (Hu : Driver.undiscover_volume FLAGS self volume w =
    (Raise (UnboundLocalError "location"),
     add_trace
       [Exec ("sudo iscsiadm -m discovery -t sendtargets -p " ++
              v_host volume)%string] w)).
  { unfold Driver.undiscover_volume, Driver.iscsi_undiscover_volume.
    rewrite Hclass. now rewrite (bind_raise _ _ _ _ _ Hget). }
  split; [exact Hd |]. split; [exact Hu |].
  intros message. rewrite Hd, Hu. split; discriminate.
Qed.

Lemma discover_volume_no_match_is_unbound_local_witness :
  Driver.discover_volume default_flags
    (ISCSIDriver (answers other_portal_output) (answers other_portal_output))
    exported_volume empty_world =
    (Raise (UnboundLocalError "location"),
     add_trace [Exec "sudo iscsiadm -m discovery -t sendtargets -p h1"]
       empty_world).
Proof.
  apply (discover_volume_no_match_is_unbound_local default_flags
           (ISCSIDriver (answers other_portal_output)
              (answers other_portal_output))
           exported_volume empty_world other_portal_output (Some ""%string)).
  - reflexivity.
  - reflexivity.
  - intros target [<-|[]]. reflexivity.
Defined.

(** ** Pools: create-if-absent population *)

Section CreateSafe.

Variables (R K : Type) (key : R -> K) (fresh : K -> R).
Variable same : K -> R -> bool.
Variable good : R -> Prop.
Hypothesis same_spec :
  forall k r, good r -> (same k r = true <-> key r = k).
Hypothesis key_fresh : forall k, key (fresh k) = k.
Hypothesis good_fresh : forall k, good (fresh k).

#[local] Abbreviation populate := (populate_with same fresh).

Lemma existsb_same k rows :
  Forall good rows -> (existsb (same k) rows = true <-> In k (map key rows)).
Proof.
  intros Hg. rewrite existsb_exists, in_map_iff. rewrite Forall_forall in Hg.
  split; intros (r & H1 & H2).
  - exists r. split; [| exact H1]. now apply same_spec; auto.
  - exists r. split; [exact H2 |]. now apply same_spec; auto.
Qed.

Lemma create_safe_good k rows :
  Forall good rows -> Forall good (Store.create_safe (same k) (fresh k) rows).
Proof.
  intros Hg. unfold Store.create_safe. destruct (existsb _ _); [exact Hg |].
  apply Forall_app. split; [exact Hg | repeat constructor; apply good_fresh].
Qed.

Lemma create_safe_keys k k' rows :
  Forall good rows ->
  (In k' (map key (Store.create_safe (same k) (fresh k) rows)) <->
   k' = k \/ In k' (map key rows)).
Proof.
  intros Hg. unfold Store.create_safe.
  destruct (existsb (same k) rows) eqn:E.
  - apply existsb_same in E; [| exact Hg].
    split; [now right | intros [->|H]; assumption].
  - rewrite map_app, in_app_iff. simpl. rewrite key_fresh.
    split; [intros [H|[H|[]]] | intros [H|H]]; auto.
Qed.

Lemma create_safe_NoDup k rows :
  Forall good rows -> NoDup (map key rows) ->
  NoDup (map key (Store.create_safe (same k) (fresh k) rows)).
Proof.
  intros Hg Hnd. unfold Store.create_safe.
  destruct (existsb (same k) rows) eqn:E; [exact Hnd |].
  rewrite map_app. simpl. rewrite key_fresh.
  apply NoDup_app; [exact Hnd | repeat constructor; simpl; tauto |].
  intros x Hx [Heq|[]]. subst x.
  apply (existsb_same k rows Hg) in Hx. congruence.
Qed.

Lemma populate_good ks :
  forall rows, Forall good rows -> Forall good (populate ks rows).
Proof.
  induction ks as [|k ks IH]; intros rows Hg; [exact Hg |].
  apply IH. now apply create_safe_good.
Qed.

Lemma populate_keys ks k' :
  forall rows, Forall good rows ->
  (In k' (map key (populate ks rows)) <-> In k' ks \/ In k' (map key rows)).
Proof.
  induction ks as [|k ks IH]; intros rows Hg; simpl.
  - tauto.
  - unfold populate_with in *. simpl. rewrite IH by now apply create_safe_good.
    rewrite create_safe_keys by exact Hg.
    split; [intros [H|[H|H]] | intros [[H|H]|H]]; auto.
Qed.

Lemma populate_NoDup ks :
  forall rows, Forall good rows -> NoDup (map key rows) ->
  NoDup (map key (populate ks rows)).
Proof.
  induction ks as [|k ks IH]; intros rows Hg Hnd; [exact Hnd |].
  apply IH; [now apply create_safe_good | now apply create_safe_NoDup].
Qed.

(** Population only appends fresh rows. *)
Lemma populate_appends ks :
  forall rows, exists news,
    populate ks rows = rows ++ news /\
    Forall (fun r => exists k, r = fresh k) news.
Proof.
  induction ks as [|k ks IH]; intros rows.
  - exists []. now rewrite app_nil_r.
  - destruct (IH (Store.create_safe (same k) (fresh k) rows))
      as (news & Hn & Hf).
    unfold populate_with in *. simpl. rewrite Hn. unfold Store.create_safe.
    destruct (existsb _ _); [now exists news |].
    exists (fresh k :: news). rewrite <- app_assoc. split; [reflexivity |].
    constructor; [now exists k | exact Hf].
Qed.

(** A pool inside the identifier space, populated over that space, holds
    each identifier exactly once. *)
Lemma populate_all ks rows :
  Forall good rows -> NoDup (map key rows) -> NoDup ks ->
  incl (map key rows) ks ->
  Permutation (map key (populate ks rows)) ks.
Proof.
  intros Hg Hnd Hks Hincl.
  apply NoDup_Permutation; [now apply populate_NoDup | exact Hks |].
  intros k. rewrite populate_keys by exact Hg.
  split; [intros [H|H]; auto | auto].
Qed.

(** A pool inside the identifier space with as many rows as identifiers
    holds each identifier exactly once. *)
Lemma full_pool ks rows :
  NoDup (map key rows) -> incl (map key rows) ks ->
  (length ks <= length rows)%nat ->
  Permutation (map key rows) ks.
Proof.
  intros Hnd Hincl Hlen.
  apply NoDup_Permutation_bis; [exact Hnd | now rewrite length_map | exact Hincl].
Qed.

End CreateSafe.

(** ** Loops over store calls *)

Lemma for_in_app {A} (l1 l2 : list A) (body : A -> M unit) w :
  for_in (l1 ++ l2) body w =
    bind (for_in l1 body) (fun _ => for_in l2 body) w.
Proof.
  revert w. induction l1 as [|x l1 IH]; intros w; [reflexivity |].
  simpl. unfold bind in *.
  destruct (body x w) as [[[]|e|] w1]; try reflexivity. apply IH.
Qed.

Lemma for_in_map {A B} (g : A -> B) (l : list A) (body : B -> M unit) w :
  for_in (map g l) body w = for_in l (fun x => body (g x)) w.
Proof.
  revert w. induction l as [|x l IH]; intros w; [reflexivity |].
  simpl. unfold bind. destruct (body (g x) w) as [[[]|e|] w1]; auto.
Qed.

Lemma for_in_nested {A B} (xs : list A) (ys : list B)
    (body : A -> B -> M unit) w :
  for_in xs (fun x => for_in ys (body x)) w =
    for_in (list_prod xs ys) (fun p => body (fst p) (snd p)) w.
Proof.
  revert w. induction xs as [|x xs IH]; intros w; [reflexivity |].
  simpl. rewrite for_in_app. unfold bind. rewrite for_in_map.
  change (fun y : B => body (fst (x, y)) (snd (x, y))) with (body x).
  destruct (for_in ys (body x) w) as [[[]|e|] w1]; auto.
Qed.

(** A loop of store calls that all return: the store is folded through the
    calls and the trace gains one event per call. *)
Lemma for_in_calls {K} (c : K -> db_call) (upd : K -> store -> store) ks :
  forall w,
    for_in ks (fun k => Store.call (c k) (fun s => (Ret tt, upd k s))) w =
      (Ret tt,
       {| db := fold_left (fun s k => upd k s) ks (db w);
          utcnow := utcnow w;
          trace := trace w ++ map (fun k => Db (c k)) ks |}).
Proof.
  induction ks as [|k ks IH]; intros w.
  - destruct w. simpl. now rewrite app_nil_r.
  - simpl. unfold bind. unfold Store.call at 1. simpl. rewrite IH. simpl.
    now rewrite <- app_assoc.
Qed.

Lemma fold_export_devices (ks : list (Z * Z)) :
  forall s,
    fold_left
      (fun s k =>
         {| volumes := volumes s;
            export_devices :=
              Store.create_safe (Store.same_blade (fst k) (snd k))
                {| shelf_id := fst k; blade_id := snd k;
                   ed_volume_id := None |} (export_devices s);
            iscsi_targets := iscsi_targets s |}) ks s =
      with_export_devices
        (populate_with blade_same blade_fresh ks (export_devices s)) s.
Proof.
  induction ks as [|k ks IH]; intros s.
  - now destruct s.
  - simpl. now rewrite IH.
Qed.

Lemma fold_iscsi_targets host (ks : list Z) :
  forall s,
    fold_left
      (fun s k =>
         {| volumes := volumes s;
            export_devices := export_devices s;
            iscsi_targets :=
              Store.create_safe (Store.same_target host k)
                {| t_host := host; target_id := k; t_volume_id := None |}
                (iscsi_targets s) |}) ks s =
      with_iscsi_targets
        (populate_with (Store.same_target host) (target_fresh host) ks
           (iscsi_targets s)) s.
Proof.
  induction ks as [|k ks IH]; intros s.
  - now destruct s.
  - simpl. now rewrite IH.
Qed.

(** *** The two population methods, run *)

Lemma ensure_blades_full FLAGS w :
  num_shelves FLAGS * blades_per_shelf FLAGS <=
    Z.of_nat (length (export_devices (db w))) ->
  Driver._ensure_blades FLAGS w = (Ret tt, add_trace [Db ExportDeviceCount] w).
Proof.
  intros H. unfold Driver._ensure_blades, bind, Store.export_device_count,
    Store.call. simpl.
  destruct (Z.geb_spec (Z.of_nat (length (export_devices (db w))))
              (num_shelves FLAGS * blades_per_shelf FLAGS)); [| lia].
  unfold ret, with_db, add_trace. simpl. now destruct w as [[] ? ?].
Qed.

Lemma ensure_blades_populates FLAGS w :
  Z.of_nat (length (export_devices (db w))) <
    num_shelves FLAGS * blades_per_shelf FLAGS ->
  Driver._ensure_blades FLAGS w =
    (Ret tt,
     {| db := with_export_devices
                (populate_with blade_same blade_fresh (blade_grid FLAGS)
                   (export_devices (db w))) (db w);
        utcnow := utcnow w;
        trace := trace w ++
                 Db ExportDeviceCount ::
                 map (fun p => Db (ExportDeviceCreateSafe (fst p) (snd p)))
                   (blade_grid FLAGS) |}).
Proof.
  intros H. unfold Driver._ensure_blades, bind, Store.export_device_count.
  unfold Store.call at 1. cbn [fst snd db record_event with_db].
  destruct (Z.geb_spec (Z.of_nat (length (export_devices (db w))))
              (num_shelves FLAGS * blades_per_shelf FLAGS)); [lia |].
  rewrite for_in_nested.
  unfold Store.export_device_create_safe.
  rewrite (for_in_calls
             (fun p => ExportDeviceCreateSafe (fst p) (snd p))
             (fun p s =>
                {| volumes := volumes s;
                   export_devices :=
                     Store.create_safe (Store.same_blade (fst p) (snd p))
                       {| shelf_id := fst p; blade_id := snd p;
                          ed_volume_id := None |} (export_devices s);
                   iscsi_targets := iscsi_targets s |})).
  rewrite fold_export_devices.
  cbn [db utcnow trace with_db record_event]. rewrite <- app_assoc.
  reflexivity.
Qed.

Lemma ensure_target_ids_full FLAGS host w :
  iscsi_target_ids FLAGS <= Z.of_nat (length (host_targets host (db w))) ->
  Driver._ensure_target_ids FLAGS host w =
    (Ret tt, add_trace [Db (TargetIdCountByHost host)] w).
Proof.
  intros H. unfold Driver._ensure_target_ids, bind,
    Store.target_id_count_by_host, Store.call. simpl.
  fold (host_targets host (db w)).
  destruct (Z.geb_spec (Z.of_nat (length (host_targets host (db w))))
              (iscsi_target_ids FLAGS)); [| lia].
  unfold ret, with_db, add_trace. simpl. now destruct w as [[] ? ?].
Qed.

Lemma ensure_target_ids_populates FLAGS host w :
  Z.of_nat (length (host_targets host (db w))) < iscsi_target_ids FLAGS ->
  Driver._ensure_target_ids FLAGS host w =
    (Ret tt,
     {| db := with_iscsi_targets
                (populate_with (Store.same_target host) (target_fresh host)
                   (target_range FLAGS) (iscsi_targets (db w))) (db w);
        utcnow := utcnow w;
        trace := trace w ++
                 Db (TargetIdCountByHost host) ::
                 map (fun tid => Db (TargetIdCreateSafe host tid))
                   (target_range FLAGS) |}).
Proof.
  intros H. unfold Driver._ensure_target_ids, bind,
    Store.target_id_count_by_host.
  unfold Store.call at 1. cbn [fst snd db record_event with_db].
  fold (host_targets host (db w)).
  destruct (Z.geb_spec (Z.of_nat (length (host_targets host (db w))))
              (iscsi_target_ids FLAGS)); [lia |].
  unfold Store.target_id_create_safe.
  rewrite (for_in_calls
             (fun tid => TargetIdCreateSafe host tid)
             (fun tid s =>
                {| volumes := volumes s;
                   export_devices := export_devices s;
                   iscsi_targets :=
                     Store.create_safe (Store.same_target host tid)
                       {| t_host := host; target_id := tid;
                          t_volume_id := None |} (iscsi_targets s) |})).
  rewrite fold_iscsi_targets.
  cbn [db utcnow trace with_db record_event]. rewrite <- app_assoc.
  reflexivity.
Qed.

(** *** The identifier spaces *)

Lemma xrange_length lo hi : length (xrange lo hi) = Z.to_nat (hi - lo).
Proof. unfold xrange. now rewrite length_map, length_seq. Qed.

Lemma xrange_NoDup lo hi : NoDup (xrange lo hi).
Proof.
  unfold xrange. apply Injective_map_NoDup; [| apply seq_NoDup].
  intros i j H. lia.
Qed.

Lemma list_prod_NoDup {A B} (l : list A) (l' : list B) :
  NoDup l -> NoDup l' -> NoDup (list_prod l l').
Proof.
  intros Hl Hl'. induction Hl as [|x l Hx Hl IH]; simpl; [constructor |].
  apply NoDup_app.
  - apply Injective_map_NoDup; [| exact Hl'].
    intros a b H. now inversion H.
  - exact IH.
  - intros [a b] Ha Hb. apply in_map_iff in Ha. destruct Ha as (y & Hy & _).
    inversion Hy; subst. apply in_prod_iff in Hb. tauto.
Qed.

Lemma blade_grid_NoDup FLAGS : NoDup (blade_grid FLAGS).
Proof. apply list_prod_NoDup; apply xrange_NoDup. Qed.

Lemma blade_grid_length FLAGS :
  0 <= num_shelves FLAGS -> 0 <= blades_per_shelf FLAGS ->
  Z.of_nat (length (blade_grid FLAGS)) =
    num_shelves FLAGS * blades_per_shelf FLAGS.
Proof.
  intros Hs Hb. unfold blade_grid. rewrite length_prod, !xrange_length. lia.
Qed.

Lemma target_range_length FLAGS :
  0 <= iscsi_target_ids FLAGS ->
  Z.of_nat (length (target_range FLAGS)) = iscsi_target_ids FLAGS.
Proof. intros H. unfold target_range. rewrite xrange_length. lia. Qed.

Lemma blade_same_spec k d :
  True -> (blade_same k d = true <-> blade_key d = k).
Proof.
  intros _. unfold blade_same, Store.same_blade, blade_key.
  rewrite andb_true_iff, !Z.eqb_eq. destruct k as [a b]. simpl.
  split; [intros [-> ->]; reflexivity | intros H; inversion H; auto].
Qed.

Lemma blade_key_fresh k : blade_key (blade_fresh k) = k.
Proof. now destruct k. Qed.

Lemma same_target_spec host k t :
  Store.on_host host t = true ->
  (Store.same_target host k t = true <-> target_id t = k).
Proof.
  intros H. unfold Store.same_target. rewrite H. simpl. apply Z.eqb_eq.
Qed.

Lemma on_host_fresh host k : Store.on_host host (target_fresh host k) = true.
Proof. unfold Store.on_host. simpl. apply String.eqb_refl. Qed.

Lemma host_targets_good host s :
  Forall (fun t => Store.on_host host t = true) (host_targets host s).
Proof.
  apply Forall_forall. intros t Ht. now apply filter_In in Ht.
Qed.

Lemma existsb_same_target_filter host k rows :
  existsb (Store.same_target host k) (filter (Store.on_host host) rows) =
  existsb (Store.same_target host k) rows.
Proof.
  induction rows as [|t rows IH]; [reflexivity |]. simpl.
  destruct (Store.on_host host t) eqn:E; simpl; rewrite IH; [reflexivity |].
  unfold Store.same_target. now rewrite E.
Qed.

(** Populating a host's pool and then selecting the host's rows is
    populating the host's rows. *)
Lemma filter_populate host ks :
  forall rows,
    filter (Store.on_host host)
      (populate_with (Store.same_target host) (target_fresh host) ks rows) =
    populate_with (Store.same_target host) (target_fresh host) ks
      (filter (Store.on_host host) rows).
Proof.
  induction ks as [|k ks IH]; intros rows; [reflexivity |].
  unfold populate_with in *. simpl. rewrite IH. f_equal.
  unfold Store.create_safe. rewrite existsb_same_target_filter.
  destruct (existsb _ rows); [reflexivity |].
  rewrite filter_app. simpl. now rewrite on_host_fresh.
Qed.

(** Populating a host's pool leaves the rows of every other host alone. *)
Lemma filter_populate_other host host' ks :
  host' <> host ->
  forall rows,
    filter (Store.on_host host')
      (populate_with (Store.same_target host) (target_fresh host) ks rows) =
    filter (Store.on_host host') rows.
Proof.
  intros Hne. induction ks as [|k ks IH]; intros rows; [reflexivity |].
  unfold populate_with in *. simpl. rewrite IH.
  unfold Store.create_safe. destruct (existsb _ rows); [reflexivity |].
  rewrite filter_app. simpl. unfold Store.on_host at 2. simpl.
  destruct (String.eqb_spec host host'); [congruence |].
  now rewrite app_nil_r.
Qed.

(** *** One run, then a second *)

Lemma ensure_blades_once FLAGS w :
  0 <= num_shelves FLAGS -> 0 <= blades_per_shelf FLAGS ->
  NoDup (map blade_key (export_devices (db w))) ->
  incl (map blade_key (export_devices (db w))) (blade_grid FLAGS) ->
  fst (Driver._ensure_blades FLAGS w) = Ret tt /\
  Permutation
    (map blade_key (export_devices (db (after (Driver._ensure_blades FLAGS) w))))
    (blade_grid FLAGS) /\
  (Forall unowned_blade (export_devices (db w)) ->
   Forall unowned_blade
     (export_devices (db (after (Driver._ensure_blades FLAGS) w)))).
Proof.
  intros Hs Hb Hnd Hincl. unfold after.
  destruct (Z_lt_le_dec (Z.of_nat (length (export_devices (db w))))
              (num_shelves FLAGS * blades_per_shelf FLAGS)) as [Hlt|Hge].
  - rewrite (ensure_blades_populates FLAGS w Hlt). cbn [fst snd db].
    cbn [with_export_devices export_devices].
    split; [reflexivity |]. split.
    + apply (populate_all _ _ blade_key blade_fresh blade_same
               (fun _ => True) blade_same_spec blade_key_fresh
               (fun _ => I)).
      * apply Forall_forall. auto.
      * exact Hnd.
      * apply blade_grid_NoDup.
      * exact Hincl.
    + intros Hfree.
      destruct (populate_appends _ _ blade_fresh blade_same
                  (blade_grid FLAGS) (export_devices (db w)))
        as (news & -> & Hnews).
      apply Forall_app. split; [exact Hfree |].
      eapply Forall_impl; [| exact Hnews].
      intros d [k ->]. reflexivity.
  - rewrite (ensure_blades_full FLAGS w Hge). cbn [fst snd db add_trace].
    split; [reflexivity |]. split; [| auto].
    apply full_pool; [exact Hnd | exact Hincl |].
    pose proof (blade_grid_length FLAGS Hs Hb). lia.
Qed.

Lemma ensure_blades_twice FLAGS w :
  0 <= num_shelves FLAGS -> 0 <= blades_per_shelf FLAGS ->
  NoDup (map blade_key (export_devices (db w))) ->
  incl (map blade_key (export_devices (db w))) (blade_grid FLAGS) ->
  let w1 := after (Driver._ensure_blades FLAGS) w in
  let w2 := after (Driver._ensure_blades FLAGS) w1 in
  fst (Driver._ensure_blades FLAGS w) = Ret tt /\
  fst (Driver._ensure_blades FLAGS w1) = Ret tt /\
  Permutation (map blade_key (export_devices (db w2))) (blade_grid FLAGS) /\
  Z.of_nat (length (export_devices (db w2))) =
    num_shelves FLAGS * blades_per_shelf FLAGS /\
  db w2 = db w1 /\
  (Forall unowned_blade (export_devices (db w)) ->
   Forall unowned_blade (export_devices (db w2))).
Proof.
  intros Hs Hb Hnd Hincl w1 w2.
  destruct (ensure_blades_once FLAGS w Hs Hb Hnd Hincl) as (R1 & P1 & F1).
  fold w1 in P1, F1.
  assert (L1 : Z.of_nat (length (export_devices (db w1))) =
               num_shelves FLAGS * blades_per_shelf FLAGS).
  { rewrite <- (blade_grid_length FLAGS Hs Hb).
    rewrite <- (Permutation_length P1). now rewrite length_map. }
  assert (E2 : Driver._ensure_blades FLAGS w1 =
               (Ret tt, add_trace [Db ExportDeviceCount] w1))
    by (apply ensure_blades_full; lia).
  assert (D2 : db w2 = db w1) by (unfold w2, after; now rewrite E2).
  split; [exact R1 |]. split; [now rewrite E2 |].
  rewrite D2. auto.
Qed.

Lemma ensure_target_ids_once FLAGS host w :
  0 <= iscsi_target_ids FLAGS ->
  NoDup (map target_id (host_targets host (db w))) ->
  incl (map target_id (host_targets host (db w))) (target_range FLAGS) ->
  fst (Driver._ensure_target_ids FLAGS host w) = Ret tt /\
  Permutation
    (map target_id
       (host_targets host
          (db (after (Driver._ensure_target_ids FLAGS host) w))))
    (target_range FLAGS) /\
  (Forall unowned_target (host_targets host (db w)) ->
   Forall unowned_target
     (host_targets host
        (db (after (Driver._ensure_target_ids FLAGS host) w)))) /\
  (forall host', host' <> host ->
     host_targets host'
       (db (after (Driver._ensure_target_ids FLAGS host) w)) =
     host_targets host' (db w)).
Proof.
  intros Hn Hnd Hincl. unfold after.
  destruct (Z_lt_le_dec (Z.of_nat (length (host_targets host (db w))))
              (iscsi_target_ids FLAGS)) as [Hlt|Hge].
  - rewrite (ensure_target_ids_populates FLAGS host w Hlt).
    cbn [fst snd db]. unfold host_targets at 1 3 4.
    cbn [with_iscsi_targets iscsi_targets].
    rewrite filter_populate. fold (host_targets host (db w)).
    split; [reflexivity |]. split; [| split].
    + apply (populate_all _ _ target_id (target_fresh host)
               (Store.same_target host)
               (fun t => Store.on_host host t = true)
               (same_target_spec host) (fun k => eq_refl)
               (on_host_fresh host)).
      * apply host_targets_good.
      * exact Hnd.
      * apply xrange_NoDup.
      * exact Hincl.
    + intros Hfree.
      destruct (populate_appends _ _ (target_fresh host)
                  (Store.same_target host) (target_range FLAGS)
                  (host_targets host (db w)))
        as (news & -> & Hnews).
      apply Forall_app. split; [exact Hfree |].
      eapply Forall_impl; [| exact Hnews].
      intros d [k ->]. reflexivity.
    + intros host' Hne. now apply filter_populate_other.
  - rewrite (ensure_target_ids_full FLAGS host w Hge).
    cbn [fst snd db add_trace].
    split; [reflexivity |]. split; [| auto].
    apply full_pool; [exact Hnd | exact Hincl |].
    pose proof (target_range_length FLAGS Hn). lia.
Qed.

Lemma ensure_target_ids_twice FLAGS host w :
  0 <= iscsi_target_ids FLAGS ->
  NoDup (map target_id (host_targets host (db w))) ->
  incl (map target_id (host_targets host (db w))) (target_range FLAGS) ->
  let w1 := after (Driver._ensure_target_ids FLAGS host) w in
  let w2 := after (Driver._ensure_target_ids FLAGS host) w1 in
  fst (Driver._ensure_target_ids FLAGS host w) = Ret tt /\
  fst (Driver._ensure_target_ids FLAGS host w1) = Ret tt /\
  Permutation (map target_id (host_targets host (db w2)))
    (target_range FLAGS) /\
  Z.of_nat (length (host_targets host (db w2))) = iscsi_target_ids FLAGS /\
  db w2 = db w1 /\
  (Forall unowned_target (host_targets host (db w)) ->
   Forall unowned_target (host_targets host (db w2))).
Proof.
  intros Hn Hnd Hincl w1 w2.
  destruct (ensure_target_ids_once FLAGS host w Hn Hnd Hincl)
    as (R1 & P1 & F1 & _).
  fold w1 in P1, F1.
  assert (L1 : Z.of_nat (length (host_targets host (db w1))) =
               iscsi_target_ids FLAGS).
  { rewrite <- (target_range_length FLAGS Hn).
    rewrite <- (Permutation_length P1). now rewrite length_map. }
  assert (E2 : Driver._ensure_target_ids FLAGS host w1 =
               (Ret tt, add_trace [Db (TargetIdCountByHost host)] w1))
    by (apply ensure_target_ids_full; lia).
  assert (D2 : db w2 = db w1) by (unfold w2, after; now rewrite E2).
  split; [exact R1 |]. split; [now rewrite E2 |].
  rewrite D2. auto.
Qed.

(** C6: population is idempotent.  For the shelf-by-blade grid of
    [num_shelves * blades_per_shelf] pairs, and for a host's target IDs
    [1 .. iscsi_target_ids], starting from a pool whose rows are distinct
    identifiers of that space (the empty pool among them): both runs of the
    population method return, the pool then holds each identifier exactly
    once, so exactly N rows, the second run leaves the store as the first
    left it, and the rows are all unowned when those at the start were. *)
Theorem pool_population_is_idempotent
    (FLAGS : flags) (host : string) (w : world) :
  (0 <= num_shelves FLAGS -> 0 <= blades_per_shelf FLAGS ->
   NoDup (map blade_key (export_devices (db w))) ->
   incl (map blade_key (export_devices (db w))) (blade_grid FLAGS) ->
   let w1 := after (Driver._ensure_blades FLAGS) w in
   let w2 := after (Driver._ensure_blades FLAGS) w1 in
   fst (Driver._ensure_blades FLAGS w) = Ret tt /\
   fst (Driver._ensure_blades FLAGS w1) = Ret tt /\
   Permutation (map blade_key (export_devices (db w2))) (blade_grid FLAGS) /\
   Z.of_nat (length (export_devices (db w2))) =
     num_shelves FLAGS * blades_per_shelf FLAGS /\
   db w2 = db w1 /\
   (Forall unowned_blade (export_devices (db w)) ->
    Forall unowned_blade (export_devices (db w2)))) /\
  (0 <= iscsi_target_ids FLAGS ->
   NoDup (map target_id (host_targets host (db w))) ->
   incl (map target_id (host_targets host (db w))) (target_range FLAGS) ->
   let w1 := after (Driver._ensure_target_ids FLAGS host) w in
   let w2 := after (Driver._ensure_target_ids FLAGS host) w1 in
   fst (Driver._ensure_target_ids FLAGS host w) = Ret tt /\
   fst (Driver._ensure_target_ids FLAGS host w1) = Ret tt /\
   Permutation (map target_id (host_targets host (db w2)))
     (target_range FLAGS) /\
   Z.of_nat (length (host_targets host (db w2))) = iscsi_target_ids FLAGS /\
   db w2 = db w1 /\
   (Forall unowned_target (host_targets host (db w)) ->
    Forall unowned_target (host_targets host (db w2)))).
Proof.
  split.
  - apply ensure_blades_twice.
  - apply ensure_target_ids_twice.
Qed.

Lemma pool_population_is_idempotent_witness :
  Z.of_nat
    (length
       (export_devices
          (db (after (Driver._ensure_blades default_flags)
                 (after (Driver._ensure_blades default_flags)
                    empty_world))))) = 100 * 16 /\
  Z.of_nat
    (length
       (host_targets "h1"
          (db (after (Driver._ensure_target_ids default_flags "h1")
                 (after (Driver._ensure_target_ids default_flags "h1")
                    empty_world))))) = 100.
Proof.
  split.
  - apply (proj1 (pool_population_is_idempotent default_flags "h1"
                    empty_world)).
    + simpl. lia.
    + simpl. lia.
    + constructor.
    + intros k [].
  - apply (proj2 (pool_population_is_idempotent default_flags "h1"
                    empty_world)).
    + simpl. lia.
    + constructor.
    + intros k [].
Defined.

(** ** The manager: creating a volume *)

Lemma has_id_set_values volume_id values :
  forall v,
    Store.has_id volume_id (Store.set_values values v) =
    Store.has_id volume_id v.
Proof.
  unfold Store.set_values.
  induction values as [|x values IH]; intros v; [reflexivity |].
  simpl. rewrite IH. now destruct x.
Qed.

Lemma find_map_update {A} (p : A -> bool) (g : A -> A) (l : list A) :
  (forall x, p (g x) = p x) ->
  find p (map (fun x => if p x then g x else x) l) = option_map g (find p l).
Proof.
  intros Hg. induction l as [|x l IH]; [reflexivity |]. simpl.
  destruct (p x) eqn:E.
  - now rewrite Hg, E.
  - now rewrite E.
Qed.

Lemma lookup_update_volume volume_id values s v :
  Store.lookup_volume volume_id s = Some v ->
  Store.lookup_volume volume_id (Store.update_volume volume_id values s) =
    Some (Store.set_values values v).
Proof.
  intros H. unfold Store.lookup_volume, Store.update_volume in *. simpl.
  rewrite find_map_update by (intros; apply has_id_set_values).
  now rewrite H.
Qed.

Lemma volume_update_found volume_id values w v :
  Store.lookup_volume volume_id (db w) = Some v ->
  Store.volume_update volume_id values w =
    (Ret tt,
     {| db := Store.update_volume volume_id values (db w);
        utcnow := utcnow w;
        trace := trace w ++ [Db (VolumeUpdate volume_id values)] |}).
Proof.
  intros H. unfold Store.volume_update, Store.call. simpl. now rewrite H.
Qed.

Lemma lookup_same_volumes volume_id s1 s2 :
  same_volumes s1 s2 ->
  Store.lookup_volume volume_id s2 = Store.lookup_volume volume_id s1.
Proof. unfold same_volumes, Store.lookup_volume. now intros ->. Qed.

(** The frame lemmas at [same_volumes]. *)

Lemma sv_ret {A} (a : A) : respects same_volumes (ret a).
Proof. apply respects_ret, same_volumes_refl. Qed.

Lemma sv_raise {A} (e : exn) : respects same_volumes (@raise A e).
Proof. apply respects_raise, same_volumes_refl. Qed.

Lemma sv_bind {A B} (m : M A) (k : A -> M B) :
  respects same_volumes m -> (forall a, respects same_volumes (k a)) ->
  respects same_volumes (bind m k).
Proof. apply respects_bind, same_volumes_trans. Qed.

Lemma sv_for_in {A} (l : list A) (body : A -> M unit) :
  (forall x, respects same_volumes (body x)) ->
  respects same_volumes (for_in l body).
Proof.
  apply respects_for_in; [apply same_volumes_refl | apply same_volumes_trans].
Qed.

Lemma sv_execute self cmd check :
  respects same_volumes (Driver._execute self cmd check).
Proof. apply respects_execute, same_volumes_refl. Qed.

Lemma sv_try_execute FLAGS self command :
  respects same_volumes (Driver._try_execute FLAGS self command).
Proof.
  apply respects_try_execute;
    [apply same_volumes_refl | apply same_volumes_trans].
Qed.

Lemma sv_create_volume FLAGS self volume :
  respects same_volumes (Driver.create_volume FLAGS self volume).
Proof.
  apply respects_create_volume;
    [apply same_volumes_refl | apply same_volumes_trans].
Qed.

#[local] Ltac same_volumes_steps :=
  repeat first
    [ apply sv_ret | apply sv_raise | apply sv_execute | apply sv_try_execute
    | apply sv_bind; [| intros ?] ].

Lemma respects_ensure_blades FLAGS :
  respects same_volumes (Driver._ensure_blades FLAGS).
Proof.
  apply sv_bind.
  - apply respects_export_device_count, same_volumes_refl.
  - intros count. destruct (_ >=? _); [apply sv_ret |].
    apply sv_for_in. intros shelf. apply sv_for_in. intros blade.
    apply respects_call. intros s. reflexivity.
Qed.

Lemma respects_ensure_target_ids FLAGS host :
  respects same_volumes (Driver._ensure_target_ids FLAGS host).
Proof.
  apply sv_bind.
  - apply respects_target_id_count_by_host, same_volumes_refl.
  - intros count. destruct (_ >=? _); [apply sv_ret |].
    apply sv_for_in. intros tid.
    apply respects_call. intros s. reflexivity.
Qed.

Lemma respects_create_export FLAGS self volume :
  respects same_volumes (Driver.create_export FLAGS self volume).
Proof.
  unfold Driver.create_export. destruct (class self).
  - apply sv_raise.
  - unfold Driver.aoe_create_export.
    apply sv_bind; [apply respects_ensure_blades | intros _].
    apply sv_bind; [| intros pair; same_volumes_steps].
    apply respects_call. intros s.
    destruct (Store.allocate_first _ _ _) as [[d rows]|]; reflexivity.
  - unfold Driver.iscsi_create_export.
    apply sv_bind; [apply respects_ensure_target_ids | intros _].
    apply sv_bind; [| intros tid; same_volumes_steps].
    apply respects_call. intros s.
    destruct (Store.allocate_first _ _ _) as [[d rows]|]; reflexivity.
Qed.

Lemma driver_create_volume_events FLAGS self volume w :
  exists rest,
    snd (Driver.create_volume FLAGS self volume w) =
      add_trace (Exec (lvcreate_command FLAGS volume) :: rest) w.
Proof.
  destruct (try_execute_events FLAGS self (lvcreate_command FLAGS volume) w)
    as (rest & Hw & _).
  exists rest. unfold Driver.create_volume, bind.
  change ("sudo lvcreate -L " ++ Driver.sizestr volume ++ " -n " ++
          v_name volume ++ " " ++ volume_group FLAGS)%string
    with (lvcreate_command FLAGS volume).
  destruct (Driver._try_execute FLAGS self (lvcreate_command FLAGS volume) w)
    as [[b|e|] w1]; exact Hw.
Qed.

(** The steps of the manager's [create_volume], whatever the driver and
    whatever [execute] answers: the record is read, the host is written to
    it, and only then does the first command run, which is [lvcreate].  The
    record ends with status and launch time written, as the last event of
    a call that returned, or else with the host alone written. *)
Lemma create_volume_ordered FLAGS self volume_id w v :
  Store.lookup_volume volume_id (db w) = Some v ->
  exists rest,
    trace (after (Manager.create_volume FLAGS self volume_id) w) =
      trace w ++
      [Db (VolumeGet volume_id);
       Db (VolumeUpdate volume_id [Host (host self)]);
       Exec (lvcreate_command FLAGS v)] ++ rest /\
    ((fst (Manager.create_volume FLAGS self volume_id w) = Ret volume_id /\
      Store.lookup_volume volume_id
        (db (after (Manager.create_volume FLAGS self volume_id) w)) =
        Some (Store.set_values
                [Host (host self); Status "available";
                 LaunchedAt (utcnow w)] v) /\
      exists mid,
        rest = mid ++
               [Db (VolumeUpdate volume_id
                      [Status "available"; LaunchedAt (utcnow w)])]) \/
     (fst (Manager.create_volume FLAGS self volume_id w) <> Ret volume_id /\
      Store.lookup_volume volume_id
        (db (after (Manager.create_volume FLAGS self volume_id) w)) =
        Some (Store.set_value (Host (host self)) v))).
Proof.
  intros Hget. unfold after, Manager.create_volume.
  rewrite (bind_ret _ _ _ _ _ (volume_get_found _ _ _ Hget)).
  rewrite (bind_ret _ _ _ _ _
             (volume_update_found volume_id [Host (host self)]
                (add_trace [Db (VolumeGet volume_id)] w) v Hget)).
  cbn [db utcnow trace add_trace].
  set (v' := Store.set_value (Host (host self)) v).
  set (w1 := {| db := Store.update_volume volume_id [Host (host self)] (db w);
                utcnow := utcnow w;
                trace := (trace w ++ [Db (VolumeGet volume_id)]) ++
                         [Db (VolumeUpdate volume_id [Host (host self)])] |}).
  assert (L1 : Store.lookup_volume volume_id (db w1) = Some v')
    by (apply (lookup_update_volume volume_id [Host (host self)]); exact Hget).
  destruct (driver_create_volume_events FLAGS (driver self) v' w1)
    as (rest2 & H2).
  change (lvcreate_command FLAGS v') with (lvcreate_command FLAGS v) in H2.
  destruct (Driver.create_volume FLAGS (driver self) v' w1) as [r2 w2] eqn:E2.
  cbn [snd] in H2.
  assert (T2 : trace w2 =
               trace w ++
               [Db (VolumeGet volume_id);
                Db (VolumeUpdate volume_id [Host (host self)]);
                Exec (lvcreate_command FLAGS v)] ++ rest2).
  { rewrite H2. unfold w1. cbn [trace add_trace].
    rewrite <- !app_assoc. reflexivity. }
  assert (D2 : db w2 = db w1) by now rewrite H2.
  assert (C2 : utcnow w2 = utcnow w) by now rewrite H2.
  destruct r2 as [[]|e|].
  2:{ rewrite (bind_raise _ _ _ _ _ E2). exists rest2. cbn [fst snd].
      split; [exact T2 |]. right. split; [discriminate |]. now rewrite D2. }
  2:{ rewrite (bind_out_of_fuel _ _ _ _ E2). exists rest2. cbn [fst snd].
      split; [exact T2 |]. right. split; [discriminate |]. now rewrite D2. }
  rewrite (bind_ret _ _ _ _ _ E2).
  destruct (respects_create_export FLAGS (driver self) v' w2)
    as (l3 & T3 & C3 & V3).
  destruct (Driver.create_export FLAGS (driver self) v' w2) as [r3 w3] eqn:E3.
  cbn [snd] in T3, C3, V3.
  assert (L3 : Store.lookup_volume volume_id (db w3) = Some v').
  { rewrite (lookup_same_volumes volume_id _ _ V3). now rewrite D2. }
  destruct r3 as [[]|e|].
  2:{ rewrite (bind_raise _ _ _ _ _ E3). exists (rest2 ++ l3). cbn [fst snd].
      split; [rewrite T3, T2; now rewrite <- !app_assoc |].
      right. split; [discriminate | exact L3]. }
  2:{ rewrite (bind_out_of_fuel _ _ _ _ E3). exists (rest2 ++ l3). cbn [fst snd].
      split; [rewrite T3, T2; now rewrite <- !app_assoc |].
      right. split; [discriminate | exact L3]. }
  rewrite (bind_ret _ _ _ _ _ E3).
  rewrite (bind_ret _ _ _ _ _
             (eq_refl : Manager.now w3 = (Ret (utcnow w3), w3))).
  assert (Hid : v_id v' = volume_id) by (apply (lookup_volume_id _ _ _ L1)).
  rewrite Hid.
  rewrite (bind_ret _ _ _ _ _
             (volume_update_found volume_id
                [Status "available"; LaunchedAt (utcnow w3)] w3 v' L3)).
  unfold ret. cbn [fst snd db trace].
  rewrite C3, C2.
  exists (rest2 ++ l3 ++
          [Db (VolumeUpdate volume_id
                 [Status "available"; LaunchedAt (utcnow w)])]).
  split; [rewrite T3, T2; now rewrite <- !app_assoc |].
  left. split; [reflexivity |]. split.
  - rewrite (lookup_update_volume volume_id _ _ _ L3). reflexivity.
  - exists (rest2 ++ l3). now rewrite <- app_assoc.
Qed.

Lemma ensure_target_ids_run FLAGS host w :
  Driver._ensure_target_ids FLAGS host w =
    (Ret tt,
     {| db := with_iscsi_targets
                (ensured_targets FLAGS host (iscsi_targets (db w))) (db w);
        utcnow := utcnow w;
        trace := trace w ++ ensure_events FLAGS host (iscsi_targets (db w)) |}).
Proof.
  unfold ensured_targets, ensure_events.
  fold (host_targets host (db w)).
  destruct (Z.geb_spec (Z.of_nat (length (host_targets host (db w))))
              (iscsi_target_ids FLAGS)) as [Hge|Hlt].
  - rewrite ensure_target_ids_full by lia.
    unfold add_trace, with_iscsi_targets. now destruct w as [[] ? ?].
  - now rewrite ensure_target_ids_populates by lia.
Qed.

Lemma volume_allocate_target_id_run volume_id host w t rows :
  Store.allocate_first (Store.target_free host) (Store.own_target volume_id)
    (iscsi_targets (db w)) = Some (t, rows) ->
  Store.volume_allocate_target_id volume_id host w =
    (Ret (target_id t),
     {| db := with_iscsi_targets rows (db w);
        utcnow := utcnow w;
        trace := trace w ++ [Db (VolumeAllocateTargetId volume_id host)] |}).
Proof.
  intros H. unfold Store.volume_allocate_target_id, Store.call. simpl.
  now rewrite H.
Qed.

Lemma execute_run self cmd check w o :
  execute self (trace w) cmd check = Ret o ->
  Driver._execute self cmd check w = (Ret o, add_trace [Exec cmd] w).
Proof. intros H. unfold Driver._execute. now rewrite H. Qed.

Lemma driver_create_volume_success FLAGS self volume w o :
  execute self (trace w) (lvcreate_command FLAGS volume) true = Ret o ->
  Driver.create_volume FLAGS self volume w =
    (Ret tt, add_trace [Exec (lvcreate_command FLAGS volume)] w).
Proof.
  intros H. unfold Driver.create_volume.
  change ("sudo lvcreate -L " ++ Driver.sizestr volume ++ " -n " ++
          v_name volume ++ " " ++ volume_group FLAGS)%string
    with (lvcreate_command FLAGS volume).
  now rewrite (bind_ret _ _ _ _ _
                 (try_execute_first_success FLAGS self _ w o H)).
Qed.

(** The iSCSI driver's [create_export] when the pool yields target [t] and
    both [ietadm] commands return. *)
Lemma iscsi_create_export_success FLAGS self volume w t rows :
  (forall history cmd, exists o, execute self history cmd true = Ret o) ->
  Store.allocate_first (Store.target_free (v_host volume))
    (Store.own_target (v_id volume))
    (ensured_targets FLAGS (v_host volume) (iscsi_targets (db w))) =
    Some (t, rows) ->
  Driver.iscsi_create_export FLAGS self volume w =
    (Ret tt,
     {| db := with_iscsi_targets rows (db w);
        utcnow := utcnow w;
        trace := trace w ++
                 ensure_events FLAGS (v_host volume) (iscsi_targets (db w)) ++
                 [Db (VolumeAllocateTargetId (v_id volume) (v_host volume));
                  Exec (ietadm_new_target FLAGS (target_id t) volume);
                  Exec (ietadm_new_lun FLAGS (target_id t) volume)] |}).
Proof.
  intros Hexec Halloc. unfold Driver.iscsi_create_export.
  rewrite (bind_ret _ _ _ _ _ (ensure_target_ids_run FLAGS _ w)).
  rewrite (bind_ret _ _ _ _ _
             (volume_allocate_target_id_run (v_id volume) (v_host volume)
                {| db := with_iscsi_targets
                           (ensured_targets FLAGS (v_host volume)
                              (iscsi_targets (db w))) (db w);
                   utcnow := utcnow w;
                   trace := trace w ++
                            ensure_events FLAGS (v_host volume)
                              (iscsi_targets (db w)) |}
                t rows Halloc)).
  cbv zeta.
  change ("sudo ietadm --op new --tid=" ++ Py.str (target_id t) ++
          " --params Name=" ++ iscsi_target_prefix FLAGS ++
          v_name volume)%string
    with (ietadm_new_target FLAGS (target_id t) volume).
  change ("sudo ietadm --op new --tid=" ++ Py.str (target_id t) ++
          " --lun=0 --params Path=" ++
          ("/dev/" ++ volume_group FLAGS ++ "/" ++ v_name volume) ++
          ",Type=fileio")%string
    with (ietadm_new_lun FLAGS (target_id t) volume).
  match goal with
  | |- bind (Driver._execute self ?c true) _ ?w1 = _ =>
      destruct (Hexec (trace w1) c) as [o1 H1];
      rewrite (bind_ret _ _ _ _ _ (execute_run self c true w1 o1 H1))
  end.
  match goal with
  | |- bind (Driver._execute self ?c true) _ ?w1 = _ =>
      destruct (Hexec (trace w1) c) as [o2 H2];
      rewrite (bind_ret _ _ _ _ _ (execute_run self c true w1 o2 H2))
  end.
  unfold ret, add_trace. cbn [db utcnow trace with_iscsi_targets].
  rewrite <- !app_assoc. reflexivity.
Qed.

(** The manager's [create_volume] over the iSCSI driver when every command
    returns and the pool yields target [t]: the whole run. *)
Lemma create_volume_iscsi_success FLAGS self volume_id w v t rows :
  Store.lookup_volume volume_id (db w) = Some v ->
  class (driver self) = ISCSIDriverClass ->
  (forall history cmd,
     exists o, execute (driver self) history cmd true = Ret o) ->
  Store.allocate_first (Store.target_free (host self))
    (Store.own_target volume_id)
    (ensured_targets FLAGS (host self) (iscsi_targets (db w))) =
    Some (t, rows) ->
  Manager.create_volume FLAGS self volume_id w =
    (Ret volume_id,
     {| db := Store.update_volume volume_id
                [Status "available"; LaunchedAt (utcnow w)]
                (with_iscsi_targets rows
                   (Store.update_volume volume_id [Host (host self)] (db w)));
        utcnow := utcnow w;
        trace := trace w ++
                 [Db (VolumeGet volume_id);
                  Db (VolumeUpdate volume_id [Host (host self)]);
                  Exec (lvcreate_command FLAGS v)] ++
                 ensure_events FLAGS (host self) (iscsi_targets (db w)) ++
                 [Db (VolumeAllocateTargetId volume_id (host self));
                  Exec (ietadm_new_target FLAGS (target_id t) v);
                  Exec (ietadm_new_lun FLAGS (target_id t) v);
                  Db (VolumeUpdate volume_id
                        [Status "available"; LaunchedAt (utcnow w)])] |}).
Proof.
  intros Hget Hclass Hexec Halloc.
  pose proof (lookup_volume_id _ _ _ Hget) as Hid.
  unfold Manager.create_volume.
  rewrite (bind_ret _ _ _ _ _ (volume_get_found _ _ _ Hget)).
  rewrite (bind_ret _ _ _ _ _
             (volume_update_found volume_id [Host (host self)]
                (add_trace [Db (VolumeGet volume_id)] w) v Hget)).
  cbn [db utcnow trace add_trace].
  set (v' := Store.set_value (Host (host self)) v).
  set (w1 := {| db := Store.update_volume volume_id [Host (host self)] (db w);
                utcnow := utcnow w;
                trace := (trace w ++ [Db (VolumeGet volume_id)]) ++
                         [Db (VolumeUpdate volume_id [Host (host self)])] |}).
  assert (L1 : Store.lookup_volume volume_id (db w1) = Some v')
    by (apply (lookup_update_volume volume_id [Host (host self)]); exact Hget).
  destruct (Hexec (trace w1) (lvcreate_command FLAGS v')) as [o Ho].
  rewrite (bind_ret _ _ _ _ _
             (driver_create_volume_success FLAGS (driver self) v' w1 o Ho)).
  unfold Driver.create_export. rewrite Hclass.
  assert (Halloc' :
    Store.allocate_first (Store.target_free (v_host v'))
      (Store.own_target (v_id v'))
      (ensured_targets FLAGS (v_host v')
         (iscsi_targets
            (db (add_trace [Exec (lvcreate_command FLAGS v')] w1)))) =
      Some (t, rows)).
  { cbn [v_host v_id v' Store.set_value]. rewrite Hid. exact Halloc. }
  rewrite (bind_ret _ _ _ _ _
             (iscsi_create_export_success FLAGS (driver self) v'
                (add_trace [Exec (lvcreate_command FLAGS v')] w1)
                t rows Hexec Halloc')).
  match goal with
  | |- bind Manager.now _ ?w3 = _ =>
      rewrite (bind_ret _ _ _ _ _
                 (eq_refl : Manager.now w3 = (Ret (utcnow w3), w3)));
      assert (L3 : Store.lookup_volume (v_id v') (db w3) = Some v')
        by (replace (v_id v') with volume_id by exact (eq_sym Hid);
            exact L1);
      rewrite (bind_ret _ _ _ _ _
                 (volume_update_found (v_id v') _ w3 v' L3))
  end.
  unfold ret. cbn [db utcnow trace add_trace w1 v_host v_id v' Store.set_value].
  rewrite Hid. rewrite <- !app_assoc. reflexivity.
Qed.

(** * Further properties of the drivers and the manager *)

(** ** The retrying executor, at its edges *)

(** X1: a command that succeeds at its first attempt is run exactly once and
    no sleep is run, whatever the limit, zero and negative limits too. *)
Theorem try_execute_success_runs_once
    (FLAGS : flags) (self : volume_driver) (command : string) (w : world)
    (o : option string * option string) :
  execute self (trace w) command true = Ret o ->
  Driver._try_execute FLAGS self command w =
    (Ret true, add_trace [Exec command] w).
Proof. apply try_execute_first_success. Qed.

Lemma try_execute_success_runs_once_witness :
  Driver._try_execute
    {| volume_group := "vg"; aoe_eth_dev := "eth0"; num_shell_tries := -2;
       num_shelves := 1; blades_per_shelf := 1; iscsi_target_ids := 1;
       iscsi_target_prefix := "iqn:"; iscsi_ip_prefix := "10.";
       use_local_volumes := true |}
    FakeAOEDriver "lvs" empty_world =
    (Ret true, add_trace [Exec "lvs"] empty_world).
Proof.
  apply (try_execute_success_runs_once _ FakeAOEDriver "lvs" empty_world
           (None, None)).
  reflexivity.
Defined.

(** X2: with a limit of 1, 0 or a negative number, a failing command is
    still run once; its failure is raised and no sleep is run. *)
Theorem try_execute_limit_at_most_one
    (FLAGS : flags) (self : volume_driver) (command : string) (w : world)
    (d : string) :
  num_shell_tries FLAGS <= 1 ->
  execute self (trace w) command true = Raise (ProcessExecutionError d) ->
  Driver._try_execute FLAGS self command w =
    (Raise (ProcessExecutionError d), add_trace [Exec command] w).
Proof. apply try_execute_single_attempt. Qed.

Lemma try_execute_limit_at_most_one_witness :
  Driver._try_execute
    {| volume_group := "vg"; aoe_eth_dev := "eth0"; num_shell_tries := 0;
       num_shelves := 1; blades_per_shelf := 1; iscsi_target_ids := 1;
       iscsi_target_prefix := "iqn:"; iscsi_ip_prefix := "10.";
       use_local_volumes := true |}
    (VolumeDriver always_fails always_fails) "lvs" empty_world =
    (Raise (ProcessExecutionError "cannot run lvs"),
     add_trace [Exec "lvs"] empty_world).
Proof.
  apply (try_execute_limit_at_most_one _
           (VolumeDriver always_fails always_fails) "lvs" empty_world
           "cannot run lvs").
  - simpl. lia.
  - reflexivity.
Defined.

(** X3: only [ProcessExecutionError] is retried.  Any other exception of
    the attempt leaves [_try_execute] at once: one command, no sleep. *)
Theorem try_execute_other_exceptions_not_retried
    (FLAGS : flags) (self : volume_driver) (command : string) (w : world)
    (e : exn) :
  execute self (trace w) command true = Raise e ->
  (forall d, e <> ProcessExecutionError d) ->
  Driver._try_execute FLAGS self command w =
    (Raise e, add_trace [Exec command] w).
Proof.
  intros H He. unfold Driver._try_execute, Driver.tries_bound.
  destruct (Z.to_nat (Z.max 1 (num_shell_tries FLAGS))) eqn:E; [lia |].
  now apply loop_other_exception.
Qed.

Lemma try_execute_other_exceptions_not_retried_witness :
  Driver._try_execute default_flags
    (VolumeDriver (fun _ _ _ => Raise (Error "no shell"))
       (fun _ _ _ => Raise (Error "no shell"))) "lvs" empty_world =
    (Raise (Error "no shell"), add_trace [Exec "lvs"] empty_world).
Proof.
  apply (try_execute_other_exceptions_not_retried default_flags
           (VolumeDriver (fun _ _ _ => Raise (Error "no shell"))
              (fun _ _ _ => Raise (Error "no shell"))) "lvs" empty_world
           (Error "no shell")).
  - reflexivity.
  - discriminate.
Defined.

Lemma loop_returns FLAGS self command :
  (forall history cmd check, execute self history cmd check <> OutOfFuel) ->
  forall fuel tries w,
    Z.max 1 (num_shell_tries FLAGS - tries) <= Z.of_nat fuel ->
    fst (Driver._try_execute_loop FLAGS fuel self command tries w) <>
      OutOfFuel.
Proof.
  intros Hexec. induction fuel as [|fuel IH]; intros tries w Hfuel; [lia |].
  rewrite loop_unfold.
  unfold try_except_ProcessExecutionError, bind, Driver._execute, ret, raise.
  cbv beta iota. cbn [trace record_event].
  pose proof (Hexec (trace w) command true) as H1.
  destruct (execute self (trace w) command true) as [o|e|];
    [discriminate | | contradiction].
  destruct e; try discriminate.
  destruct (Z.geb_spec (tries + 1) (num_shell_tries FLAGS)); [discriminate |].
  cbn [trace record_event].
  pose proof (Hexec (trace w ++ [Exec command])
                ("sleep " ++ Py.str ((tries + 1) ^ 2))%string true) as H2.
  destruct (execute self _ _ true) as [o|e|];
    [| discriminate | contradiction].
  apply IH. lia.
Qed.

(** X4: the [while True] loop ends.  When [execute] itself always returns
    or raises, [_try_execute] returns or raises, for every limit; and the
    loop, given any fuel from the bound up, does what [_try_execute]
    does. *)
Theorem try_execute_terminates
    (FLAGS : flags) (self : volume_driver) (command : string) (w : world) :
  (forall history cmd check, execute self history cmd check <> OutOfFuel) ->
  fst (Driver._try_execute FLAGS self command w) <> OutOfFuel /\
  (forall fuel,
     (Driver.tries_bound FLAGS <= fuel)%nat ->
     Driver._try_execute_loop FLAGS fuel self command 0 w =
       Driver._try_execute FLAGS self command w).
Proof.
  intros Hexec. split.
  - apply loop_returns; [exact Hexec | unfold Driver.tries_bound; lia].
  - intros fuel Hfuel. now apply try_execute_fuel_enough.
Qed.

Lemma try_execute_terminates_witness :
  fst (Driver._try_execute default_flags
         (VolumeDriver always_fails always_fails) "lvs" empty_world) <>
    OutOfFuel.
Proof.
  apply (try_execute_terminates default_flags
           (VolumeDriver always_fails always_fails) "lvs" empty_world).
  intros history cmd check. discriminate.
Defined.

(** X5: the retry wrapper and the driver steps built on it alone never
    write to the store nor touch the clock, whatever [execute] answers:
    [_try_execute], the driver's [create_volume] and [delete_volume], and
    [remove_export], which therefore does not release the volume's shelf
    and blade or target ID. *)
Theorem driver_steps_leave_the_store
    (FLAGS : flags) (self : volume_driver) (command : string)
    (volume : volume) (w : world) :
  db (after (Driver._try_execute FLAGS self command) w) = db w /\
  db (after (Driver.create_volume FLAGS self volume) w) = db w /\
  db (after (Driver.delete_volume FLAGS self volume) w) = db w /\
  db (after (Driver.remove_export FLAGS self volume) w) = db w /\
  utcnow (after (Driver.remove_export FLAGS self volume) w) = utcnow w.
Proof.
  unfold after.
  destruct (respects_try_execute eq (@eq_refl store) eq_store_trans
              FLAGS self command w) as (l1 & _ & _ & H1).
  destruct (respects_create_volume eq (@eq_refl store) eq_store_trans
              FLAGS self volume w) as (l2 & _ & _ & H2).
  destruct (respects_delete_volume eq (@eq_refl store) eq_store_trans
              FLAGS self volume w) as (l3 & _ & _ & H3).
  destruct (respects_remove_export eq (@eq_refl store) eq_store_trans
              FLAGS self volume w) as (l4 & _ & C4 & H4).
  repeat split; congruence.
Qed.

(** ** The iSCSI driver *)

Lemma execute_raises self cmd check w e :
  execute self (trace w) cmd check = Raise e ->
  Driver._execute self cmd check w = (Raise e, add_trace [Exec cmd] w).
Proof. intros H. unfold Driver._execute. now rewrite H. Qed.

Lemma scan_targets_first_match FLAGS volume_name pre target post :
  (forall line, In line pre ->
     Py.contains (iscsi_ip_prefix FLAGS) line &&
     Py.contains volume_name line = false) ->
  Py.contains (iscsi_ip_prefix FLAGS) target &&
  Py.contains volume_name target = true ->
  Driver.scan_targets FLAGS volume_name (pre ++ target :: post) =
    Some (fst (fst (Py.partition " " target)), snd (Py.partition " " target)).
Proof.
  intros Hpre Htarget. induction pre as [|line pre IH].
  - simpl. rewrite Htarget.
    now destruct (Py.partition " " target) as [[location sep] name].
  - simpl. rewrite (Hpre line (or_introl eq_refl)).
    apply IH. intros l Hl. apply Hpre. now right.
Qed.

Lemma get_name_and_portal_first_match
    FLAGS self volume_name host w out err pre target post :
  execute self (trace w) (iscsiadm_discovery host) true = Ret (Some out, err) ->
  Py.splitlines out = pre ++ target :: post ->
  (forall line, In line pre ->
     Py.contains (iscsi_ip_prefix FLAGS) line &&
     Py.contains volume_name line = false) ->
  Py.contains (iscsi_ip_prefix FLAGS) target &&
  Py.contains volume_name target = true ->
  Driver._get_name_and_portal FLAGS self volume_name host w =
    (Ret (snd (Py.partition " " target),
          Py.split_first "," (fst (fst (Py.partition " " target)))),
     add_trace [Exec (iscsiadm_discovery host)] w).
Proof.
  intros Hexec Hlines Hpre Htarget. unfold Driver._get_name_and_portal.
  rewrite (bind_ret _ _ _ _ _
             (execute_run self (iscsiadm_discovery host) true w _ Hexec)).
  cbn [fst]. rewrite Hlines.
  now rewrite (scan_targets_first_match FLAGS volume_name pre target post
                 Hpre Htarget).
Qed.

(** X6: [_get_name_and_portal] takes the first line of the discovery output
    that contains both the IP prefix and the volume's name, anywhere in the
    line, and ignores every later line.  The name is the text after the
    line's first space, the portal the text before the first comma of what
    precedes that space.  A line of another volume whose name contains this
    one's, listed first, is therefore the one taken. *)
Theorem get_name_and_portal_takes_first_match
    (FLAGS : flags) (self : volume_driver) (volume_name host : string)
    (w : world) (out : string) (err : option string)
    (pre : list string) (target : string) (post : list string) :
  execute self (trace w) (iscsiadm_discovery host) true = Ret (Some out, err) ->
  Py.splitlines out = pre ++ target :: post ->
  (forall line, In line pre ->
     Py.contains (iscsi_ip_prefix FLAGS) line &&
     Py.contains volume_name line = false) ->
  Py.contains (iscsi_ip_prefix FLAGS) target &&
  Py.contains volume_name target = true ->
  Driver._get_name_and_portal FLAGS self volume_name host w =
    (Ret (snd (Py.partition " " target),
          Py.split_first "," (fst (fst (Py.partition " " target)))),
     add_trace [Exec (iscsiadm_discovery host)] w).
Proof. apply get_name_and_portal_first_match. Qed.

Lemma get_name_and_portal_takes_first_match_witness :
  Driver._get_name_and_portal default_flags
    (ISCSIDriver (answers three_portals_output) (answers three_portals_output))
    "vol-7" "h1" empty_world =
    (Ret ("iqn.2010-10.org.openstack:vol-70"%string, "127.0.0.1:3260"%string),
     add_trace [Exec "sudo iscsiadm -m discovery -t sendtargets -p h1"]
       empty_world).
Proof.
  apply (get_name_and_portal_takes_first_match default_flags
           (ISCSIDriver (answers three_portals_output)
              (answers three_portals_output))
           "vol-7" "h1" empty_world three_portals_output (Some ""%string)
           [] "127.0.0.1:3260,1 iqn.2010-10.org.openstack:vol-70"
           ["127.0.0.1:3260,1 iqn.2010-10.org.openstack:vol-7"%string;
            "127.0.0.2:3260,1 iqn.2010-10.org.openstack:vol-7"%string]).
  - reflexivity.
  - reflexivity.
  - intros line [].
  - reflexivity.
Defined.

#[local] Ltac run_exec H :=
  rewrite ?add_trace_app;
  match goal with
  | |- bind (Driver._execute ?self ?c ?b) _ ?w1 = _ =>
      rewrite (bind_ret _ _ _ _ _ (execute_run self c b w1 _ H))
  end.

#[local] Ltac fail_exec H :=
  rewrite ?add_trace_app;
  match goal with
  | |- bind (Driver._execute ?self ?c ?b) _ ?w1 = _ =>
      rewrite (bind_raise _ _ _ _ _ (execute_raises self c b w1 _ H))
  end.

(** X7: when the discovery output has a matching line and the login and
    update commands return, the iSCSI [discover_volume] runs discovery,
    login and the switch to automatic startup, in that order, with the name
    and portal of the first matching line, and returns
    [/dev/iscsi/{name}]. *)
Theorem iscsi_discover_volume_logs_in
    (FLAGS : flags) (self : volume_driver) (volume : volume) (w : world)
    (out : string) (err : option string)
    (pre : list string) (target : string) (post : list string)
    (o1 o2 : option string * option string) :
  let iscsi_name := snd (Py.partition " " target) in
  let iscsi_portal :=
    Py.split_first "," (fst (fst (Py.partition " " target))) in
  let discovery := iscsiadm_discovery (v_host volume) in
  let login := iscsiadm_login iscsi_name iscsi_portal in
  let automatic := iscsiadm_startup iscsi_name iscsi_portal "automatic" in
  class self = ISCSIDriverClass ->
  execute self (trace w) discovery true = Ret (Some out, err) ->
  Py.splitlines out = pre ++ target :: post ->
  (forall line, In line pre ->
     Py.contains (iscsi_ip_prefix FLAGS) line &&
     Py.contains (v_name volume) line = false) ->
  Py.contains (iscsi_ip_prefix FLAGS) target &&
  Py.contains (v_name volume) target = true ->
  execute self (trace w ++ [Exec discovery]) login true = Ret o1 ->
  execute self (trace w ++ [Exec discovery; Exec login]) automatic true =
    Ret o2 ->
  Driver.discover_volume FLAGS self volume w =
    (Ret (Some ("/dev/iscsi/" ++ v_name volume)%string),
     add_trace [Exec discovery; Exec login; Exec automatic] w).
Proof.
  intros iscsi_name iscsi_portal discovery login automatic
    Hclass Hexec Hlines Hpre Htarget H1 H2.
  unfold Driver.discover_volume, Driver.iscsi_discover_volume.
  rewrite Hclass.
  rewrite (bind_ret _ _ _ _ _
             (get_name_and_portal_first_match FLAGS self (v_name volume)
                (v_host volume) w out err pre target post
                Hexec Hlines Hpre Htarget)).
  cbn [fst snd]. fold iscsi_name iscsi_portal discovery.
  change ("sudo iscsiadm -m node -T " ++ iscsi_name ++ " -p " ++
          iscsi_portal ++ " --login")%string with login.
  change ("sudo iscsiadm -m node -T " ++ iscsi_name ++ " -p " ++
          iscsi_portal ++ " --op update -n node.startup -v automatic")%string
    with automatic.
  run_exec H1. run_exec H2.
  unfold ret. now rewrite !add_trace_app.
Qed.

Lemma iscsi_discover_volume_logs_in_witness :
  Driver.discover_volume default_flags
    (ISCSIDriver (answers three_portals_output) (answers three_portals_output))
    exported_volume empty_world =
    (Ret (Some "/dev/iscsi/vol-7"%string),
     add_trace
       [Exec "sudo iscsiadm -m discovery -t sendtargets -p h1";
        Exec ("sudo iscsiadm -m node -T iqn.2010-10.org.openstack:vol-70" ++
              " -p 127.0.0.1:3260 --login");
        Exec ("sudo iscsiadm -m node -T iqn.2010-10.org.openstack:vol-70" ++
              " -p 127.0.0.1:3260 --op update -n node.startup -v automatic")]
       empty_world).
Proof.
  apply (iscsi_discover_volume_logs_in default_flags
           (ISCSIDriver (answers three_portals_output)
              (answers three_portals_output))
           exported_volume empty_world three_portals_output (Some ""%string)
           [] "127.0.0.1:3260,1 iqn.2010-10.org.openstack:vol-70"
           ["127.0.0.1:3260,1 iqn.2010-10.org.openstack:vol-7"%string;
            "127.0.0.2:3260,1 iqn.2010-10.org.openstack:vol-7"%string]
           (Some three_portals_output, Some ""%string)
           (Some three_portals_output, Some ""%string)).
  - reflexivity.
  - reflexivity.
  - reflexivity.
  - intros line [].
  - reflexivity.
  - reflexivity.
  - reflexivity.
Defined.

(** X8: with a matching line and returning commands, the iSCSI
    [undiscover_volume] runs discovery again, switches the node to manual
    startup, logs out and deletes the node record, in that order. *)
Theorem iscsi_undiscover_volume_logs_out
    (FLAGS : flags) (self : volume_driver) (volume : volume) (w : world)
    (out : string) (err : option string)
    (pre : list string) (target : string) (post : list string)
    (o1 o2 o3 : option string * option string) :
  let iscsi_name := snd (Py.partition " " target) in
  let iscsi_portal :=
    Py.split_first "," (fst (fst (Py.partition " " target))) in
  let discovery := iscsiadm_discovery (v_host volume) in
  let manual := iscsiadm_startup iscsi_name iscsi_portal "manual" in
  let logout := iscsiadm_logout iscsi_name iscsi_portal in
  let delete := iscsiadm_delete iscsi_name in
  class self = ISCSIDriverClass ->
  execute self (trace w) discovery true = Ret (Some out, err) ->
  Py.splitlines out = pre ++ target :: post ->
  (forall line, In line pre ->
     Py.contains (iscsi_ip_prefix FLAGS) line &&
     Py.contains (v_name volume) line = false) ->
  Py.contains (iscsi_ip_prefix FLAGS) target &&
  Py.contains (v_name volume) target = true ->
  execute self (trace w ++ [Exec discovery]) manual true = Ret o1 ->
  execute self (trace w ++ [Exec discovery; Exec manual]) logout true =
    Ret o2 ->
  execute self (trace w ++ [Exec discovery; Exec manual; Exec logout])
    delete true = Ret o3 ->
  Driver.undiscover_volume FLAGS self volume w =
    (Ret tt,
     add_trace [Exec discovery; Exec manual; Exec logout; Exec delete] w).
Proof.
  intros iscsi_name iscsi_portal discovery manual logout delete
    Hclass Hexec Hlines Hpre Htarget H1 H2 H3.
  unfold Driver.undiscover_volume, Driver.iscsi_undiscover_volume.
  rewrite Hclass.
  rewrite (bind_ret _ _ _ _ _
             (get_name_and_portal_first_match FLAGS self (v_name volume)
                (v_host volume) w out err pre target post
                Hexec Hlines Hpre Htarget)).
  cbn [fst snd]. fold iscsi_name iscsi_portal discovery.
  change ("sudo iscsiadm -m node -T " ++ iscsi_name ++ " -p " ++
          iscsi_portal ++ " --op update -n node.startup -v manual")%string
    with manual.
  change ("sudo iscsiadm -m node -T " ++ iscsi_name ++ " -p " ++
          iscsi_portal ++ " --logout ")%string with logout.
  change ("sudo iscsiadm -m node --op delete --targetname " ++
          iscsi_name)%string with delete.
  run_exec H1. run_exec H2. run_exec H3.
  unfold ret. now rewrite !add_trace_app.
Qed.

Lemma iscsi_undiscover_volume_logs_out_witness :
  Driver.undiscover_volume default_flags
    (ISCSIDriver (answers three_portals_output) (answers three_portals_output))
    exported_volume empty_world =
    (Ret tt,
     add_trace
       [Exec "sudo iscsiadm -m discovery -t sendtargets -p h1";
        Exec ("sudo iscsiadm -m node -T iqn.2010-10.org.openstack:vol-70" ++
              " -p 127.0.0.1:3260 --op update -n node.startup -v manual");
        Exec ("sudo iscsiadm -m node -T iqn.2010-10.org.openstack:vol-70" ++
              " -p 127.0.0.1:3260 --logout ");
        Exec ("sudo iscsiadm -m node --op delete --targetname " ++
              "iqn.2010-10.org.openstack:vol-70")]
       empty_world).
Proof.
  apply (iscsi_undiscover_volume_logs_out default_flags
           (ISCSIDriver (answers three_portals_output)
              (answers three_portals_output))
           exported_volume empty_world three_portals_output (Some ""%string)
           [] "127.0.0.1:3260,1 iqn.2010-10.org.openstack:vol-70"
           ["127.0.0.1:3260,1 iqn.2010-10.org.openstack:vol-7"%string;
            "127.0.0.2:3260,1 iqn.2010-10.org.openstack:vol-7"%string]
           (Some three_portals_output, Some ""%string)
           (Some three_portals_output, Some ""%string)
           (Some three_portals_output, Some ""%string)).
  - reflexivity.
  - reflexivity.
  - reflexivity.
  - intros line [].
  - reflexivity.
  - reflexivity.
  - reflexivity.
  - reflexivity.
Defined.

(** X9: the iSCSI test variant cannot discover.  [fake_execute] returns
    [(None, None)], so [out.splitlines()] in [_get_name_and_portal] fails on
    [None]: [discover_volume] and [undiscover_volume] of [FakeISCSIDriver]
    raise [AttributeError] for every volume, after the discovery command
    alone. *)
Theorem fake_iscsi_driver_cannot_discover
    (FLAGS : flags) (volume : volume) (w : world) :
  Driver.discover_volume FLAGS FakeISCSIDriver volume w =
    (Raise (AttributeError
              "'NoneType' object has no attribute 'splitlines'"),
     add_trace [Exec (iscsiadm_discovery (v_host volume))] w) /\
  Driver.undiscover_volume FLAGS FakeISCSIDriver volume w =
    (Raise (AttributeError
              "'NoneType' object has no attribute 'splitlines'"),
     add_trace [Exec (iscsiadm_discovery (v_host volume))] w).
Proof. split; reflexivity. Qed.

Lemma volume_get_target_id_found volume_id w t :
  find (Store.target_of volume_id) (iscsi_targets (db w)) = Some t ->
  Store.volume_get_target_id volume_id w =
    (Ret (target_id t), add_trace [Db (VolumeGetTargetId volume_id)] w).
Proof.
  intros H. unfold Store.volume_get_target_id, Store.call. simpl.
  now rewrite H.
Qed.

(** X10: the iSCSI [remove_export] runs its two [ietadm] commands directly,
    not through [_try_execute].  Whatever the first raises, a
    [ProcessExecutionError] too, leaves at once and the target is not
    deleted; whatever the second raises leaves after the LUN was deleted;
    no sleep and no second attempt is ever made, and the store is only
    read. *)
Theorem iscsi_remove_export_is_not_retried
    (FLAGS : flags) (self : volume_driver) (volume : volume) (w : world)
    (t : iscsi_target) :
  class self = ISCSIDriverClass ->
  find (Store.target_of (v_id volume)) (iscsi_targets (db w)) = Some t ->
  let lookup := Db (VolumeGetTargetId (v_id volume)) in
  let delete_lun := ietadm_delete_lun (target_id t) in
  let delete_target := ietadm_delete_target (target_id t) in
  (forall e,
     execute self (trace w ++ [lookup]) delete_lun true = Raise e ->
     Driver.remove_export FLAGS self volume w =
       (Raise e, add_trace [lookup; Exec delete_lun] w)) /\
  (forall o e,
     execute self (trace w ++ [lookup]) delete_lun true = Ret o ->
     execute self (trace w ++ [lookup; Exec delete_lun]) delete_target true =
       Raise e ->
     Driver.remove_export FLAGS self volume w =
       (Raise e, add_trace [lookup; Exec delete_lun; Exec delete_target] w)) /\
  (forall o1 o2,
     execute self (trace w ++ [lookup]) delete_lun true = Ret o1 ->
     execute self (trace w ++ [lookup; Exec delete_lun]) delete_target true =
       Ret o2 ->
     Driver.remove_export FLAGS self volume w =
       (Ret tt, add_trace [lookup; Exec delete_lun; Exec delete_target] w)).
Proof.
  intros Hclass Hfind lookup delete_lun delete_target.
  unfold Driver.remove_export, Driver.iscsi_remove_export. rewrite Hclass.
  rewrite (bind_ret _ _ _ _ _ (volume_get_target_id_found _ _ _ Hfind)).
  change ("sudo ietadm --op delete --tid=" ++ Py.str (target_id t) ++
          " --lun=0")%string with delete_lun.
  change ("sudo ietadm --op delete --tid=" ++ Py.str (target_id t))%string
    with delete_target.
  fold lookup.
  split; [| split].
  - intros e H1. fail_exec H1. now rewrite add_trace_app.
  - intros o e H1 H2. run_exec H1. fail_exec H2. now rewrite !add_trace_app.
  - intros o1 o2 H1 H2. run_exec H1. run_exec H2.
    unfold ret. now rewrite !add_trace_app.
Qed.

Lemma iscsi_remove_export_is_not_retried_witness :
  Driver.remove_export default_flags
    (ISCSIDriver always_fails always_fails) exported_volume exported_world =
    (Raise (ProcessExecutionError
              "cannot run sudo ietadm --op delete --tid=1 --lun=0"),
     add_trace
       [Db (VolumeGetTargetId 7);
        Exec "sudo ietadm --op delete --tid=1 --lun=0"] exported_world).
Proof.
  apply (proj1 (iscsi_remove_export_is_not_retried default_flags
                  (ISCSIDriver always_fails always_fails)
                  exported_volume exported_world
                  {| t_host := "h1"; target_id := 1; t_volume_id := Some 7 |}
                  eq_refl eq_refl)).
  reflexivity.
Defined.

Lemma allocate_first_owned {A} (free : A -> bool) (mark : A -> A) :
  forall l x l',
    Store.allocate_first free mark l = Some (x, l') ->
    In x l /\ free x = true /\ In (mark x) l' /\ length l' = length l.
Proof.
  induction l as [|y l IH]; intros x l' H; [discriminate |].
  simpl in H. destruct (free y) eqn:E.
  - inversion H; subst. simpl. auto.
  - destruct (Store.allocate_first free mark l) as [[z rest]|] eqn:E2;
      [| discriminate].
    inversion H; subst. destruct (IH x rest eq_refl) as (H1 & H2 & H3 & H4).
    simpl. auto.
Qed.

(** The iSCSI driver's [create_export] when the first [ietadm] command
    raises: nothing is retried or undone, the target stays allocated. *)
Lemma iscsi_create_export_first_command_raises
    FLAGS self volume w t rows e :
  Store.allocate_first (Store.target_free (v_host volume))
    (Store.own_target (v_id volume))
    (ensured_targets FLAGS (v_host volume) (iscsi_targets (db w))) =
    Some (t, rows) ->
  (forall history,
     execute self history (ietadm_new_target FLAGS (target_id t) volume)
       true = Raise e) ->
  Driver.iscsi_create_export FLAGS self volume w =
    (Raise e,
     {| db := with_iscsi_targets rows (db w);
        utcnow := utcnow w;
        trace := trace w ++
                 ensure_events FLAGS (v_host volume) (iscsi_targets (db w)) ++
                 [Db (VolumeAllocateTargetId (v_id volume) (v_host volume));
                  Exec (ietadm_new_target FLAGS (target_id t) volume)] |}).
Proof.
  intros Halloc Hexec. unfold Driver.iscsi_create_export.
  rewrite (bind_ret _ _ _ _ _ (ensure_target_ids_run FLAGS _ w)).
  rewrite (bind_ret _ _ _ _ _
             (volume_allocate_target_id_run (v_id volume) (v_host volume)
                {| db := with_iscsi_targets
                           (ensured_targets FLAGS (v_host volume)
                              (iscsi_targets (db w))) (db w);
                   utcnow := utcnow w;
                   trace := trace w ++
                            ensure_events FLAGS (v_host volume)
                              (iscsi_targets (db w)) |}
                t rows Halloc)).
  cbv zeta.
  change ("sudo ietadm --op new --tid=" ++ Py.str (target_id t) ++
          " --params Name=" ++ iscsi_target_prefix FLAGS ++
          v_name volume)%string
    with (ietadm_new_target FLAGS (target_id t) volume).
  match goal with
  | |- bind (Driver._execute self ?c true) _ ?w1 = _ =>
      rewrite (bind_raise _ _ _ _ _
                 (execute_raises self c true w1 e (Hexec (trace w1))))
  end.
  unfold add_trace. cbn [db utcnow trace with_iscsi_targets].
  rewrite <- !app_assoc. reflexivity.
Qed.

(** X11: no compensation in [create_volume].  With the iSCSI driver, when
    [lvcreate] returned and the first [ietadm] command raises, the call
    raises that exception after exactly these events: no retry of
    [ietadm], no second [ietadm], no [lvremove], no release.  The record
    keeps the host that was written and its old status, and the target
    that was allocated stays owned by the volume. *)
Theorem create_volume_does_not_compensate
    (FLAGS : flags) (self : volume_manager) (volume_id : Z) (w : world)
    (v : volume) (t : iscsi_target) (rows : list iscsi_target) (e : exn)
    (o : option string * option string) :
  Store.lookup_volume volume_id (db w) = Some v ->
  class (driver self) = ISCSIDriverClass ->
  (forall history,
     execute (driver self) history (lvcreate_command FLAGS v) true = Ret o) ->
  Store.allocate_first (Store.target_free (host self))
    (Store.own_target volume_id)
    (ensured_targets FLAGS (host self) (iscsi_targets (db w))) =
    Some (t, rows) ->
  (forall history,
     execute (driver self) history
       (ietadm_new_target FLAGS (target_id t) v) true = Raise e) ->
  Manager.create_volume FLAGS self volume_id w =
    (Raise e,
     {| db := with_iscsi_targets rows
                (Store.update_volume volume_id [Host (host self)] (db w));
        utcnow := utcnow w;
        trace := trace w ++
                 [Db (VolumeGet volume_id);
                  Db (VolumeUpdate volume_id [Host (host self)]);
                  Exec (lvcreate_command FLAGS v)] ++
                 ensure_events FLAGS (host self) (iscsi_targets (db w)) ++
                 [Db (VolumeAllocateTargetId volume_id (host self));
                  Exec (ietadm_new_target FLAGS (target_id t) v)] |}) /\
  Store.lookup_volume volume_id
    (db (after (Manager.create_volume FLAGS self volume_id) w)) =
    Some (Store.set_value (Host (host self)) v) /\
  In (Store.own_target volume_id t)
    (iscsi_targets (db (after (Manager.create_volume FLAGS self volume_id) w))).
Proof.
  intros Hget Hclass Hlv Halloc Hietadm.
  pose proof (lookup_volume_id _ _ _ Hget) as Hid.
  assert (E : Manager.create_volume FLAGS self volume_id w =
    (Raise e,
     {| db := with_iscsi_targets rows
                (Store.update_volume volume_id [Host (host self)] (db w));
        utcnow := utcnow w;
        trace := trace w ++
                 [Db (VolumeGet volume_id);
                  Db (VolumeUpdate volume_id [Host (host self)]);
                  Exec (lvcreate_command FLAGS v)] ++
                 ensure_events FLAGS (host self) (iscsi_targets (db w)) ++
                 [Db (VolumeAllocateTargetId volume_id (host self));
                  Exec (ietadm_new_target FLAGS (target_id t) v)] |})).
  { unfold Manager.create_volume.
    rewrite (bind_ret _ _ _ _ _ (volume_get_found _ _ _ Hget)).
    rewrite (bind_ret _ _ _ _ _
               (volume_update_found volume_id [Host (host self)]
                  (add_trace [Db (VolumeGet volume_id)] w) v Hget)).
    cbn [db utcnow trace add_trace].
    set (v' := Store.set_value (Host (host self)) v).
    set (w1 := {| db := Store.update_volume volume_id [Host (host self)]
                          (db w);
                  utcnow := utcnow w;
                  trace := (trace w ++ [Db (VolumeGet volume_id)]) ++
                           [Db (VolumeUpdate volume_id
                                  [Host (host self)])] |}).
    rewrite (bind_ret _ _ _ _ _
               (driver_create_volume_success FLAGS (driver self) v' w1 o
                  (Hlv (trace w1)))).
    unfold Driver.create_export. rewrite Hclass.
    assert (Halloc' :
      Store.allocate_first (Store.target_free (v_host v'))
        (Store.own_target (v_id v'))
        (ensured_targets FLAGS (v_host v')
           (iscsi_targets
              (db (add_trace [Exec (lvcreate_command FLAGS v')] w1)))) =
        Some (t, rows)).
    { cbn [v_host v_id v' Store.set_value]. rewrite Hid. exact Halloc. }
    rewrite (bind_raise _ _ _ _ _
               (iscsi_create_export_first_command_raises FLAGS (driver self)
                  v' (add_trace [Exec (lvcreate_command FLAGS v')] w1)
                  t rows e Halloc' Hietadm)).
    cbn [db utcnow trace add_trace w1 v_host v_id v' Store.set_value].
    rewrite Hid. rewrite <- !app_assoc. reflexivity. }
  split; [exact E |]. unfold after. rewrite E. cbn [snd db]. split.
  - apply (lookup_update_volume volume_id [Host (host self)]). exact Hget.
  - cbn [with_iscsi_targets iscsi_targets].
    now destruct (allocate_first_owned _ _ _ _ _ Halloc) as (_ & _ & H & _).
Qed.

Lemma create_volume_does_not_compensate_witness :
  fst (Manager.create_volume default_flags
         {| host := "h1";
            driver := ISCSIDriver
                        (raises_on "sudo ietadm"
                           (ProcessExecutionError "ietd is not running") "")
                        fake_execute |}
         7 requested_world) =
    Raise (ProcessExecutionError "ietd is not running").
Proof.
  assert (H := proj1 (create_volume_does_not_compensate default_flags
             {| host := "h1";
                driver := ISCSIDriver
                            (raises_on "sudo ietadm"
                               (ProcessExecutionError "ietd is not running")
                               "")
                            fake_execute |}
             7 requested_world requested_volume (target_fresh "h1" 1)
             (Store.own_target 7 (target_fresh "h1" 1) ::
              map (target_fresh "h1") (xrange 2 101))
             (ProcessExecutionError "ietd is not running")
             (Some ""%string, Some ""%string)
             eq_refl eq_refl (fun _ => eq_refl)
             ltac:(vm_compute; reflexivity) (fun _ => eq_refl))).
  rewrite H. reflexivity.
Defined.

#[local] Ltac run_any Hall :=
  rewrite ?add_trace_app;
  match goal with
  | |- bind (Driver._execute ?self ?c ?b) _ ?w1 = _ =>
      let o := fresh "o" in
      let Ho := fresh "Ho" in
      destruct (Hall (trace w1) c) as [o Ho];
      rewrite (bind_ret _ _ _ _ _ (execute_run self c b w1 o Ho))
  | |- bind (Driver._try_execute ?F ?self ?c) _ ?w1 = _ =>
      let o := fresh "o" in
      let Ho := fresh "Ho" in
      destruct (Hall (trace w1) c) as [o Ho];
      rewrite (bind_ret _ _ _ _ _
                 (try_execute_first_success F self c w1 o Ho))
  end.

Lemma target_of_owner volume_id rows t :
  find (Store.target_of volume_id) rows = Some t ->
  In t rows /\ t_volume_id t = Some volume_id.
Proof.
  intros H. apply find_some in H. destruct H as [Hin H]. split; [exact Hin |].
  unfold Store.target_of in H. destruct (t_volume_id t); [| discriminate].
  apply Z.eqb_eq in H. now subst.
Qed.

Lemma iscsi_remove_export_success FLAGS self volume w t :
  class self = ISCSIDriverClass ->
  find (Store.target_of (v_id volume)) (iscsi_targets (db w)) = Some t ->
  (forall history cmd, exists o, execute self history cmd true = Ret o) ->
  Driver.remove_export FLAGS self volume w =
    (Ret tt,
     add_trace
       [Db (VolumeGetTargetId (v_id volume));
        Exec (ietadm_delete_lun (target_id t));
        Exec (ietadm_delete_target (target_id t))] w).
Proof.
  intros Hclass Hfind Hall.
  unfold Driver.remove_export, Driver.iscsi_remove_export. rewrite Hclass.
  rewrite (bind_ret _ _ _ _ _ (volume_get_target_id_found _ _ _ Hfind)).
  change ("sudo ietadm --op delete --tid=" ++ Py.str (target_id t) ++
          " --lun=0")%string with (ietadm_delete_lun (target_id t)).
  change ("sudo ietadm --op delete --tid=" ++ Py.str (target_id t))%string
    with (ietadm_delete_target (target_id t)).
  run_any Hall. run_any Hall. unfold ret. now rewrite !add_trace_app.
Qed.

Lemma driver_delete_volume_success FLAGS self volume w o :
  execute self (trace w) (lvremove_command FLAGS volume) true = Ret o ->
  Driver.delete_volume FLAGS self volume w =
    (Ret tt, add_trace [Exec (lvremove_command FLAGS volume)] w).
Proof.
  intros H. unfold Driver.delete_volume.
  change ("sudo lvremove -f " ++ volume_group FLAGS ++ "/" ++
          v_name volume)%string with (lvremove_command FLAGS volume).
  now rewrite (bind_ret _ _ _ _ _
                 (try_execute_first_success FLAGS self _ w o H)).
Qed.

(** ** The manager over the iSCSI driver *)

(** X12: a [delete_volume] that succeeds over the iSCSI driver deletes the
    LUN, then the target, then the logical volume, and then destroys the
    record; the target-ID row is never released: after the call it is
    still in the pool, owned by the volume that no longer exists. *)
Theorem delete_volume_iscsi_keeps_the_target_row
    (FLAGS : flags) (self : volume_manager) (volume_id : Z) (w : world)
    (v : volume) (t : iscsi_target) :
  Store.lookup_volume volume_id (db w) = Some v ->
  v_attach_status v <> "attached"%string ->
  v_host v = host self ->
  class (driver self) = ISCSIDriverClass ->
  find (Store.target_of volume_id) (iscsi_targets (db w)) = Some t ->
  (forall history cmd,
     exists o, execute (driver self) history cmd true = Ret o) ->
  Manager.delete_volume FLAGS self volume_id w =
    (Ret true,
     {| db := {| volumes :=
                   filter (fun x => negb (Store.has_id volume_id x))
                     (volumes (db w));
                 export_devices := export_devices (db w);
                 iscsi_targets := iscsi_targets (db w) |};
        utcnow := utcnow w;
        trace := trace w ++
                 [Db (VolumeGet volume_id);
                  Db (VolumeGetTargetId volume_id);
                  Exec (ietadm_delete_lun (target_id t));
                  Exec (ietadm_delete_target (target_id t));
                  Exec (lvremove_command FLAGS v);
                  Db (VolumeDestroy volume_id)] |}) /\
  Store.lookup_volume volume_id
    (db (after (Manager.delete_volume FLAGS self volume_id) w)) = None /\
  In t (iscsi_targets
          (db (after (Manager.delete_volume FLAGS self volume_id) w))) /\
  t_volume_id t = Some volume_id.
Proof.
  intros Hget Hatt Hhost Hclass Hfind Hall.
  pose proof (lookup_volume_id _ _ _ Hget) as Hid.
  destruct (target_of_owner _ _ _ Hfind) as [Hin Hown].
  assert (E : Manager.delete_volume FLAGS self volume_id w =
    (Ret true,
     {| db := {| volumes :=
                   filter (fun x => negb (Store.has_id volume_id x))
                     (volumes (db w));
                 export_devices := export_devices (db w);
                 iscsi_targets := iscsi_targets (db w) |};
        utcnow := utcnow w;
        trace := trace w ++
                 [Db (VolumeGet volume_id);
                  Db (VolumeGetTargetId volume_id);
                  Exec (ietadm_delete_lun (target_id t));
                  Exec (ietadm_delete_target (target_id t));
                  Exec (lvremove_command FLAGS v);
                  Db (VolumeDestroy volume_id)] |})).
  { unfold Manager.delete_volume.
    rewrite (bind_ret _ _ _ _ _ (volume_get_found _ _ _ Hget)).
    destruct (String.eqb_spec (v_attach_status v) "attached");
      [contradiction |].
    rewrite Hhost, String.eqb_refl. cbn [negb].
    assert (Hfind' : find (Store.target_of (v_id v))
                       (iscsi_targets
                          (db (add_trace [Db (VolumeGet volume_id)] w))) =
                     Some t) by (rewrite Hid; exact Hfind).
    rewrite (bind_ret _ _ _ _ _
               (iscsi_remove_export_success FLAGS (driver self) v
                  (add_trace [Db (VolumeGet volume_id)] w) t
                  Hclass Hfind' Hall)).
    rewrite add_trace_app.
    match goal with
    | |- bind (Driver.delete_volume _ _ _) _ ?w1 = _ =>
        destruct (Hall (trace w1) (lvremove_command FLAGS v)) as [o3 Ho3];
        rewrite (bind_ret _ _ _ _ _
                   (driver_delete_volume_success FLAGS (driver self) v w1
                      o3 Ho3))
    end.
    rewrite add_trace_app, Hid.
    rewrite (bind_ret _ _ _ _ _ (volume_destroy_run volume_id _)).
    unfold ret. cbn [db utcnow trace add_trace].
    rewrite <- !app_assoc. reflexivity. }
  split; [exact E |]. unfold after. rewrite E. cbn [snd db].
  split; [apply lookup_after_destroy |]. split; [exact Hin | exact Hown].
Qed.

Lemma delete_volume_iscsi_keeps_the_target_row_witness :
  iscsi_targets
    (db (after (Manager.delete_volume default_flags
                  {| host := "h1"; driver := FakeISCSIDriver |} 7)
           exported_world)) =
    [{| t_host := "h1"; target_id := 1; t_volume_id := Some 7 |}] /\
  Store.lookup_volume 7
    (db (after (Manager.delete_volume default_flags
                  {| host := "h1"; driver := FakeISCSIDriver |} 7)
           exported_world)) = None.
Proof.
  destruct (delete_volume_iscsi_keeps_the_target_row default_flags
              {| host := "h1"; driver := FakeISCSIDriver |} 7
              exported_world exported_volume
              {| t_host := "h1"; target_id := 1; t_volume_id := Some 7 |}
              eq_refl ltac:(discriminate) eq_refl eq_refl eq_refl
              (fun _ _ => ex_intro _ (None, None) eq_refl))
    as (E & Hgone & _ & _).
  split; [| exact Hgone]. unfold after. rewrite E. reflexivity.
Defined.

(** ** The AoE driver *)

Lemma ensure_blades_run FLAGS w :
  Driver._ensure_blades FLAGS w =
    (Ret tt,
     {| db := with_export_devices
                (ensured_blades FLAGS (export_devices (db w))) (db w);
        utcnow := utcnow w;
        trace := trace w ++ blade_ensure_events FLAGS (export_devices (db w)) |}).
Proof.
  unfold ensured_blades, blade_ensure_events.
  destruct (Z.geb_spec (Z.of_nat (length (export_devices (db w))))
              (num_shelves FLAGS * blades_per_shelf FLAGS)) as [Hge|Hlt].
  - rewrite ensure_blades_full by lia.
    unfold add_trace, with_export_devices. now destruct w as [[] ? ?].
  - now rewrite ensure_blades_populates by lia.
Qed.

Lemma volume_allocate_shelf_and_blade_run volume_id w d rows :
  Store.allocate_first Store.blade_free (Store.own_blade volume_id)
    (export_devices (db w)) = Some (d, rows) ->
  Store.volume_allocate_shelf_and_blade volume_id w =
    (Ret (shelf_id d, blade_id d),
     {| db := with_export_devices rows (db w);
        utcnow := utcnow w;
        trace := trace w ++ [Db (VolumeAllocateShelfAndBlade volume_id)] |}).
Proof.
  intros H. unfold Store.volume_allocate_shelf_and_blade, Store.call. simpl.
  now rewrite H.
Qed.

Lemma volume_get_shelf_and_blade_found volume_id w d :
  find (Store.blade_of volume_id) (export_devices (db w)) = Some d ->
  Store.volume_get_shelf_and_blade volume_id w =
    (Ret (shelf_id d, blade_id d),
     add_trace [Db (VolumeGetShelfAndBlade volume_id)] w).
Proof.
  intros H. unfold Store.volume_get_shelf_and_blade, Store.call. simpl.
  now rewrite H.
Qed.

(** X13: the AoE [create_export] when the pool yields the pair of row [d]
    and the setup command and the sleep return: the pool is populated, the
    pair allocated, then [vblade-persist setup], [sleep 2], [auto all] and
    [start all] run, each once.  The last two are run with
    [check_exit_code=False]: the export returns whenever [execute] answers
    them under that flag, whatever it would raise for them were the exit
    code checked. *)
Theorem aoe_create_export_activates_best_effort
    (FLAGS : flags) (self : volume_driver) (volume : volume) (w : world)
    (d : export_device) (rows : list export_device) :
  class self = AOEDriverClass ->
  Store.allocate_first Store.blade_free (Store.own_blade (v_id volume))
    (ensured_blades FLAGS (export_devices (db w))) = Some (d, rows) ->
  (forall history,
     exists o,
       execute self history
         (vblade_setup FLAGS (shelf_id d) (blade_id d) volume) true = Ret o) ->
  (forall history, exists o, execute self history "sleep 2" true = Ret o) ->
  (forall history cmd, exists o, execute self history cmd false = Ret o) ->
  Driver.create_export FLAGS self volume w =
    (Ret tt,
     {| db := with_export_devices rows (db w);
        utcnow := utcnow w;
        trace := trace w ++
                 blade_ensure_events FLAGS (export_devices (db w)) ++
                 [Db (VolumeAllocateShelfAndBlade (v_id volume));
                  Exec (vblade_setup FLAGS (shelf_id d) (blade_id d) volume);
                  Exec "sleep 2";
                  Exec "sudo vblade-persist auto all";
                  Exec "sudo vblade-persist start all"] |}).
Proof.
  intros Hclass Halloc Hsetup Hsleep Hbest.
  unfold Driver.create_export, Driver.aoe_create_export. rewrite Hclass.
  rewrite (bind_ret _ _ _ _ _ (ensure_blades_run FLAGS w)).
  rewrite (bind_ret _ _ _ _ _
             (volume_allocate_shelf_and_blade_run (v_id volume)
                {| db := with_export_devices
                           (ensured_blades FLAGS (export_devices (db w)))
                           (db w);
                   utcnow := utcnow w;
                   trace := trace w ++
                            blade_ensure_events FLAGS
                              (export_devices (db w)) |}
                d rows Halloc)).
  cbn [fst snd].
  change ("sudo vblade-persist setup " ++ Py.str (shelf_id d) ++ " " ++
          Py.str (blade_id d) ++ " " ++ aoe_eth_dev FLAGS ++ " /dev/" ++
          volume_group FLAGS ++ "/" ++ v_name volume)%string
    with (vblade_setup FLAGS (shelf_id d) (blade_id d) volume).
  match goal with
  | |- bind (Driver._try_execute ?F ?s ?c) _ ?w1 = _ =>
      destruct (Hsetup (trace w1)) as [o1 H1];
      rewrite (bind_ret _ _ _ _ _ (try_execute_first_success F s c w1 o1 H1))
  end.
  match goal with
  | |- bind (Driver._execute ?s ?c ?b) _ ?w1 = _ =>
      destruct (Hsleep (trace w1)) as [o2 H2];
      rewrite (bind_ret _ _ _ _ _ (execute_run s c b w1 o2 H2))
  end.
  run_any Hbest. run_any Hbest.
  unfold ret, add_trace. cbn [db utcnow trace with_export_devices].
  rewrite <- !app_assoc. reflexivity.
Qed.

Lemma aoe_create_export_activates_best_effort_witness :
  Driver.create_export small_flags
    (AOEDriver (simple_execute contended_shell)
       (simple_execute contended_shell))
    exported_volume requested_world =
    (Ret tt,
     {| db := with_export_devices
                [{| shelf_id := 0; blade_id := 0; ed_volume_id := Some 7 |};
                 {| shelf_id := 0; blade_id := 1; ed_volume_id := None |}]
                (db requested_world);
        utcnow := 1000;
        trace :=
          [Db ExportDeviceCount; Db (ExportDeviceCreateSafe 0 0);
           Db (ExportDeviceCreateSafe 0 1);
           Db (VolumeAllocateShelfAndBlade 7);
           Exec "sudo vblade-persist setup 0 0 eth0 /dev/nova-volumes/vol-7";
           Exec "sleep 2";
           Exec "sudo vblade-persist auto all";
           Exec "sudo vblade-persist start all"] |}).
Proof.
  apply (aoe_create_export_activates_best_effort small_flags
           (AOEDriver (simple_execute contended_shell)
              (simple_execute contended_shell))
           exported_volume requested_world
           {| shelf_id := 0; blade_id := 0; ed_volume_id := None |}
           [{| shelf_id := 0; blade_id := 0; ed_volume_id := Some 7 |};
            {| shelf_id := 0; blade_id := 1; ed_volume_id := None |}]
           eq_refl eq_refl
           (fun _ => ex_intro _ (Some ""%string, Some ""%string) eq_refl)
           (fun _ => ex_intro _ (Some ""%string, Some ""%string) eq_refl)).
  intros history cmd. unfold execute, AOEDriver, simple_execute,
    contended_shell.
  destruct (Py.contains " all" cmd); eexists; reflexivity.
Defined.

(** X14: the AoE [remove_export] when its commands return: it looks up the
    volume's pair, then stops and destroys that shelf and blade, in that
    order, each once; the store is only read, so the pair stays owned by
    the volume. *)
Theorem aoe_remove_export_stops_then_destroys
    (FLAGS : flags) (self : volume_driver) (volume : volume) (w : world)
    (d : export_device) :
  class self = AOEDriverClass ->
  find (Store.blade_of (v_id volume)) (export_devices (db w)) = Some d ->
  (forall history cmd, exists o, execute self history cmd true = Ret o) ->
  Driver.remove_export FLAGS self volume w =
    (Ret tt,
     add_trace
       [Db (VolumeGetShelfAndBlade (v_id volume));
        Exec (vblade_stop (shelf_id d) (blade_id d));
        Exec (vblade_destroy (shelf_id d) (blade_id d))] w).
Proof.
  intros Hclass Hfind Hall.
  unfold Driver.remove_export, Driver.aoe_remove_export. rewrite Hclass.
  rewrite (bind_ret _ _ _ _ _
             (volume_get_shelf_and_blade_found _ _ _ Hfind)).
  cbn [fst snd].
  change ("sudo vblade-persist stop " ++ Py.str (shelf_id d) ++ " " ++
          Py.str (blade_id d))%string
    with (vblade_stop (shelf_id d) (blade_id d)).
  change ("sudo vblade-persist destroy " ++ Py.str (shelf_id d) ++ " " ++
          Py.str (blade_id d))%string
    with (vblade_destroy (shelf_id d) (blade_id d)).
  run_any Hall. run_any Hall. unfold ret. now rewrite !add_trace_app.
Qed.

Lemma aoe_remove_export_stops_then_destroys_witness :
  Driver.remove_export default_flags FakeAOEDriver exported_volume aoe_world =
    (Ret tt,
     add_trace
       [Db (VolumeGetShelfAndBlade 7);
        Exec "sudo vblade-persist stop 0 3";
        Exec "sudo vblade-persist destroy 0 3"] aoe_world).
Proof.
  apply (aoe_remove_export_stops_then_destroys default_flags FakeAOEDriver
           exported_volume aoe_world
           {| shelf_id := 0; blade_id := 3; ed_volume_id := Some 7 |}
           eq_refl eq_refl (fun _ _ => ex_intro _ (None, None) eq_refl)).
Defined.

(** ** The manager: attach, detach and start-up *)

(** X15: with the AoE driver, [setup_compute_volume] on a volume that is on
    another host, or on any volume when [use_local_volumes] is off, runs
    [aoe-discover] and then [aoe-stat] (the latter without exit-code
    check) and returns [None]: no device path comes back, whatever the
    volume. *)
Theorem setup_compute_volume_aoe_returns_no_path
    (FLAGS : flags) (self : volume_manager) (volume_id : Z) (w : world)
    (v : volume) (o1 o2 : option string * option string) :
  Store.lookup_volume volume_id (db w) = Some v ->
  v_host v <> host self \/ use_local_volumes FLAGS = false ->
  class (driver self) = AOEDriverClass ->
  execute (driver self) (trace w ++ [Db (VolumeGet volume_id)])
    "sudo aoe-discover" true = Ret o1 ->
  execute (driver self)
    (trace w ++ [Db (VolumeGet volume_id); Exec "sudo aoe-discover"])
    "sudo aoe-stat" false = Ret o2 ->
  Manager.setup_compute_volume FLAGS self volume_id w =
    (Ret None,
     add_trace
       [Db (VolumeGet volume_id); Exec "sudo aoe-discover";
        Exec "sudo aoe-stat"] w).
Proof.
  intros Hget Hremote Hclass H1 H2. unfold Manager.setup_compute_volume.
  rewrite (bind_ret _ _ _ _ _ (volume_get_found _ _ _ Hget)).
  assert (Hcond : String.eqb (v_host v) (host self) &&
                  use_local_volumes FLAGS = false).
  { destruct Hremote as [Hne|Hoff].
    - destruct (String.eqb_spec (v_host v) (host self)); [contradiction |].
      reflexivity.
    - rewrite Hoff. apply andb_false_r. }
  rewrite Hcond. unfold Driver.discover_volume, Driver.aoe_discover_volume.
  rewrite Hclass. run_exec H1. run_exec H2.
  unfold ret. now rewrite !add_trace_app.
Qed.

Lemma setup_compute_volume_aoe_returns_no_path_witness :
  Manager.setup_compute_volume default_flags
    {| host := "h2"; driver := FakeAOEDriver |} 7 aoe_world =
    (Ret None,
     add_trace
       [Db (VolumeGet 7); Exec "sudo aoe-discover"; Exec "sudo aoe-stat"]
       aoe_world).
Proof.
  apply (setup_compute_volume_aoe_returns_no_path default_flags
           {| host := "h2"; driver := FakeAOEDriver |} 7 aoe_world
           exported_volume (None, None) (None, None)).
  - reflexivity.
  - left. discriminate.
  - reflexivity.
  - reflexivity.
  - reflexivity.
Defined.

(** X16: [remove_compute_volume].  On a volume of the manager's own host
    with [use_local_volumes] on it returns [True] after the read of the
    record alone, whatever the driver.  With the AoE driver it runs no
    command in the other case either, [undiscover_volume] being empty, and
    returns [None]. *)
Theorem remove_compute_volume_runs_no_command
    (FLAGS : flags) (self : volume_manager) (volume_id : Z) (w : world)
    (v : volume) :
  Store.lookup_volume volume_id (db w) = Some v ->
  (v_host v = host self -> use_local_volumes FLAGS = true ->
   Manager.remove_compute_volume FLAGS self volume_id w =
     (Ret (Some true), add_trace [Db (VolumeGet volume_id)] w)) /\
  (class (driver self) = AOEDriverClass ->
   v_host v <> host self \/ use_local_volumes FLAGS = false ->
   Manager.remove_compute_volume FLAGS self volume_id w =
     (Ret None, add_trace [Db (VolumeGet volume_id)] w)).
Proof.
  intros Hget. unfold Manager.remove_compute_volume.
  rewrite (bind_ret _ _ _ _ _ (volume_get_found _ _ _ Hget)).
  split.
  - intros Hhost Hlocal. now rewrite Hhost, String.eqb_refl, Hlocal.
  - intros Hclass Hremote.
    assert (Hcond : String.eqb (v_host v) (host self) &&
                    use_local_volumes FLAGS = false).
    { destruct Hremote as [Hne|Hoff].
      - destruct (String.eqb_spec (v_host v) (host self)); [contradiction |].
        reflexivity.
      - rewrite Hoff. apply andb_false_r. }
    rewrite Hcond. unfold Driver.undiscover_volume. rewrite Hclass.
    reflexivity.
Qed.

Lemma remove_compute_volume_runs_no_command_witness :
  Manager.remove_compute_volume default_flags
    {| host := "h1"; driver := ISCSIDriver always_fails always_fails |}
    7 exported_world =
    (Ret (Some true), add_trace [Db (VolumeGet 7)] exported_world) /\
  Manager.remove_compute_volume default_flags
    {| host := "h2"; driver := AOEDriver always_fails always_fails |}
    7 aoe_world =
    (Ret None, add_trace [Db (VolumeGet 7)] aoe_world).
Proof.
  split.
  - apply (proj1 (remove_compute_volume_runs_no_command default_flags
                    {| host := "h1";
                       driver := ISCSIDriver always_fails always_fails |}
                    7 exported_world exported_volume eq_refl));
      reflexivity.
  - apply (proj2 (remove_compute_volume_runs_no_command default_flags
                    {| host := "h2";
                       driver := AOEDriver always_fails always_fails |}
                    7 aoe_world exported_volume eq_refl)).
    + reflexivity.
    + left. discriminate.
Defined.

(** X17: [init_host] checks the host first.  When [/dev/{volume_group}] is
    not a directory it raises [exception.Error] with the message
    [volume group {volume_group} doesn't exist] and the world is as it was:
    no export is ensured and no command run. *)
Theorem init_host_requires_the_volume_group
    (FLAGS : flags) (isdir : string -> bool) (self : volume_manager)
    (w : world) :
  isdir ("/dev/" ++ volume_group FLAGS)%string = false ->
  Manager.init_host FLAGS isdir self w =
    (Raise (Error ("volume group " ++ volume_group FLAGS ++
                   " doesn't exist")%string), w).
Proof.
  intros H. unfold Manager.init_host, Driver.check_for_setup_error.
  rewrite H. reflexivity.
Qed.

Lemma init_host_requires_the_volume_group_witness :
  Manager.init_host default_flags (fun _ => false)
    {| host := "h1"; driver := FakeISCSIDriver |} exported_world =
    (Raise (Error "volume group nova-volumes doesn't exist"), exported_world).
Proof.
  apply (init_host_requires_the_volume_group default_flags (fun _ => false)
           {| host := "h1"; driver := FakeISCSIDriver |} exported_world).
  reflexivity.
Defined.

Lemma sync_exec_run self cmd check w o :
  sync_exec self (trace w) cmd check = Ret o ->
  Driver._sync_exec self cmd check w = (Ret o, add_trace [Exec cmd] w).
Proof. intros H. unfold Driver._sync_exec. now rewrite H. Qed.

Lemma iscsi_ensure_export_run FLAGS self volume w t :
  find (Store.target_of (v_id volume)) (iscsi_targets (db w)) = Some t ->
  (forall history cmd, exists o, sync_exec self history cmd false = Ret o) ->
  Driver.iscsi_ensure_export FLAGS self volume w =
    (Ret tt, add_trace (ensure_export_events FLAGS (target_id t) volume) w).
Proof.
  intros Hfind Hall. unfold Driver.iscsi_ensure_export.
  rewrite (bind_ret _ _ _ _ _ (volume_get_target_id_found _ _ _ Hfind)).
  cbv zeta.
  change ("sudo ietadm --op new --tid=" ++ Py.str (target_id t) ++
          " --params Name=" ++ iscsi_target_prefix FLAGS ++
          v_name volume)%string
    with (ietadm_new_target FLAGS (target_id t) volume).
  change ("sudo ietadm --op new --tid=" ++ Py.str (target_id t) ++
          " --lun=0 --params Path=" ++
          ("/dev/" ++ volume_group FLAGS ++ "/" ++ v_name volume) ++
          ",Type=fileio")%string
    with (ietadm_new_lun FLAGS (target_id t) volume).
  match goal with
  | |- bind (Driver._sync_exec ?s ?c ?b) _ ?w1 = _ =>
      destruct (Hall (trace w1) c) as [o1 H1];
      rewrite (bind_ret _ _ _ _ _ (sync_exec_run s c b w1 o1 H1))
  end.
  match goal with
  | |- bind (Driver._sync_exec ?s ?c ?b) _ ?w1 = _ =>
      destruct (Hall (trace w1) c) as [o2 H2];
      rewrite (bind_ret _ _ _ _ _ (sync_exec_run s c b w1 o2 H2))
  end.
  unfold ret, ensure_export_events. now rewrite !add_trace_app.
Qed.

Lemma reexport_loop FLAGS self vols :
  forall w,
    (forall v, In v vols ->
       find (Store.target_of (v_id v)) (iscsi_targets (db w)) <> None) ->
    (forall history cmd, exists o, sync_exec self history cmd false = Ret o) ->
    for_in vols (fun volume => Driver.iscsi_ensure_export FLAGS self volume) w =
      (Ret tt, add_trace (reexport_events FLAGS (db w) vols) w).
Proof.
  induction vols as [|v vols IH]; intros w Hhas Hall.
  - simpl. unfold ret. now rewrite add_trace_nil.
  - simpl for_in.
    destruct (find (Store.target_of (v_id v)) (iscsi_targets (db w)))
      as [t|] eqn:Hfind; [| now elim (Hhas v (or_introl eq_refl))].
    rewrite (bind_ret _ _ _ _ _
               (iscsi_ensure_export_run FLAGS self v w t Hfind Hall)).
    rewrite IH; [| intros v' Hv'; apply Hhas; now right | exact Hall].
    rewrite add_trace_app. cbn [db add_trace].
    unfold reexport_events. simpl flat_map. now rewrite Hfind.
Qed.

(** X18: [init_host] over the iSCSI driver, on a host whose volume group
    exists and whose volumes all have a target ID: for each volume of the
    host, in the store's order, the target ID is looked up and the two
    [ietadm --op new] commands run, and nothing else.  The commands go
    through [sync_exec] with [check_exit_code=False], never through
    [execute]: the call returns whenever [sync_exec] answers under that
    flag, and the store is only read. *)
Theorem init_host_reexports_every_volume
    (FLAGS : flags) (isdir : string -> bool) (self : volume_manager)
    (w : world) :
  isdir ("/dev/" ++ volume_group FLAGS)%string = true ->
  class (driver self) = ISCSIDriverClass ->
  (forall v, In v (host_volumes (host self) (db w)) ->
     find (Store.target_of (v_id v)) (iscsi_targets (db w)) <> None) ->
  (forall history cmd,
     exists o, sync_exec (driver self) history cmd false = Ret o) ->
  Manager.init_host FLAGS isdir self w =
    (Ret tt,
     add_trace
       (reexport_events FLAGS (db w) (host_volumes (host self) (db w))) w).
Proof.
  intros Hdir Hclass Hhas Hall.
  unfold Manager.init_host, Driver.check_for_setup_error.
  rewrite Hdir. cbn [negb].
  rewrite (bind_ret _ _ _ _ _ (eq_refl : ret tt w = (Ret tt, w))).
  rewrite (bind_ret _ _ _ _ _
             (eq_refl : Store.volume_get_all_by_host (host self) w =
                        (Ret (host_volumes (host self) (db w)), w))).
  replace (for_in (host_volumes (host self) (db w))
             (fun volume => Driver.ensure_export FLAGS (driver self) volume))
    with (for_in (host_volumes (host self) (db w))
            (fun volume =>
               Driver.iscsi_ensure_export FLAGS (driver self) volume)).
  - now apply reexport_loop.
  - unfold Driver.ensure_export. now rewrite Hclass.
Qed.

Lemma init_host_reexports_every_volume_witness :
  Manager.init_host default_flags (fun _ => true)
    {| host := "h1";
       driver := ISCSIDriver always_fails (simple_execute broken_shell) |}
    exported_world =
    (Ret tt,
     add_trace
       [Db (VolumeGetTargetId 7);
        Exec ("sudo ietadm --op new --tid=1 --params " ++
              "Name=iqn.2010-10.org.openstack:vol-7");
        Exec ("sudo ietadm --op new --tid=1 --lun=0 --params " ++
              "Path=/dev/nova-volumes/vol-7,Type=fileio")]
       exported_world).
Proof.
  apply (init_host_reexports_every_volume default_flags (fun _ => true)
           {| host := "h1";
              driver := ISCSIDriver always_fails
                          (simple_execute broken_shell) |}
           exported_world).
  - reflexivity.
  - reflexivity.
  - intros v [<-|[]]. discriminate.
  - intros history cmd. eexists. reflexivity.
Defined.

(** X19: [init_host] over the AoE driver, on a host whose volume group
    exists, does nothing at all: [ensure_export] is empty for every
    volume, so no command is run and the world is as it was. *)
Theorem init_host_aoe_does_nothing
    (FLAGS : flags) (isdir : string -> bool) (self : volume_manager)
    (w : world) :
  isdir ("/dev/" ++ volume_group FLAGS)%string = true ->
  class (driver self) = AOEDriverClass ->
  Manager.init_host FLAGS isdir self w = (Ret tt, w).
Proof.
  intros Hdir Hclass.
  unfold Manager.init_host, Driver.check_for_setup_error.
  rewrite Hdir. cbn [negb].
  rewrite (bind_ret _ _ _ _ _ (eq_refl : ret tt w = (Ret tt, w))).
  rewrite (bind_ret _ _ _ _ _
             (eq_refl : Store.volume_get_all_by_host (host self) w =
                        (Ret (host_volumes (host self) (db w)), w))).
  unfold Driver.ensure_export. rewrite Hclass.
  induction (host_volumes (host self) (db w)) as [|v vols IH];
    [reflexivity |].
  simpl. now rewrite (bind_ret _ _ _ _ _ (eq_refl : ret tt w = (Ret tt, w))).
Qed.

Lemma init_host_aoe_does_nothing_witness :
  Manager.init_host default_flags (fun _ => true)
    {| host := "h1"; driver := AOEDriver always_fails always_fails |}
    aoe_world = (Ret tt, aoe_world).
Proof.
  apply (init_host_aoe_does_nothing default_flags (fun _ => true)
           {| host := "h1"; driver := AOEDriver always_fails always_fails |}
           aoe_world); reflexivity.
Defined.

(** ** Pools: what population creates *)

Lemma xrange_In lo hi k : In k (xrange lo hi) <-> lo <= k < hi.
Proof.
  unfold xrange. rewrite in_map_iff. split.
  - intros (i & <- & Hi). apply in_seq in Hi. lia.
  - intros H. exists (Z.to_nat (k - lo)). split; [lia |].
    apply in_seq. lia.
Qed.

Lemma populate_appends_from {R K} (same : K -> R -> bool) (fresh : K -> R)
    (ks : list K) :
  forall rows, exists news,
    populate_with same fresh ks rows = rows ++ news /\
    Forall (fun r => exists k, In k ks /\ r = fresh k) news.
Proof.
  induction ks as [|k ks IH]; intros rows.
  - exists []. now rewrite app_nil_r.
  - destruct (IH (Store.create_safe (same k) (fresh k) rows))
      as (news & Hn & Hf).
    unfold populate_with in *. simpl. rewrite Hn. unfold Store.create_safe.
    assert (Hf' : Forall (fun r => exists k0, In k0 (k :: ks) /\ r = fresh k0)
                    news).
    { eapply Forall_impl; [| exact Hf].
      intros r (k0 & Hk0 & ->). exists k0. split; [now right | reflexivity]. }
    destruct (existsb _ _); [now exists news |].
    exists (fresh k :: news). rewrite <- app_assoc. split; [reflexivity |].
    constructor; [| exact Hf']. exists k. split; [now left | reflexivity].
Qed.

(** X20: population only appends.  Whatever the store and the flags,
    [_ensure_blades] and [_ensure_target_ids] leave every row that was
    there in place, unchanged and in order, owned rows included, and touch
    no other table.  The rows they add are unowned and inside the
    identifier space: shelves [0 .. num_shelves - 1] and blades
    [0 .. blades_per_shelf - 1]; for the host asked for, target IDs
    [1 .. iscsi_target_ids], never 0. *)
Theorem population_only_appends
    (FLAGS : flags) (host : string) (w : world) :
  (exists news,
     export_devices (db (after (Driver._ensure_blades FLAGS) w)) =
       export_devices (db w) ++ news /\
     Forall (fun d => 0 <= shelf_id d < num_shelves FLAGS /\
                      0 <= blade_id d < blades_per_shelf FLAGS /\
                      ed_volume_id d = None) news /\
     volumes (db (after (Driver._ensure_blades FLAGS) w)) = volumes (db w) /\
     iscsi_targets (db (after (Driver._ensure_blades FLAGS) w)) =
       iscsi_targets (db w)) /\
  (exists news,
     iscsi_targets (db (after (Driver._ensure_target_ids FLAGS host) w)) =
       iscsi_targets (db w) ++ news /\
     Forall (fun t => t_host t = host /\
                      1 <= target_id t <= iscsi_target_ids FLAGS /\
                      t_volume_id t = None) news /\
     volumes (db (after (Driver._ensure_target_ids FLAGS host) w)) =
       volumes (db w) /\
     export_devices (db (after (Driver._ensure_target_ids FLAGS host) w)) =
       export_devices (db w)).
Proof.
  unfold after. split.
  - rewrite ensure_blades_run. cbn [snd db with_export_devices
      export_devices volumes iscsi_targets].
    unfold ensured_blades. destruct (_ >=? _).
    + exists []. rewrite app_nil_r. repeat split. constructor.
    + destruct (populate_appends_from blade_same blade_fresh
                  (blade_grid FLAGS) (export_devices (db w)))
        as (news & -> & Hnews).
      exists news. repeat split.
      eapply Forall_impl; [| exact Hnews].
      intros d ([a b] & Hk & ->). apply in_prod_iff in Hk.
      rewrite !xrange_In in Hk. simpl.
      repeat split; try reflexivity; lia.
  - rewrite ensure_target_ids_run. cbn [snd db with_iscsi_targets
      export_devices volumes iscsi_targets].
    unfold ensured_targets. destruct (_ >=? _).
    + exists []. rewrite app_nil_r. repeat split. constructor.
    + destruct (populate_appends_from (Store.same_target host)
                  (target_fresh host) (target_range FLAGS)
                  (iscsi_targets (db w)))
        as (news & -> & Hnews).
      exists news. repeat split.
      eapply Forall_impl; [| exact Hnews].
      intros t (k & Hk & ->). apply xrange_In in Hk. simpl.
      repeat split; try reflexivity; lia.
Qed.

Lemma populate_disjoint {R K} (key : R -> K) (same : K -> R -> bool)
    (fresh : K -> R) :
  (forall k r, same k r = true <-> key r = k) ->
  (forall k, key (fresh k) = k) ->
  forall ks rows,
    NoDup ks ->
    (forall k, In k ks -> ~ In k (map key rows)) ->
    populate_with same fresh ks rows = rows ++ map fresh ks.
Proof.
  intros Hsame Hkey. induction ks as [|k ks IH]; intros rows Hnd Hnew.
  - simpl. now rewrite app_nil_r.
  - inversion Hnd as [|? ? Hk Hks]; subst.
    unfold populate_with in *. simpl. unfold Store.create_safe at 2.
    destruct (existsb (same k) rows) eqn:E.
    + apply existsb_exists in E. destruct E as (r & Hr & Hs).
      apply Hsame in Hs. elim (Hnew k (or_introl eq_refl)).
      apply in_map_iff. now exists r.
    + rewrite IH; [now rewrite <- app_assoc | exact Hks |].
      intros k' Hk' Hin. rewrite map_app, in_app_iff in Hin.
      destruct Hin as [Hin|[Heq|[]]].
      * apply (Hnew k'); [now right | exact Hin].
      * rewrite Hkey in Heq. subst. contradiction.
Qed.

(** X21: on a store with no export-device row, [_ensure_blades] creates
    exactly one unowned row per pair of the grid, shelf by shelf and blade
    by blade; on a store with no target row, [_ensure_target_ids] creates
    for the host exactly the unowned rows 1, 2, ... [iscsi_target_ids], in
    that order.  With a size of zero or less nothing is created. *)
Theorem population_of_an_empty_pool
    (FLAGS : flags) (host : string) (w : world) :
  (export_devices (db w) = [] ->
   export_devices (db (after (Driver._ensure_blades FLAGS) w)) =
     map blade_fresh (blade_grid FLAGS)) /\
  (iscsi_targets (db w) = [] ->
   iscsi_targets (db (after (Driver._ensure_target_ids FLAGS host) w)) =
     map (target_fresh host) (target_range FLAGS)) /\
  (iscsi_target_ids FLAGS <= 0 -> target_range FLAGS = []) /\
  (num_shelves FLAGS <= 0 \/ blades_per_shelf FLAGS <= 0 ->
   blade_grid FLAGS = []).
Proof.
  unfold after. split; [| split; [| split]].
  - intros Hempty. rewrite ensure_blades_run.
    cbn [snd db with_export_devices export_devices].
    rewrite Hempty. unfold ensured_blades. simpl length.
    destruct (Z.geb_spec (Z.of_nat 0)
                (num_shelves FLAGS * blades_per_shelf FLAGS)) as [Hge|Hlt].
    + assert (Hgrid : blade_grid FLAGS = []).
      { apply length_zero_iff_nil. unfold blade_grid.
        rewrite length_prod, !xrange_length. nia. }
      now rewrite Hgrid.
    + apply (populate_disjoint blade_key blade_same blade_fresh).
      * intros k r. now apply blade_same_spec.
      * apply blade_key_fresh.
      * apply blade_grid_NoDup.
      * intros k _ [].
  - intros Hempty. rewrite ensure_target_ids_run.
    cbn [snd db with_iscsi_targets iscsi_targets].
    rewrite Hempty. unfold ensured_targets. simpl filter. simpl length.
    destruct (Z.geb_spec (Z.of_nat 0) (iscsi_target_ids FLAGS)) as [Hge|Hlt].
    + assert (Hrange : target_range FLAGS = []).
      { apply length_zero_iff_nil. unfold target_range.
        rewrite xrange_length. lia. }
      now rewrite Hrange.
    + unfold populate_with.
      assert (H : forall ks rows,
                NoDup ks ->
                (forall k, In k ks ->
                   ~ In k (map target_id
                             (filter (Store.on_host host) rows))) ->
                fold_left
                  (fun rows k =>
                     Store.create_safe (Store.same_target host k)
                       (target_fresh host k) rows) ks rows =
                rows ++ map (target_fresh host) ks).
      { induction ks as [|k ks IH]; intros rows Hnd Hnew.
        - simpl. now rewrite app_nil_r.
        - inversion Hnd as [|? ? Hk Hks]; subst. simpl.
          unfold Store.create_safe at 2.
          destruct (existsb (Store.same_target host k) rows) eqn:E.
          + apply existsb_exists in E. destruct E as (r & Hr & Hs).
            unfold Store.same_target in Hs. apply andb_true_iff in Hs.
            destruct Hs as [Hh Ht]. apply Z.eqb_eq in Ht.
            elim (Hnew k (or_introl eq_refl)). apply in_map_iff.
            exists r. split; [exact Ht |]. apply filter_In. auto.
          + rewrite IH; [now rewrite <- app_assoc | exact Hks |].
            intros k' Hk' Hin. rewrite filter_app, map_app, in_app_iff in Hin.
            destruct Hin as [Hin|Hin].
            * apply (Hnew k'); [now right | exact Hin].
            * simpl in Hin. rewrite on_host_fresh in Hin. simpl in Hin.
              destruct Hin as [Heq|[]]. subst. contradiction. }
      apply H; [apply xrange_NoDup | intros k _ []].
  - intros H. apply length_zero_iff_nil. unfold target_range.
    rewrite xrange_length. lia.
  - intros H. apply length_zero_iff_nil. unfold blade_grid.
    rewrite length_prod, !xrange_length. destruct H; lia.
Qed.

Lemma population_of_an_empty_pool_witness :
  iscsi_targets
    (db (after (Driver._ensure_target_ids small_flags "h1") empty_world)) =
    [{| t_host := "h1"; target_id := 1; t_volume_id := None |};
     {| t_host := "h1"; target_id := 2; t_volume_id := None |}] /\
  export_devices
    (db (after (Driver._ensure_blades small_flags) empty_world)) =
    [{| shelf_id := 0; blade_id := 0; ed_volume_id := None |};
     {| shelf_id := 0; blade_id := 1; ed_volume_id := None |}].
Proof.
  split.
  - apply (proj1 (proj2 (population_of_an_empty_pool small_flags "h1"
                           empty_world))).
    reflexivity.
  - apply (proj1 (population_of_an_empty_pool small_flags "h1" empty_world)).
    reflexivity.
Defined.

(** ** The manager when a step fails *)

Lemma try_execute_always_fails FLAGS self command w d (n : nat) :
  (1 <= n)%nat ->
  num_shell_tries FLAGS = Z.of_nat n ->
  (forall history,
     execute self history command true = Raise (ProcessExecutionError d)) ->
  (forall history k, exists o,
     execute self history (sleep_after k) true = Ret o) ->
  Driver._try_execute FLAGS self command w =
    (Raise (ProcessExecutionError d),
     add_trace (backoff command (n - 1) ++ [Exec command]) w).
Proof.
  intros Hpos Hn Hfail Hsleep.
  destruct (try_execute_after_backoff FLAGS self command (fun _ => d) w
              (n - 1)) as [fuel ->];
    [lia | intros; apply Hfail | intros; apply Hsleep |].
  rewrite (loop_exhausted FLAGS self command fuel _ _ d);
    [now rewrite add_trace_app | apply Hfail | lia].
Qed.

Lemma iscsi_remove_export_first_command_raises FLAGS self volume w t e :
  class self = ISCSIDriverClass ->
  find (Store.target_of (v_id volume)) (iscsi_targets (db w)) = Some t ->
  execute self (trace w ++ [Db (VolumeGetTargetId (v_id volume))])
    (ietadm_delete_lun (target_id t)) true = Raise e ->
  Driver.remove_export FLAGS self volume w =
    (Raise e,
     add_trace
       [Db (VolumeGetTargetId (v_id volume));
        Exec (ietadm_delete_lun (target_id t))] w).
Proof.
  intros Hclass Hfind H1.
  unfold Driver.remove_export, Driver.iscsi_remove_export. rewrite Hclass.
  rewrite (bind_ret _ _ _ _ _ (volume_get_target_id_found _ _ _ Hfind)).
  change ("sudo ietadm --op delete --tid=" ++ Py.str (target_id t) ++
          " --lun=0")%string with (ietadm_delete_lun (target_id t)).
  fail_exec H1. now rewrite add_trace_app.
Qed.

(** X22: [delete_volume] stops at the first failure of the export's
    removal.  With the iSCSI driver, when the command that deletes the LUN
    raises, the call raises the same exception after that one command:
    the target is not deleted, [lvremove] is not run and the store,
    record included, is as it was. *)
Theorem delete_volume_stops_when_export_removal_fails
    (FLAGS : flags) (self : volume_manager) (volume_id : Z) (w : world)
    (v : volume) (t : iscsi_target) (e : exn) :
  Store.lookup_volume volume_id (db w) = Some v ->
  v_attach_status v <> "attached"%string ->
  v_host v = host self ->
  class (driver self) = ISCSIDriverClass ->
  find (Store.target_of volume_id) (iscsi_targets (db w)) = Some t ->
  (forall history,
     execute (driver self) history (ietadm_delete_lun (target_id t)) true =
       Raise e) ->
  Manager.delete_volume FLAGS self volume_id w =
    (Raise e,
     add_trace
       [Db (VolumeGet volume_id); Db (VolumeGetTargetId volume_id);
        Exec (ietadm_delete_lun (target_id t))] w).
Proof.
  intros Hget Hatt Hhost Hclass Hfind Hfail.
  pose proof (lookup_volume_id _ _ _ Hget) as Hid.
  unfold Manager.delete_volume.
  rewrite (bind_ret _ _ _ _ _ (volume_get_found _ _ _ Hget)).
  destruct (String.eqb_spec (v_attach_status v) "attached");
    [contradiction |].
  rewrite Hhost, String.eqb_refl. cbn [negb].
  assert (Hfind' : find (Store.target_of (v_id v))
                     (iscsi_targets
                        (db (add_trace [Db (VolumeGet volume_id)] w))) =
                   Some t) by (rewrite Hid; exact Hfind).
  rewrite (bind_raise _ _ _ _ _
             (iscsi_remove_export_first_command_raises FLAGS (driver self) v
                (add_trace [Db (VolumeGet volume_id)] w) t e Hclass Hfind'
                (Hfail _))).
  now rewrite add_trace_app, Hid.
Qed.

Lemma delete_volume_stops_when_export_removal_fails_witness :
  Manager.delete_volume default_flags
    {| host := "h1";
       driver := ISCSIDriver
                   (raises_on "sudo ietadm"
                      (ProcessExecutionError "ietd is not running") "")
                   fake_execute |}
    7 exported_world =
    (Raise (ProcessExecutionError "ietd is not running"),
     add_trace
       [Db (VolumeGet 7); Db (VolumeGetTargetId 7);
        Exec "sudo ietadm --op delete --tid=1 --lun=0"] exported_world).
Proof.
  apply (delete_volume_stops_when_export_removal_fails default_flags
           {| host := "h1";
              driver := ISCSIDriver
                          (raises_on "sudo ietadm"
                             (ProcessExecutionError "ietd is not running") "")
                          fake_execute |}
           7 exported_world exported_volume
           {| t_host := "h1"; target_id := 1; t_volume_id := Some 7 |}
           (ProcessExecutionError "ietd is not running")).
  - reflexivity.
  - discriminate.
  - reflexivity.
  - reflexivity.
  - reflexivity.
  - intros history. reflexivity.
Defined.

(** X23: no compensation in [delete_volume].  With the iSCSI driver and a
    limit of [n >= 1] attempts, when the export's removal returned and
    [lvremove] fails at every attempt, the call raises the
    [ProcessExecutionError] of [lvremove] after its [n] attempts: the LUN
    and the target were deleted and are not created again, and the store
    is as it was, so the record is still there with the status it had. *)
Theorem delete_volume_does_not_compensate
    (FLAGS : flags) (self : volume_manager) (volume_id : Z) (w : world)
    (v : volume) (t : iscsi_target) (d : string) (n : nat) :
  Store.lookup_volume volume_id (db w) = Some v ->
  v_attach_status v <> "attached"%string ->
  v_host v = host self ->
  class (driver self) = ISCSIDriverClass ->
  find (Store.target_of volume_id) (iscsi_targets (db w)) = Some t ->
  (1 <= n)%nat ->
  num_shell_tries FLAGS = Z.of_nat n ->
  (forall history, exists o,
     execute (driver self) history (ietadm_delete_lun (target_id t)) true =
       Ret o) ->
  (forall history, exists o,
     execute (driver self) history (ietadm_delete_target (target_id t)) true =
       Ret o) ->
  (forall history,
     execute (driver self) history (lvremove_command FLAGS v) true =
       Raise (ProcessExecutionError d)) ->
  (forall history k, exists o,
     execute (driver self) history (sleep_after k) true = Ret o) ->
  Manager.delete_volume FLAGS self volume_id w =
    (Raise (ProcessExecutionError d),
     add_trace
       ([Db (VolumeGet volume_id); Db (VolumeGetTargetId volume_id);
         Exec (ietadm_delete_lun (target_id t));
         Exec (ietadm_delete_target (target_id t))] ++
        backoff (lvremove_command FLAGS v) (n - 1) ++
        [Exec (lvremove_command FLAGS v)]) w).
Proof.
  intros Hget Hatt Hhost Hclass Hfind Hpos Hn Hlun Htarget Hfail Hsleep.
  pose proof (lookup_volume_id _ _ _ Hget) as Hid.
  unfold Manager.delete_volume.
  rewrite (bind_ret _ _ _ _ _ (volume_get_found _ _ _ Hget)).
  destruct (String.eqb_spec (v_attach_status v) "attached");
    [contradiction |].
  rewrite Hhost, String.eqb_refl. cbn [negb].
  unfold Driver.remove_export. rewrite Hclass.
  assert (Hfind' : find (Store.target_of (v_id v))
                     (iscsi_targets
                        (db (add_trace [Db (VolumeGet volume_id)] w))) =
                   Some t) by (rewrite Hid; exact Hfind).
  assert (E1 : Driver.iscsi_remove_export (driver self) v
                 (add_trace [Db (VolumeGet volume_id)] w) =
               (Ret tt,
                add_trace
                  [Db (VolumeGet volume_id); Db (VolumeGetTargetId volume_id);
                   Exec (ietadm_delete_lun (target_id t));
                   Exec (ietadm_delete_target (target_id t))] w)).
  { unfold Driver.iscsi_remove_export.
    rewrite (bind_ret _ _ _ _ _ (volume_get_target_id_found _ _ _ Hfind')).
    change ("sudo ietadm --op delete --tid=" ++ Py.str (target_id t) ++
            " --lun=0")%string with (ietadm_delete_lun (target_id t)).
    change ("sudo ietadm --op delete --tid=" ++ Py.str (target_id t))%string
      with (ietadm_delete_target (target_id t)).
    rewrite ?add_trace_app.
    match goal with
    | |- bind (Driver._execute ?s ?c ?b) _ ?w1 = _ =>
        destruct (Hlun (trace w1)) as [o1 H1];
        rewrite (bind_ret _ _ _ _ _ (execute_run s c b w1 o1 H1))
    end.
    rewrite ?add_trace_app.
    match goal with
    | |- bind (Driver._execute ?s ?c ?b) _ ?w1 = _ =>
        destruct (Htarget (trace w1)) as [o2 H2];
        rewrite (bind_ret _ _ _ _ _ (execute_run s c b w1 o2 H2))
    end.
    unfold ret. rewrite ?add_trace_app, Hid. reflexivity. }
  rewrite (bind_ret _ _ _ _ _ E1).
  unfold Driver.delete_volume.
  change ("sudo lvremove -f " ++ volume_group FLAGS ++ "/" ++
          v_name v)%string with (lvremove_command FLAGS v).
  rewrite (bind_raise _ _ _ _ _
             (bind_raise _ _ _ _ _
                (try_execute_always_fails FLAGS (driver self)
                   (lvremove_command FLAGS v) _ d n Hpos Hn Hfail
                   Hsleep))).
  now rewrite add_trace_app.
Qed.

Lemma delete_volume_does_not_compensate_witness :
  Manager.delete_volume default_flags
    {| host := "h1"; driver := ISCSIDriver lvremove_fails lvremove_fails |}
    7 exported_world =
    (Raise (ProcessExecutionError "Can't remove open logical volume"),
     add_trace
       [Db (VolumeGet 7); Db (VolumeGetTargetId 7);
        Exec "sudo ietadm --op delete --tid=1 --lun=0";
        Exec "sudo ietadm --op delete --tid=1";
        Exec "sudo lvremove -f nova-volumes/vol-7"; Exec "sleep 1";
        Exec "sudo lvremove -f nova-volumes/vol-7"; Exec "sleep 4";
        Exec "sudo lvremove -f nova-volumes/vol-7"] exported_world).
Proof.
  apply (delete_volume_does_not_compensate default_flags
           {| host := "h1";
              driver := ISCSIDriver lvremove_fails lvremove_fails |}
           7 exported_world exported_volume
           {| t_host := "h1"; target_id := 1; t_volume_id := Some 7 |}
           "Can't remove open logical volume" 3).
  - reflexivity.
  - discriminate.
  - reflexivity.
  - reflexivity.
  - reflexivity.
  - lia.
  - reflexivity.
  - intros history. eexists. reflexivity.
  - intros history. eexists. reflexivity.
  - intros history. reflexivity.
  - intros history k. exists (Some ""%string, Some ""%string).
    unfold execute, ISCSIDriver, lvremove_fails, sleep_after. reflexivity.
Defined.

(** X24: [create_volume] stops when the backing store cannot be created.
    With a limit of [n >= 1] attempts, when [lvcreate] fails at every
    attempt the call raises its [ProcessExecutionError] after the [n]
    attempts, whatever the driver: no export is created, the pools are
    neither populated nor allocated from, and the only change of the store
    is the host written to the record before the first attempt. *)
Theorem create_volume_stops_when_lvcreate_fails
    (FLAGS : flags) (self : volume_manager) (volume_id : Z) (w : world)
    (v : volume) (d : string) (n : nat) :
  Store.lookup_volume volume_id (db w) = Some v ->
  (1 <= n)%nat ->
  num_shell_tries FLAGS = Z.of_nat n ->
  (forall history,
     execute (driver self) history (lvcreate_command FLAGS v) true =
       Raise (ProcessExecutionError d)) ->
  (forall history k, exists o,
     execute (driver self) history (sleep_after k) true = Ret o) ->
  Manager.create_volume FLAGS self volume_id w =
    (Raise (ProcessExecutionError d),
     {| db := Store.update_volume volume_id [Host (host self)] (db w);
        utcnow := utcnow w;
        trace := trace w ++
                 [Db (VolumeGet volume_id);
                  Db (VolumeUpdate volume_id [Host (host self)])] ++
                 backoff (lvcreate_command FLAGS v) (n - 1) ++
                 [Exec (lvcreate_command FLAGS v)] |}).
Proof.
  intros Hget Hpos Hn Hfail Hsleep. unfold Manager.create_volume.
  rewrite (bind_ret _ _ _ _ _ (volume_get_found _ _ _ Hget)).
  rewrite (bind_ret _ _ _ _ _
             (volume_update_found volume_id [Host (host self)]
                (add_trace [Db (VolumeGet volume_id)] w) v Hget)).
  cbn [db utcnow trace add_trace].
  unfold Driver.create_volume.
  change ("sudo lvcreate -L " ++
          Driver.sizestr (Store.set_value (Host (host self)) v) ++ " -n " ++
          v_name (Store.set_value (Host (host self)) v) ++ " " ++
          volume_group FLAGS)%string
    with (lvcreate_command FLAGS v).
  rewrite (bind_raise _ _ _ _ _
             (bind_raise _ _ _ _ _
                (try_execute_always_fails FLAGS (driver self)
                   (lvcreate_command FLAGS v) _ d n Hpos Hn Hfail Hsleep))).
  unfold add_trace. cbn [db utcnow trace]. now rewrite <- !app_assoc.
Qed.

Lemma create_volume_stops_when_lvcreate_fails_witness :
  Manager.create_volume default_flags
    {| host := "h1";
       driver := ISCSIDriver
                   (raises_on "sudo lvcreate"
                      (ProcessExecutionError "Insufficient free extents") "")
                   fake_execute |}
    7 requested_world =
    (Raise (ProcessExecutionError "Insufficient free extents"),
     {| db := Store.update_volume 7 [Host "h1"] (db requested_world);
        utcnow := 1000;
        trace :=
          [Db (VolumeGet 7); Db (VolumeUpdate 7 [Host "h1"]);
           Exec "sudo lvcreate -L 2G -n vol-7 nova-volumes"; Exec "sleep 1";
           Exec "sudo lvcreate -L 2G -n vol-7 nova-volumes"; Exec "sleep 4";
           Exec "sudo lvcreate -L 2G -n vol-7 nova-volumes"] |}).
Proof.
  apply (create_volume_stops_when_lvcreate_fails default_flags
           {| host := "h1";
              driver := ISCSIDriver
                          (raises_on "sudo lvcreate"
                             (ProcessExecutionError
                                "Insufficient free extents") "")
                          fake_execute |}
           7 requested_world requested_volume
           "Insufficient free extents" 3).
  - reflexivity.
  - lia.
  - reflexivity.
  - intros history. reflexivity.
  - intros history k. exists (Some ""%string, Some ""%string).
    unfold execute, ISCSIDriver, raises_on, sleep_after. reflexivity.
Defined.

(** ** The manager: creating a volume, step by step *)

(** [create_volume] as its stages: the record is read and the host written,
    the driver's [create_volume] runs on the world that leaves, the driver's
    [create_export] on the world after that, and the record is updated on
    the world the export left; the first stage that does not return ends
    the call with what it yielded. *)
Lemma create_volume_steps FLAGS self volume_id w v :
  Store.lookup_volume volume_id (db w) = Some v ->
  let v' := Store.set_value (Host (host self)) v in
  let w1 :=
    {| db := Store.update_volume volume_id [Host (host self)] (db w);
       utcnow := utcnow w;
       trace := trace w ++
                [Db (VolumeGet volume_id);
                 Db (VolumeUpdate volume_id [Host (host self)])] |} in
  let w2 := after (Driver.create_volume FLAGS (driver self) v') w1 in
  let w3 := after (Driver.create_export FLAGS (driver self) v') w2 in
  Manager.create_volume FLAGS self volume_id w =
    match fst (Driver.create_volume FLAGS (driver self) v' w1) with
    | Ret _ =>
        match fst (Driver.create_export FLAGS (driver self) v' w2) with
        | Ret _ =>
            (Ret volume_id,
             {| db := Store.update_volume volume_id
                        [Status "available"; LaunchedAt (utcnow w)] (db w3);
                utcnow := utcnow w;
                trace := trace w3 ++
                         [Db (VolumeUpdate volume_id
                                [Status "available";
                                 LaunchedAt (utcnow w)])] |})
        | Raise e => (Raise e, w3)
        | OutOfFuel => (OutOfFuel, w3)
        end
    | Raise e => (Raise e, w2)
    | OutOfFuel => (OutOfFuel, w2)
    end.
Proof.
  intros Hget v' w1 w2 w3. subst w3 w2. unfold after.
  pose proof (lookup_volume_id _ _ _ Hget) as Hid.
  unfold Manager.create_volume.
  rewrite (bind_ret _ _ _ _ _ (volume_get_found _ _ _ Hget)).
  rewrite (bind_ret _ _ _ _ _
             (volume_update_found volume_id [Host (host self)]
                (add_trace [Db (VolumeGet volume_id)] w) v Hget)).
  cbn [db utcnow trace add_trace]. rewrite <- app_assoc.
  change ([Db (VolumeGet volume_id)] ++
          [Db (VolumeUpdate volume_id [Host (host self)])])
    with [Db (VolumeGet volume_id);
          Db (VolumeUpdate volume_id [Host (host self)])].
  fold v'. fold w1.
  assert (L1 : Store.lookup_volume volume_id (db w1) = Some v')
    by (apply (lookup_update_volume volume_id [Host (host self)]); exact Hget).
  destruct (respects_create_volume eq (@eq_refl store) eq_store_trans
              FLAGS (driver self) v' w1) as (l2 & _ & C2 & D2).
  destruct (Driver.create_volume FLAGS (driver self) v' w1) as [r2 w2] eqn:E2.
  cbn [fst snd] in *.
  destruct r2 as [[]|e|];
    [| now rewrite (bind_raise _ _ _ _ _ E2)
     | now rewrite (bind_out_of_fuel _ _ _ _ E2)].
  rewrite (bind_ret _ _ _ _ _ E2).
  destruct (respects_create_export FLAGS (driver self) v' w2)
    as (l3 & _ & C3 & V3).
  destruct (Driver.create_export FLAGS (driver self) v' w2) as [r3 w3] eqn:E3.
  cbn [fst snd] in *.
  destruct r3 as [[]|e|];
    [| now rewrite (bind_raise _ _ _ _ _ E3)
     | now rewrite (bind_out_of_fuel _ _ _ _ E3)].
  rewrite (bind_ret _ _ _ _ _ E3).
  rewrite (bind_ret _ _ _ _ _
             (eq_refl : Manager.now w3 = (Ret (utcnow w3), w3))).
  assert (L3 : Store.lookup_volume (v_id v') (db w3) = Some v').
  { replace (v_id v') with volume_id by exact (eq_sym Hid).
    rewrite (lookup_same_volumes volume_id _ _ V3). now rewrite <- D2. }
  rewrite (bind_ret _ _ _ _ _ (volume_update_found (v_id v') _ w3 v' L3)).
  unfold ret. replace (v_id v') with volume_id by exact (eq_sym Hid).
  rewrite C3, C2. reflexivity.
Qed.

(** The AoE driver's [create_export] when every command returns and the
    pool yields the pair of row [d]. *)
Lemma aoe_create_export_success FLAGS self volume w d rows :
  Store.allocate_first Store.blade_free (Store.own_blade (v_id volume))
    (ensured_blades FLAGS (export_devices (db w))) = Some (d, rows) ->
  (forall history cmd check, exists o,
     execute self history cmd check = Ret o) ->
  Driver.aoe_create_export FLAGS self volume w =
    (Ret tt,
     {| db := with_export_devices rows (db w);
        utcnow := utcnow w;
        trace := trace w ++
                 blade_ensure_events FLAGS (export_devices (db w)) ++
                 [Db (VolumeAllocateShelfAndBlade (v_id volume));
                  Exec (vblade_setup FLAGS (shelf_id d) (blade_id d) volume);
                  Exec "sleep 2";
                  Exec "sudo vblade-persist auto all";
                  Exec "sudo vblade-persist start all"] |}).
Proof.
  intros Halloc Hall. unfold Driver.aoe_create_export.
  rewrite (bind_ret _ _ _ _ _ (ensure_blades_run FLAGS w)).
  rewrite (bind_ret _ _ _ _ _
             (volume_allocate_shelf_and_blade_run (v_id volume)
                {| db := with_export_devices
                           (ensured_blades FLAGS (export_devices (db w)))
                           (db w);
                   utcnow := utcnow w;
                   trace := trace w ++
                            blade_ensure_events FLAGS
                              (export_devices (db w)) |}
                d rows Halloc)).
  cbn [fst snd].
  change ("sudo vblade-persist setup " ++ Py.str (shelf_id d) ++ " " ++
          Py.str (blade_id d) ++ " " ++ aoe_eth_dev FLAGS ++ " /dev/" ++
          volume_group FLAGS ++ "/" ++ v_name volume)%string
    with (vblade_setup FLAGS (shelf_id d) (blade_id d) volume).
  match goal with
  | |- bind (Driver._try_execute ?F ?s ?c) _ ?w1 = _ =>
      destruct (Hall (trace w1) c true) as [o1 H1];
      rewrite (bind_ret _ _ _ _ _ (try_execute_first_success F s c w1 o1 H1))
  end.
  repeat match goal with
  | |- bind (Driver._execute ?s ?c ?b) _ ?w1 = _ =>
      let o := fresh "o" in
      let Ho := fresh "Ho" in
      destruct (Hall (trace w1) c b) as [o Ho];
      rewrite (bind_ret _ _ _ _ _ (execute_run s c b w1 o Ho))
  end.
  unfold ret, add_trace. cbn [db utcnow trace with_export_devices].
  rewrite <- !app_assoc. reflexivity.
Qed.

(** The whole run over the AoE driver when every command returns and the
    pool yields the pair of row [d]. *)
Lemma create_volume_aoe_success FLAGS self volume_id w v d rows :
  Store.lookup_volume volume_id (db w) = Some v ->
  class (driver self) = AOEDriverClass ->
  (forall history cmd check, exists o,
     execute (driver self) history cmd check = Ret o) ->
  Store.allocate_first Store.blade_free (Store.own_blade volume_id)
    (ensured_blades FLAGS (export_devices (db w))) = Some (d, rows) ->
  Manager.create_volume FLAGS self volume_id w =
    (Ret volume_id,
     {| db := Store.update_volume volume_id
                [Status "available"; LaunchedAt (utcnow w)]
                (with_export_devices rows
                   (Store.update_volume volume_id [Host (host self)] (db w)));
        utcnow := utcnow w;
        trace := trace w ++
                 [Db (VolumeGet volume_id);
                  Db (VolumeUpdate volume_id [Host (host self)]);
                  Exec (lvcreate_command FLAGS v)] ++
                 blade_ensure_events FLAGS (export_devices (db w)) ++
                 [Db (VolumeAllocateShelfAndBlade volume_id);
                  Exec (vblade_setup FLAGS (shelf_id d) (blade_id d) v);
                  Exec "sleep 2";
                  Exec "sudo vblade-persist auto all";
                  Exec "sudo vblade-persist start all";
                  Db (VolumeUpdate volume_id
                        [Status "available"; LaunchedAt (utcnow w)])] |}).
Proof.
  intros Hget Hclass Hall Halloc.
  pose proof (lookup_volume_id _ _ _ Hget) as Hid.
  rewrite (create_volume_steps FLAGS self volume_id w v Hget).
  cbv zeta. unfold after.
  set (v' := Store.set_value (Host (host self)) v).
  set (w1 := {| db := Store.update_volume volume_id [Host (host self)] (db w);
                utcnow := utcnow w;
                trace := trace w ++
                         [Db (VolumeGet volume_id);
                          Db (VolumeUpdate volume_id [Host (host self)])] |}).
  destruct (Hall (trace w1) (lvcreate_command FLAGS v') true) as [o Ho].
  rewrite (driver_create_volume_success FLAGS (driver self) v' w1 o Ho).
  cbn [fst snd].
  unfold Driver.create_export. rewrite Hclass.
  assert (Halloc' :
    Store.allocate_first Store.blade_free (Store.own_blade (v_id v'))
      (ensured_blades FLAGS
         (export_devices
            (db (add_trace [Exec (lvcreate_command FLAGS v')] w1)))) =
      Some (d, rows)).
  { cbn [v_id v' Store.set_value]. rewrite Hid. exact Halloc. }
  rewrite (aoe_create_export_success FLAGS (driver self) v'
             (add_trace [Exec (lvcreate_command FLAGS v')] w1) d rows
             Halloc' Hall).
  cbn [fst snd db utcnow trace add_trace w1 v_id v' Store.set_value].
  rewrite Hid. rewrite <- !app_assoc. reflexivity.
Qed.

(** The run over the base class, whose [create_export] is not
    implemented. *)
Lemma create_volume_base_class FLAGS self volume_id w v :
  Store.lookup_volume volume_id (db w) = Some v ->
  class (driver self) = VolumeDriverClass ->
  (forall history, exists o,
     execute (driver self) history (lvcreate_command FLAGS v) true = Ret o) ->
  Manager.create_volume FLAGS self volume_id w =
    (Raise NotImplementedError,
     {| db := Store.update_volume volume_id [Host (host self)] (db w);
        utcnow := utcnow w;
        trace := trace w ++
                 [Db (VolumeGet volume_id);
                  Db (VolumeUpdate volume_id [Host (host self)]);
                  Exec (lvcreate_command FLAGS v)] |}).
Proof.
  intros Hget Hclass Hlv.
  rewrite (create_volume_steps FLAGS self volume_id w v Hget).
  cbv zeta. unfold after.
  set (v' := Store.set_value (Host (host self)) v).
  set (w1 := {| db := Store.update_volume volume_id [Host (host self)] (db w);
                utcnow := utcnow w;
                trace := trace w ++
                         [Db (VolumeGet volume_id);
                          Db (VolumeUpdate volume_id [Host (host self)])] |}).
  destruct (Hlv (trace w1)) as [o Ho].
  rewrite (driver_create_volume_success FLAGS (driver self) v' w1 o Ho).
  cbn [fst snd]. unfold Driver.create_export. rewrite Hclass.
  unfold raise, add_trace. cbn [fst snd db utcnow trace w1].
  rewrite <- !app_assoc. reflexivity.
Qed.

(** C1: the manager's [create_volume] on a record that is in the store.
    (1) Whatever the driver and whatever [execute] answers, the first three
    events are the read of the record, the write of the manager's host to
    it, and the [lvcreate] command, so the host is in the store before any
    creation of the backing store; the record ends either with status
    "available" and the launch time written, by the last event of a call
    that returned the volume's ID, or with the host alone written.
    (2) Whatever the driver and whatever [execute] answers, the call is its
    four stages in a row: the read of the record and the write of the host,
    the driver's [create_volume] on the world that leaves, the driver's
    [create_export] on the world the creation left, and, only when both
    returned, the update to "available" with the launch time as the one
    event added to the world the export left; a stage that does not return
    ends the call with its outcome and its world.
    (3) With the iSCSI driver, when every command returns and the pool
    yields target [t]: after [lvcreate], the pool is populated, the target
    allocated, the two [ietadm] commands run with that target ID, and only
    then is the record updated to "available" with the launch time.
    (4) With the AoE driver, when every command returns and the pool yields
    the pair of row [d]: after [lvcreate], the pool is populated, the pair
    allocated, [vblade-persist setup] run with that pair, then [sleep 2] and
    the two activation commands, and only then is the record updated.
    (5) With the base class, when [lvcreate] returns, the call raises
    [NotImplementedError] right after it, the record holding the host only.
    (6) For size 2 the [lvcreate] command asks for [2G]. *)
Theorem create_volume_runs_its_steps_in_order
    (FLAGS : flags) (self : volume_manager) (volume_id : Z) (w : world)
    (v : volume) :
  Store.lookup_volume volume_id (db w) = Some v ->
  (exists rest,
     trace (after (Manager.create_volume FLAGS self volume_id) w) =
       trace w ++
       [Db (VolumeGet volume_id);
        Db (VolumeUpdate volume_id [Host (host self)]);
        Exec (lvcreate_command FLAGS v)] ++ rest /\
     ((fst (Manager.create_volume FLAGS self volume_id w) = Ret volume_id /\
       Store.lookup_volume volume_id
         (db (after (Manager.create_volume FLAGS self volume_id) w)) =
         Some (Store.set_values
                 [Host (host self); Status "available";
                  LaunchedAt (utcnow w)] v) /\
       exists mid,
         rest = mid ++
                [Db (VolumeUpdate volume_id
                       [Status "available"; LaunchedAt (utcnow w)])]) \/
      (fst (Manager.create_volume FLAGS self volume_id w) <> Ret volume_id /\
       Store.lookup_volume volume_id
         (db (after (Manager.create_volume FLAGS self volume_id) w)) =
         Some (Store.set_value (Host (host self)) v)))) /\
  (let v' := Store.set_value (Host (host self)) v in
   let w1 :=
     {| db := Store.update_volume volume_id [Host (host self)] (db w);
        utcnow := utcnow w;
        trace := trace w ++
                 [Db (VolumeGet volume_id);
                  Db (VolumeUpdate volume_id [Host (host self)])] |} in
   let w2 := after (Driver.create_volume FLAGS (driver self) v') w1 in
   let w3 := after (Driver.create_export FLAGS (driver self) v') w2 in
   Manager.create_volume FLAGS self volume_id w =
     match fst (Driver.create_volume FLAGS (driver self) v' w1) with
     | Ret _ =>
         match fst (Driver.create_export FLAGS (driver self) v' w2) with
         | Ret _ =>
             (Ret volume_id,
              {| db := Store.update_volume volume_id
                         [Status "available"; LaunchedAt (utcnow w)] (db w3);
                 utcnow := utcnow w;
                 trace := trace w3 ++
                          [Db (VolumeUpdate volume_id
                                 [Status "available";
                                  LaunchedAt (utcnow w)])] |})
         | Raise e => (Raise e, w3)
         | OutOfFuel => (OutOfFuel, w3)
         end
     | Raise e => (Raise e, w2)
     | OutOfFuel => (OutOfFuel, w2)
     end) /\
  (class (driver self) = ISCSIDriverClass ->
   (forall history cmd,
      exists o, execute (driver self) history cmd true = Ret o) ->
   forall t rows,
     Store.allocate_first (Store.target_free (host self))
       (Store.own_target volume_id)
       (ensured_targets FLAGS (host self) (iscsi_targets (db w))) =
       Some (t, rows) ->
     Manager.create_volume FLAGS self volume_id w =
       (Ret volume_id,
        {| db := Store.update_volume volume_id
                   [Status "available"; LaunchedAt (utcnow w)]
                   (with_iscsi_targets rows
                      (Store.update_volume volume_id [Host (host self)]
                         (db w)));
           utcnow := utcnow w;
           trace := trace w ++
                    [Db (VolumeGet volume_id);
                     Db (VolumeUpdate volume_id [Host (host self)]);
                     Exec (lvcreate_command FLAGS v)] ++
                    ensure_events FLAGS (host self) (iscsi_targets (db w)) ++
                    [Db (VolumeAllocateTargetId volume_id (host self));
                     Exec (ietadm_new_target FLAGS (target_id t) v);
                     Exec (ietadm_new_lun FLAGS (target_id t) v);
                     Db (VolumeUpdate volume_id
                           [Status "available";
                            LaunchedAt (utcnow w)])] |})) /\
  (class (driver self) = AOEDriverClass ->
   (forall history cmd check,
      exists o, execute (driver self) history cmd check = Ret o) ->
   forall d rows,
     Store.allocate_first Store.blade_free (Store.own_blade volume_id)
       (ensured_blades FLAGS (export_devices (db w))) = Some (d, rows) ->
     Manager.create_volume FLAGS self volume_id w =
       (Ret volume_id,
        {| db := Store.update_volume volume_id
                   [Status "available"; LaunchedAt (utcnow w)]
                   (with_export_devices rows
                      (Store.update_volume volume_id [Host (host self)]
                         (db w)));
           utcnow := utcnow w;
           trace := trace w ++
                    [Db (VolumeGet volume_id);
                     Db (VolumeUpdate volume_id [Host (host self)]);
                     Exec (lvcreate_command FLAGS v)] ++
                    blade_ensure_events FLAGS (export_devices (db w)) ++
                    [Db (VolumeAllocateShelfAndBlade volume_id);
                     Exec (vblade_setup FLAGS (shelf_id d) (blade_id d) v);
                     Exec "sleep 2";
                     Exec "sudo vblade-persist auto all";
                     Exec "sudo vblade-persist start all";
                     Db (VolumeUpdate volume_id
                           [Status "available";
                            LaunchedAt (utcnow w)])] |})) /\
  (class (driver self) = VolumeDriverClass ->
   (forall history,
      exists o,
        execute (driver self) history (lvcreate_command FLAGS v) true =
          Ret o) ->
   Manager.create_volume FLAGS self volume_id w =
     (Raise NotImplementedError,
      {| db := Store.update_volume volume_id [Host (host self)] (db w);
         utcnow := utcnow w;
         trace := trace w ++
                  [Db (VolumeGet volume_id);
                   Db (VolumeUpdate volume_id [Host (host self)]);
                   Exec (lvcreate_command FLAGS v)] |})) /\
  (v_size v = 2 ->
   lvcreate_command FLAGS v =
     ("sudo lvcreate -L 2G -n " ++ v_name v ++ " " ++
      volume_group FLAGS)%string).
Proof.
  intros Hget. repeat apply conj.
  - now apply create_volume_ordered.
  - now apply create_volume_steps.
  - intros Hclass Hexec t rows Halloc.
    now apply create_volume_iscsi_success.
  - intros Hclass Hexec d rows Halloc.
    now apply create_volume_aoe_success.
  - intros Hclass Hexec. now apply create_volume_base_class.
  - intros H. unfold lvcreate_command. now rewrite H.
Qed.

Lemma create_volume_runs_its_steps_in_order_witness :
  Manager.create_volume default_flags
    {| host := "h1"; driver := FakeISCSIDriver |} 7 requested_world =
    (Ret 7,
     {| db := Store.update_volume 7 [Status "available"; LaunchedAt 1000]
                (with_iscsi_targets
                   (Store.own_target 7 (target_fresh "h1" 1) ::
                    map (target_fresh "h1") (xrange 2 101))
                   (Store.update_volume 7 [Host "h1"] (db requested_world)));
        utcnow := 1000;
        trace :=
          [Db (VolumeGet 7); Db (VolumeUpdate 7 [Host "h1"]);
           Exec "sudo lvcreate -L 2G -n vol-7 nova-volumes"] ++
          ensure_events default_flags "h1" [] ++
          [Db (VolumeAllocateTargetId 7 "h1");
           Exec ("sudo ietadm --op new --tid=1 --params " ++
                 "Name=iqn.2010-10.org.openstack:vol-7");
           Exec ("sudo ietadm --op new --tid=1 --lun=0 --params " ++
                 "Path=/dev/nova-volumes/vol-7,Type=fileio");
           Db (VolumeUpdate 7 [Status "available"; LaunchedAt 1000])] |}).
Proof.
  apply (proj1 (proj2 (proj2 (create_volume_runs_its_steps_in_order
                                default_flags
                                {| host := "h1"; driver := FakeISCSIDriver |}
                                7 requested_world requested_volume
                                eq_refl)))
           eq_refl
           (fun _ _ => ex_intro _ (None, None) eq_refl)
           (target_fresh "h1" 1)
           (Store.own_target 7 (target_fresh "h1" 1) ::
            map (target_fresh "h1") (xrange 2 101))).
  vm_compute. reflexivity.
Defined.
